(** * chatbot_backend: sessions, messages and the regenerate flow

    A shallow embedding of the request handlers of [handlers/chat.go] and
    [handlers/session.go], of [services/ai_service.go] and of
    [services/chat_service.go], over an explicit model of what they touch:
    the two tables behind gorm, the wall clock, the UUID source and the
    completion service. *)

From Stdlib Require Import String Ascii List ZArith Bool Lia.
From Stdlib Require Import DecimalString Sorted Permutation.
Import ListNotations.
Local Open Scope string_scope.
Local Open Scope Z_scope.

(** ** models *)

(** [time.Time] values are compared and stored only; an instant is a
    number on the time line. *)
Definition Time := Z.

(** [models.Session].  The [Messages] association is filled by
    [Preload("Messages")] alone and is carried next to the row where a
    handler loads it. *)
Module Session.
Record t := mk
  { ID : string;
    Title : string;
    CreatedAt : Time;
    UpdatedAt : Time;
    IsFavorite : bool }.

Definition with_Title (v : string) (s : t) : t :=
  mk (ID s) v (CreatedAt s) (UpdatedAt s) (IsFavorite s).
Definition with_UpdatedAt (v : Time) (s : t) : t :=
  mk (ID s) (Title s) (CreatedAt s) v (IsFavorite s).
Definition with_IsFavorite (v : bool) (s : t) : t :=
  mk (ID s) (Title s) (CreatedAt s) (UpdatedAt s) v.
End Session.

(** [models.Message].  The [Reactions] association is never loaded nor
    written by the handlers below. *)
Module Message.
Record t := mk
  { ID : string;
    Content : string;
    Sender : string;
    Timestamp : Time;
    MessageType : string;
    IsTyping : bool;
    IsFavorite : bool;
    IsRegenerated : bool;
    OriginalMessageID : string;
    SessionID : string }.

Definition with_IsRegenerated (v : bool) (m : t) : t :=
  mk (ID m) (Content m) (Sender m) (Timestamp m) (MessageType m)
     (IsTyping m) (IsFavorite m) v (OriginalMessageID m) (SessionID m).
Definition with_OriginalMessageID (v : string) (m : t) : t :=
  mk (ID m) (Content m) (Sender m) (Timestamp m) (MessageType m)
     (IsTyping m) (IsFavorite m) (IsRegenerated m) v (SessionID m).
End Message.

(** ** Results *)

Inductive result (E A : Type) : Type :=
| Ok (a : A)
| Err (e : E).
Arguments Ok {E A} a.
Arguments Err {E A} e.

(** The errors a gorm statement hands back.  [ErrRecordNotFound] is what
    [First] reports on an empty result; [ErrUnsupportedRelation] is what
    [Preload] reports for a name that is no association of the model; the
    three constraint errors come from the schema of [database_setup.sql];
    [ErrInvalidDB] stands for every other failure of the statement
    (connection lost, statement refused). *)
Inductive gorm_error : Type :=
| ErrRecordNotFound
| ErrUnsupportedRelation
| ErrDuplicatedKey
| ErrForeignKeyViolated
| ErrCheckConstraintViolated
| ErrInvalidDB.

(** ** The world a handler runs in *)

(** The tables [sessions] and [messages], rows in insertion order. *)
Record DB := mkDB
  { sessions : list Session.t;
    messages : list Message.t }.

(** [clock n] is what the n-th coming call of [time.Now()] reads, [ids n]
    what the n-th coming [uuid.New().String()] yields, and [faults n] tells
    whether the n-th coming gorm statement fails with a storage error
    whatever the tables hold. *)
Record World := mkWorld
  { db : DB;
    clock : nat -> Time;
    ids : nat -> string;
    faults : nat -> bool }.

Definition tl_of {A : Type} (f : nat -> A) : nat -> A := fun n => f (S n).

Definition time_Now (w : World) : Time * World :=
  (clock w 0%nat, mkWorld (db w) (tl_of (clock w)) (ids w) (faults w)).

Definition uuid_New (w : World) : string * World :=
  (ids w 0%nat, mkWorld (db w) (clock w) (tl_of (ids w)) (faults w)).

(** One gorm statement: a storage fault leaves the tables as they are. *)
Definition statement {A : Type} (run : DB -> result gorm_error A * DB)
    (w : World) : result gorm_error A * World :=
  if faults w 0%nat
  then (Err ErrInvalidDB, mkWorld (db w) (clock w) (ids w) (tl_of (faults w)))
  else let '(r, d) := run (db w) in
       (r, mkWorld d (clock w) (ids w) (tl_of (faults w))).

(** ** The statements the handlers issue *)

Definition session_has_id (id : string) (s : Session.t) : bool :=
  String.eqb (Session.ID s) id.
Definition message_has_id (id : string) (m : Message.t) : bool :=
  String.eqb (Message.ID m) id.
Definition message_in_session (sid : string) (m : Message.t) : bool :=
  String.eqb (Message.SessionID m) sid.

Definition find_session (id : string) (d : DB) : option Session.t :=
  find (session_has_id id) (sessions d).
Definition find_message (id : string) (d : DB) : option Message.t :=
  find (message_has_id id) (messages d).

(** [db.First(&session, "id = ?", id)] *)
Definition First_session (id : string) : World -> result gorm_error Session.t * World :=
  statement (fun d =>
    match find_session id d with
    | Some s => (Ok s, d)
    | None => (Err ErrRecordNotFound, d)
    end).

(** [db.Preload("Mode").First(&session, "id = ?", id)].  [models.Session]
    declares the association [Messages] and no association [Mode]: when no
    row has the id the statement reports [ErrRecordNotFound], and when the
    row is loaded the preload that follows reports [ErrUnsupportedRelation].
    The statement reads and never succeeds. *)
Definition First_session_Preload_Mode (id : string)
  : World -> result gorm_error Session.t * World :=
  statement (fun d =>
    match find_session id d with
    | Some _ => (Err ErrUnsupportedRelation, d)
    | None => (Err ErrRecordNotFound, d)
    end).

(** [db.First(&message, "id = ?", id)] *)
Definition First_message (id : string) : World -> result gorm_error Message.t * World :=
  statement (fun d =>
    match find_message id d with
    | Some m => (Ok m, d)
    | None => (Err ErrRecordNotFound, d)
    end).

(** [db.Create(&session)]: [id] is the primary key. *)
Definition Create_session (s : Session.t) : World -> result gorm_error unit * World :=
  statement (fun d =>
    if existsb (session_has_id (Session.ID s)) (sessions d)
    then (Err ErrDuplicatedKey, d)
    else (Ok tt, mkDB (sessions d ++ [s]) (messages d))).

(** The CHECK constraint of [messages.sender]. *)
Definition sender_allowed (s : string) : bool :=
  String.eqb s "user" || String.eqb s "bot".

(** [db.Create(&message)]: primary key, CHECK on [sender], and the foreign
    key from [session_id] to [sessions.id]. *)
Definition Create_message (m : Message.t) : World -> result gorm_error unit * World :=
  statement (fun d =>
    if existsb (message_has_id (Message.ID m)) (messages d)
    then (Err ErrDuplicatedKey, d)
    else if negb (sender_allowed (Message.Sender m))
    then (Err ErrCheckConstraintViolated, d)
    else if negb (existsb (session_has_id (Message.SessionID m)) (sessions d))
    then (Err ErrForeignKeyViolated, d)
    else (Ok tt, mkDB (sessions d) (messages d ++ [m]))).

(** What [UPDATE ... WHERE id = ?] leaves of a table: the rows with the
    key of [s] are overwritten by [s]. *)
Definition overwrite_session (s : Session.t) (l : list Session.t) : list Session.t :=
  map (fun x => if session_has_id (Session.ID s) x then s else x) l.
Definition overwrite_message (m : Message.t) (l : list Message.t) : list Message.t :=
  map (fun x => if message_has_id (Message.ID m) x then m else x) l.

(** [db.Save(&session)]: every column of the row with that primary key is
    overwritten; a row that is not there is inserted. *)
Definition Save_session (s : Session.t) : World -> result gorm_error unit * World :=
  statement (fun d =>
    if existsb (session_has_id (Session.ID s)) (sessions d)
    then (Ok tt, mkDB (overwrite_session s (sessions d)) (messages d))
    else (Ok tt, mkDB (sessions d ++ [s]) (messages d))).

(** [db.Save(&message)].  The handlers save a row they have just loaded,
    flags apart, so the sender it was inserted with is not checked again. *)
Definition Save_message (m : Message.t) : World -> result gorm_error unit * World :=
  statement (fun d =>
    if existsb (message_has_id (Message.ID m)) (messages d)
    then (Ok tt, mkDB (sessions d) (overwrite_message m (messages d)))
    else if negb (existsb (session_has_id (Message.SessionID m)) (sessions d))
    then (Err ErrForeignKeyViolated, d)
    else (Ok tt, mkDB (sessions d) (messages d ++ [m]))).

(** [db.Where("session_id = ?", sid).Delete(&models.Message{})]: no row to
    delete is no error. *)
Definition Delete_messages_of (sid : string) : World -> result gorm_error unit * World :=
  statement (fun d =>
    (Ok tt, mkDB (sessions d)
                 (filter (fun m => negb (message_in_session sid m)) (messages d)))).

(** [db.Delete(&session)] and [db.Where("id = ?", id).Delete(&models.Session{})]:
    the row goes, and with it (ON DELETE CASCADE) the messages that refer to
    it; no row to delete is no error. *)
Definition Delete_session (id : string) : World -> result gorm_error unit * World :=
  statement (fun d =>
    (Ok tt, mkDB (filter (fun s => negb (session_has_id id s)) (sessions d))
                 (filter (fun m => negb (message_in_session id m)) (messages d)))).

(** The rows that [Where("session_id = ? AND sender = ? AND timestamp < ?",
    sid, "user", t)] keeps. *)
Definition earlier_user_message (sid : string) (t : Time) (m : Message.t) : bool :=
  message_in_session sid m && String.eqb (Message.Sender m) "user"
  && (Message.Timestamp m <? t).

(** [Order("timestamp DESC")] followed by [First], which orders what is
    left by primary key: [a] is served before [b]. *)
Definition served_before (a b : Message.t) : bool :=
  (Message.Timestamp b <? Message.Timestamp a)
  || ((Message.Timestamp a =? Message.Timestamp b)
      && String.ltb (Message.ID a) (Message.ID b)).

Definition first_served (l : list Message.t) : option Message.t :=
  fold_left (fun best m =>
               match best with
               | None => Some m
               | Some b => if served_before m b then Some m else Some b
               end) l None.

Definition previous_user_message (sid : string) (t : Time) (d : DB) : option Message.t :=
  first_served (filter (earlier_user_message sid t) (messages d)).

(** [db.Where(...).Order("timestamp DESC").First(&userMessage)] *)
Definition First_previous_user_message (sid : string) (t : Time)
  : World -> result gorm_error Message.t * World :=
  statement (fun d =>
    match previous_user_message sid t d with
    | Some m => (Ok m, d)
    | None => (Err ErrRecordNotFound, d)
    end).

(** [db.Preload("Messages").First(&session, "id = ?", id)]: the row and the
    messages that refer to it. *)
Definition First_session_with_messages (id : string)
  : World -> result gorm_error (Session.t * list Message.t) * World :=
  statement (fun d =>
    match find_session id d with
    | Some s => (Ok (s, filter (message_in_session id) (messages d)), d)
    | None => (Err ErrRecordNotFound, d)
    end).

(** [Order(...)] followed by [Find]: the rows by ascending key.  Where SQL
    leaves the order of rows with equal keys open they are served here in
    table order. *)
Fixpoint insert_by {A : Type} (le : A -> A -> bool) (x : A) (l : list A) : list A :=
  match l with
  | [] => [x]
  | y :: l' => if le x y then x :: y :: l' else y :: insert_by le x l'
  end.

Definition order_by {A : Type} (le : A -> A -> bool) (l : list A) : list A :=
  fold_right (insert_by le) [] l.

(** [Order("timestamp ASC")] and [Order("updated_at DESC")] *)
Definition timestamp_asc (a b : Message.t) : bool :=
  Message.Timestamp a <=? Message.Timestamp b.
Definition updated_at_desc (a b : Session.t) : bool :=
  Session.UpdatedAt b <=? Session.UpdatedAt a.

(** [db.Where("session_id = ?", sid).Order("timestamp ASC").Find(&messages)]:
    no row found is no error. *)
Definition Find_messages_of (sid : string)
  : World -> result gorm_error (list Message.t) * World :=
  statement (fun d =>
    (Ok (order_by timestamp_asc (filter (message_in_session sid) (messages d))), d)).

(** [db.Order("updated_at DESC").Find(&sessions)] *)
Definition Find_sessions : World -> result gorm_error (list Session.t) * World :=
  statement (fun d => (Ok (order_by updated_at_desc (sessions d)), d)).

(** [db.Where("is_favorite = ?", true).Order("updated_at DESC").Find(&sessions)] *)
Definition Find_favorite_sessions : World -> result gorm_error (list Session.t) * World :=
  statement (fun d =>
    (Ok (order_by updated_at_desc (filter Session.IsFavorite (sessions d))), d)).

(** [db.Model(&models.Session{}).Where("id = ?", id).Update("updated_at", t)]:
    no row to update is no error. *)
Definition Update_session_updated_at (id : string) (t : Time)
  : World -> result gorm_error unit * World :=
  statement (fun d =>
    (Ok tt, mkDB (map (fun s => if session_has_id id s
                                then Session.with_UpdatedAt t s else s)
                      (sessions d))
                 (messages d))).

(** ** services: the completion client *)

Module services.

(** [type AIService interface] *)
Record AIService := mkAIService
  { SendMessage : string -> result string string;
    RegenerateMessage : string -> result string string }.

(** [MockAIService] never fails. *)
Definition MockAIService : AIService :=
  {| SendMessage := fun message => Ok ("Mock response to: " ++ message);
     RegenerateMessage := fun message => Ok ("Mock regenerated response to: " ++ message) |}.

(** The chat request [OpenAIService] posts; [Temperature] in tenths. *)
Record OpenAIRequest := mkOpenAIRequest
  { Model : string;
    Messages : list (string * string);
    MaxTokens : Z;
    Temperature : Z }.

(** [OpenAIService]: what [makeRequest] brings back over the network is
    the environment's. *)
Definition OpenAIService (makeRequest : OpenAIRequest -> result string string) : AIService :=
  {| SendMessage := fun message =>
       makeRequest (mkOpenAIRequest "gpt-3.5-turbo"
         [("system", "You are a helpful assistant. Provide clear and useful responses to user questions.");
          ("user", message)] 1000 7);
     RegenerateMessage := fun message =>
       makeRequest (mkOpenAIRequest "gpt-3.5-turbo"
         [("system", "You are a helpful assistant. Please provide a different perspective or approach to the user's question.");
          ("user", message)] 1000 8) |}.

(** [type OpenAIService struct]; the timeout of [Client] in seconds. *)
Record OpenAI := mkOpenAI
  { APIKey : string;
    APIURL : string;
    Timeout : Z }.

(** [NewOpenAIService]: key and URL are read from the process environment. *)
Definition NewOpenAIService (getenv : string -> string) : OpenAI :=
  mkOpenAI (getenv "AI_API_KEY") (getenv "AI_API_URL") 30.

(** How far one call of [makeRequest] gets: the step that fails, with the
    text of its error, or the status and body of the response read. *)
Inductive exchange : Type :=
| MarshalFailed (err : string)
| NewRequestFailed (err : string)
| DoFailed (err : string)
| ReadFailed (err : string)
| Responded (status : Z) (body : string).

(** What [makeRequest] relies on outside this repository: the round trip
    of the POST to a URL with a bearer token, and [json.Unmarshal] of a body
    into [APIError] (its [Message]) and into [OpenAIResponse] (role and
    content of the message of each choice). *)
Record Outside := mkOutside
  { post : string -> string -> OpenAIRequest -> exchange;
    UnmarshalAPIError : string -> result string string;
    UnmarshalResponse : string -> result string (list (string * string)) }.

(** [OpenAIService.makeRequest] *)
Definition makeRequest (o : Outside) (s : OpenAI) (request : OpenAIRequest)
  : result string string :=
  match post o (APIURL s) ("Bearer " ++ APIKey s) request with
  | MarshalFailed err => Err ("failed to marshal request: " ++ err)
  | NewRequestFailed err => Err ("failed to create request: " ++ err)
  | DoFailed err => Err ("failed to make request: " ++ err)
  | ReadFailed err => Err ("failed to read response: " ++ err)
  | Responded status body =>
      if negb (status =? 200) then
        match UnmarshalAPIError o body with
        | Err _ => Err ("API request failed with status "
                        ++ NilZero.string_of_int (Z.to_int status) ++ ": " ++ body)
        | Ok message => Err ("API error: " ++ message)
        end
      else
        match UnmarshalResponse o body with
        | Err err => Err ("failed to unmarshal response: " ++ err)
        | Ok [] => Err "no response choices received"
        | Ok (choice :: _) => Ok (snd choice)
        end
  end.

(** [*OpenAIService] as an [AIService]. *)
Definition OpenAIClient (o : Outside) (s : OpenAI) : AIService :=
  OpenAIService (makeRequest o s).

End services.

(** ** handlers: requests and responses *)

Module ErrorResponse.
Record t := mk
  { Error : string;
    Message : string;
    Code : Z }.
End ErrorResponse.

Module SendMessageRequest.
Record t := mk
  { Message : string;
    SessionID : string }.
End SendMessageRequest.

Module SendMessageResponse.
Record t := mk
  { Message : Message.t;
    SessionID : string }.
End SendMessageResponse.

Module RegenerateMessageRequest.
Record t := mk
  { MessageID : string;
    SessionID : string }.
End RegenerateMessageRequest.

Module CreateSessionRequest.
Record t := mk
  { Title : string }.
End CreateSessionRequest.

(** [IsFavorite *bool]: [None] is the nil pointer. *)
Module UpdateSessionRequest.
Record t := mk
  { Title : string;
    IsFavorite : option bool }.
End UpdateSessionRequest.

Definition StatusOK : Z := 200.
Definition StatusCreated : Z := 201.
Definition StatusBadRequest : Z := 400.
Definition StatusNotFound : Z := 404.
Definition StatusInternalServerError : Z := 500.

(** The JSON bodies the handlers write.  A session is written with its
    [messages] field, empty unless preloaded. *)
Inductive Body : Type :=
| JError (e : ErrorResponse.t)
| JSend (r : SendMessageResponse.t)
| JMessage (m : Message.t)
| JSession (s : Session.t) (ms : list Message.t)
| JSessionNote (s : Session.t) (note : string)
| JNote (note : string).

Record Response := mkResponse
  { Status : Z;
    Payload : Body }.

Definition error_response (code : Z) (error message : string) : Response :=
  mkResponse code (JError (ErrorResponse.mk error message code)).

(** The request body as [c.ShouldBindJSON] meets it: either it does not
    decode into the request struct, or it does. *)
Inductive json_body (A : Type) : Type :=
| Malformed (err : string)
| Decoded (v : A).
Arguments Malformed {A} err.
Arguments Decoded {A} v.

(** [binding:"required"] refuses the zero value of the field. *)
Definition ShouldBindJSON {A : Type} (required : A -> list (string * string))
    (c : json_body A) : result string A :=
  match c with
  | Malformed err => Err err
  | Decoded v =>
      match filter (fun f => String.eqb (snd f) "") (required v) with
      | [] => Ok v
      | f :: _ => Err ("Field validation for '" ++ fst f ++ "' failed on the 'required' tag")
      end
  end.

(** ** The handler monad *)

(** A handler either goes on with a value or has written its response and
    returned. *)
Inductive flow (A : Type) : Type :=
| Next (a : A)
| Replied (r : Response).
Arguments Next {A} a.
Arguments Replied {A} r.

Definition M (A : Type) : Type := World -> flow A * World.

Definition ret {A : Type} (a : A) : M A := fun w => (Next a, w).

Definition bind {A B : Type} (m : M A) (k : A -> M B) : M B :=
  fun w => match m w with
           | (Next a, w') => k a w'
           | (Replied r, w') => (Replied r, w')
           end.

Definition lift {A : Type} (f : World -> A * World) : M A :=
  fun w => let '(a, w') := f w in (Next a, w').

(** [c.JSON(code, body); return] *)
Definition c_JSON {A : Type} (r : Response) : M A := fun w => (Replied r, w).

(** [if err := stmt.Error; err != nil { c.JSON(...); return }] *)
Definition or_reply {A : Type} (stmt : World -> result gorm_error A * World)
    (r : Response) : M A :=
  fun w => match stmt w with
           | (Ok a, w') => (Next a, w')
           | (Err _, w') => (Replied r, w')
           end.

Declare Scope handler_scope.
Delimit Scope handler_scope with handler.
Notation "x <- m ;; k" := (bind m (fun x => k))
  (at level 61, m at next level, right associativity) : handler_scope.
Notation "m ;;; k" := (bind m (fun _ => k))
  (at level 61, right associativity) : handler_scope.

(** A gin handler: every path ends in a response. *)
Definition Handler : Type := M Empty_set.

Definition serve (h : Handler) (w : World) : Response * World :=
  match h w with
  | (Replied r, w') => (r, w')
  | (Next e, _) => match e with end
  end.

(** ** handlers/chat.go *)

Local Open Scope handler_scope.

Definition SendMessageRequest_required (v : SendMessageRequest.t) : list (string * string) :=
  [("Message", SendMessageRequest.Message v)].

Definition RegenerateMessageRequest_required (v : RegenerateMessageRequest.t)
  : list (string * string) :=
  [("MessageID", RegenerateMessageRequest.MessageID v);
   ("SessionID", RegenerateMessageRequest.SessionID v)].

(** [if err := c.ShouldBindJSON(&req); err != nil { 400 }] *)
Definition bind_request {A : Type} (required : A -> list (string * string))
    (c : json_body A) : M A :=
  match ShouldBindJSON required c with
  | Ok req => ret req
  | Err e => c_JSON (error_response StatusBadRequest "Invalid request" e)
  end.

(** "Create or get session".  With a sessionId the session is looked up
    through [Preload("Mode")], an association [models.Session] does not
    declare, so the lookup reports an error whether or not the row is
    there. *)
Definition SendMessage_session (req : SendMessageRequest.t) : M Session.t :=
  if negb (String.eqb (SendMessageRequest.SessionID req) "") then
    or_reply (First_session_Preload_Mode (SendMessageRequest.SessionID req))
             (error_response StatusNotFound "Session not found"
                             "The specified session does not exist")
  else
    id <- lift uuid_New ;;
    createdAt <- lift time_Now ;;
    updatedAt <- lift time_Now ;;
    let session := Session.mk id "New Chat" createdAt updatedAt false in
    or_reply (Create_session session)
             (error_response StatusInternalServerError "Database error"
                             "Failed to create session") ;;;
    ret session.

(** "Create user message" *)
Definition SendMessage_userMessage (req : SendMessageRequest.t) (session : Session.t)
  : M Message.t :=
  id <- lift uuid_New ;;
  timestamp <- lift time_Now ;;
  let userMessage :=
    Message.mk id (SendMessageRequest.Message req) "user" timestamp "text"
               false false false "" (Session.ID session) in
  or_reply (Create_message userMessage)
           (error_response StatusInternalServerError "Database error"
                           "Failed to save user message") ;;;
  ret userMessage.

(** "Get AI response" *)
Definition SendMessage_aiResponse (aiService : services.AIService)
    (req : SendMessageRequest.t) : M string :=
  match services.SendMessage aiService (SendMessageRequest.Message req) with
  | Ok aiResponse => ret aiResponse
  | Err _ => c_JSON (error_response StatusInternalServerError "AI Service error"
                                    "Failed to get AI response")
  end.

(** "Create bot message" *)
Definition SendMessage_botMessage (aiResponse : string) (session : Session.t)
  : M Message.t :=
  id <- lift uuid_New ;;
  timestamp <- lift time_Now ;;
  let botMessage :=
    Message.mk id aiResponse "bot" timestamp "text"
               false false false "" (Session.ID session) in
  or_reply (Create_message botMessage)
           (error_response StatusInternalServerError "Database error"
                           "Failed to save bot message") ;;;
  ret botMessage.

(** "Update session timestamp": [session.UpdatedAt = time.Now()] and
    [db.Save(&session)], handing back what [Save] reports. *)
Definition SendMessage_touch (session : Session.t)
  : World -> result gorm_error unit * World :=
  fun w => let '(now, w') := time_Now w in
           Save_session (Session.with_UpdatedAt now session) w'.

(** [handlers.SendMessage]: the result of the final [Save] is dropped. *)
Definition SendMessage (aiService : services.AIService)
    (c : json_body SendMessageRequest.t) : Handler :=
  req <- bind_request SendMessageRequest_required c ;;
  session <- SendMessage_session req ;;
  userMessage <- SendMessage_userMessage req session ;;
  aiResponse <- SendMessage_aiResponse aiService req ;;
  botMessage <- SendMessage_botMessage aiResponse session ;;
  lift (SendMessage_touch session) ;;;
  c_JSON (mkResponse StatusOK
            (JSend (SendMessageResponse.mk botMessage (Session.ID session)))).

(** "Mark original message as regenerated": the two assignments, *)
Definition mark_regenerated (originalMessage : Message.t) : Message.t :=
  Message.with_OriginalMessageID (Message.ID originalMessage)
    (Message.with_IsRegenerated true originalMessage).

(** and [db.Save(&originalMessage)], handing back what [Save] reports. *)
Definition RegenerateMessage_mark (originalMessage : Message.t)
  : World -> result gorm_error unit * World :=
  Save_message (mark_regenerated originalMessage).

(** "Get new AI response" *)
Definition RegenerateMessage_aiResponse (aiService : services.AIService)
    (userMessage : Message.t) : M string :=
  match services.RegenerateMessage aiService (Message.Content userMessage) with
  | Ok aiResponse => ret aiResponse
  | Err _ => c_JSON (error_response StatusInternalServerError "AI Service error"
                                    "Failed to regenerate message")
  end.

(** "Create new bot message" *)
Definition RegenerateMessage_newMessage (aiResponse : string)
    (req : RegenerateMessageRequest.t) : M Message.t :=
  id <- lift uuid_New ;;
  timestamp <- lift time_Now ;;
  let newMessage :=
    Message.mk id aiResponse "bot" timestamp "text" false false true
               (RegenerateMessageRequest.MessageID req)
               (RegenerateMessageRequest.SessionID req) in
  or_reply (Create_message newMessage)
           (error_response StatusInternalServerError "Database error"
                           "Failed to save regenerated message") ;;;
  ret newMessage.

(** [handlers.RegenerateMessage]: the loaded session is not used again, and
    the result of the [Save] of the original message is dropped. *)
Definition RegenerateMessage (aiService : services.AIService)
    (c : json_body RegenerateMessageRequest.t) : Handler :=
  req <- bind_request RegenerateMessageRequest_required c ;;
  originalMessage <-
    or_reply (First_message (RegenerateMessageRequest.MessageID req))
             (error_response StatusNotFound "Message not found"
                             "The specified message does not exist") ;;
  session <-
    or_reply (First_session (RegenerateMessageRequest.SessionID req))
             (error_response StatusNotFound "Session not found"
                             "The specified session does not exist") ;;
  userMessage <-
    or_reply (First_previous_user_message
                (RegenerateMessageRequest.SessionID req)
                (Message.Timestamp originalMessage))
             (error_response StatusNotFound "User message not found"
                             "Could not find the user message to regenerate") ;;
  lift (RegenerateMessage_mark originalMessage) ;;;
  aiResponse <- RegenerateMessage_aiResponse aiService userMessage ;;
  newMessage <- RegenerateMessage_newMessage aiResponse req ;;
  c_JSON (mkResponse StatusOK (JMessage newMessage)).

(** ** handlers/session.go *)

Definition no_required {A : Type} (_ : A) : list (string * string) := [].

(** [handlers.CreateSession] *)
Definition CreateSession (c : json_body CreateSessionRequest.t) : Handler :=
  req <- bind_request no_required c ;;
  let title := if String.eqb (CreateSessionRequest.Title req) ""
               then "New Chat" else CreateSessionRequest.Title req in
  id <- lift uuid_New ;;
  createdAt <- lift time_Now ;;
  updatedAt <- lift time_Now ;;
  let session := Session.mk id title createdAt updatedAt false in
  or_reply (Create_session session)
           (error_response StatusInternalServerError "Database error"
                           "Failed to create session") ;;;
  c_JSON (mkResponse StatusCreated (JSession session [])).

(** [handlers.GetSession] *)
Definition GetSession (sessionID : string) : Handler :=
  loaded <-
    or_reply (First_session_with_messages sessionID)
             (error_response StatusNotFound "Session not found"
                             "The specified session does not exist") ;;
  c_JSON (mkResponse StatusOK (JSession (fst loaded) (snd loaded))).

(** "Update fields if provided" *)
Definition apply_update (req : UpdateSessionRequest.t) (now : Time) (session : Session.t)
  : Session.t :=
  let session := if negb (String.eqb (UpdateSessionRequest.Title req) "")
                 then Session.with_Title (UpdateSessionRequest.Title req) session
                 else session in
  let session := match UpdateSessionRequest.IsFavorite req with
                 | Some isFavorite => Session.with_IsFavorite isFavorite session
                 | None => session
                 end in
  Session.with_UpdatedAt now session.

(** [handlers.UpdateSession] *)
Definition UpdateSession (sessionID : string) (c : json_body UpdateSessionRequest.t)
  : Handler :=
  req <- bind_request no_required c ;;
  session <-
    or_reply (First_session sessionID)
             (error_response StatusNotFound "Session not found"
                             "The specified session does not exist") ;;
  now <- lift time_Now ;;
  let session := apply_update req now session in
  or_reply (Save_session session)
           (error_response StatusInternalServerError "Database error"
                           "Failed to update session") ;;;
  c_JSON (mkResponse StatusOK (JSession session [])).

(** [handlers.DeleteSession]: "Check if session exists" comes first. *)
Definition DeleteSession (sessionID : string) : Handler :=
  session <-
    or_reply (First_session sessionID)
             (error_response StatusNotFound "Session not found"
                             "The specified session does not exist") ;;
  or_reply (Delete_messages_of sessionID)
           (error_response StatusInternalServerError "Database error"
                           "Failed to delete session messages") ;;;
  or_reply (Delete_session (Session.ID session))
           (error_response StatusInternalServerError "Database error"
                           "Failed to delete session") ;;;
  c_JSON (mkResponse StatusOK (JNote "Session deleted successfully")).

(** [handlers.ToggleFavorite] *)
Definition ToggleFavorite (sessionID : string) : Handler :=
  session <-
    or_reply (First_session sessionID)
             (error_response StatusNotFound "Session not found"
                             "The specified session does not exist") ;;
  now <- lift time_Now ;;
  let session :=
    Session.with_UpdatedAt now
      (Session.with_IsFavorite (negb (Session.IsFavorite session)) session) in
  or_reply (Save_session session)
           (error_response StatusInternalServerError "Database error"
                           "Failed to update session") ;;;
  c_JSON (mkResponse StatusOK (JSessionNote session "Favorite status updated")).

Local Close Scope handler_scope.

(** ** handlers: the listings *)

(** What a listing handler writes: the status, and the rows or the error
    body. *)
Record Listed (A : Type) := mkListed
  { ListStatus : Z;
    Rows : result ErrorResponse.t (list A) }.
Arguments mkListed {A} ListStatus Rows.
Arguments ListStatus {A} l.
Arguments Rows {A} l.

Definition listing {A : Type} (found : result gorm_error (list A)) (message : string)
  : Listed A :=
  match found with
  | Ok rows => mkListed StatusOK (Ok rows)
  | Err _ => mkListed StatusInternalServerError
               (Err (ErrorResponse.mk "Database error" message
                                      StatusInternalServerError))
  end.

(** [handlers.GetMessages] *)
Definition GetMessages (sessionID : string) (w : World) : Listed Message.t * World :=
  let '(found, w') := Find_messages_of sessionID w in
  (listing found "Failed to retrieve messages", w').

(** [handlers.GetSessions] *)
Definition GetSessions (w : World) : Listed Session.t * World :=
  let '(found, w') := Find_sessions w in
  (listing found "Failed to retrieve sessions", w').

(** ** services/chat_service.go *)

Module ChatService.

(** A method of the service hands back a value or the error of the
    statement that failed. *)
Definition andThen {A B : Type} (m : World -> result gorm_error A * World)
    (k : A -> World -> result gorm_error B * World)
  : World -> result gorm_error B * World :=
  fun w => match m w with
           | (Ok a, w') => k a w'
           | (Err e, w') => (Err e, w')
           end.

Definition GetSession (sessionID : string)
  : World -> result gorm_error (Session.t * list Message.t) * World :=
  First_session_with_messages sessionID.

Definition UpdateSession (sessionID title : string) (isFavorite : option bool)
  : World -> result gorm_error Session.t * World :=
  andThen (First_session sessionID) (fun session w =>
    let '(now, w') := time_Now w in
    let session := apply_update (UpdateSessionRequest.mk title isFavorite) now session in
    andThen (Save_session session) (fun _ w'' => (Ok session, w'')) w').

(** [ChatService.DeleteSession]: "Delete associated messages first", then
    "Delete session"; [nil] when neither statement fails. *)
Definition DeleteSession (sessionID : string)
  : World -> result gorm_error unit * World :=
  andThen (Delete_messages_of sessionID) (fun _ =>
  andThen (Delete_session sessionID) (fun _ w => (Ok tt, w))).

(** [ChatService.CreateSession]: the title is stored as given. *)
Definition CreateSession (title : string)
  : World -> result gorm_error Session.t * World :=
  fun w =>
    let '(id, w1) := uuid_New w in
    let '(createdAt, w2) := time_Now w1 in
    let '(updatedAt, w3) := time_Now w2 in
    let session := Session.mk id title createdAt updatedAt false in
    andThen (Create_session session) (fun _ w' => (Ok session, w')) w3.

Definition GetSessions : World -> result gorm_error (list Session.t) * World :=
  Find_sessions.

(** [ChatService.AddMessage]: the insert, then "Update session timestamp";
    an error of the second statement is handed back with the message
    inserted. *)
Definition AddMessage (sessionID content sender messageType : string)
  : World -> result gorm_error Message.t * World :=
  fun w =>
    let '(id, w1) := uuid_New w in
    let '(timestamp, w2) := time_Now w1 in
    let message :=
      Message.mk id content sender timestamp messageType false false false ""
                 sessionID in
    andThen (Create_message message) (fun _ w3 =>
      let '(now, w4) := time_Now w3 in
      andThen (Update_session_updated_at sessionID now)
              (fun _ w5 => (Ok message, w5)) w4) w2.

Definition GetMessages (sessionID : string)
  : World -> result gorm_error (list Message.t) * World :=
  Find_messages_of sessionID.

Definition ToggleFavorite (sessionID : string)
  : World -> result gorm_error Session.t * World :=
  andThen (First_session sessionID) (fun session w =>
    let '(now, w') := time_Now w in
    let session :=
      Session.with_UpdatedAt now
        (Session.with_IsFavorite (negb (Session.IsFavorite session)) session) in
    andThen (Save_session session) (fun _ w'' => (Ok session, w'')) w').

Definition GetFavoriteSessions : World -> result gorm_error (list Session.t) * World :=
  Find_favorite_sessions.

End ChatService.

(** ** Assumptions on the environment, and sample worlds *)

(** The next [n] gorm statements meet no storage fault. *)
Definition storage_ok (n : nat) (w : World) : Prop :=
  forall i, (i < n)%nat -> faults w i = false.

(** The wall clock does not run backwards. *)
Definition clock_monotone (w : World) : Prop :=
  forall i j, (i <= j)%nat -> clock w i <= clock w j.

(** No row of [messages] has the identifier that [uuid.New()] yields next. *)
Definition next_id_fresh (w : World) : Prop :=
  existsb (message_has_id (ids w 0%nat)) (messages (db w)) = false.

Definition no_faults : nat -> bool := fun _ => false.
Definition fault_at (k : nat) : nat -> bool := fun n => Nat.eqb n k.
Definition ticking (start : Time) : nat -> Time := fun n => start + Z.of_nat n.
Definition ids_from (l : list string) : nat -> string := fun n => nth n l "id-n".

(** A completion client that is down. *)
Definition FailingAIService : services.AIService :=
  services.mkAIService (fun _ => Err "failed to make request")
                       (fun _ => Err "failed to make request").

Definition empty_world : World :=
  mkWorld (mkDB [] []) (ticking 100) (ids_from ["s-1"; "m-1"; "m-2"]) no_faults.

(** The same, with a storage fault waiting for the fourth statement. *)
Definition save_fault_world : World :=
  mkWorld (mkDB [] []) (ticking 100) (ids_from ["s-1"; "m-1"; "m-2"]) (fault_at 3).

Definition hi_request : SendMessageRequest.t := SendMessageRequest.mk "Hi" "".

(** One conversation: session [s-1] holding the user message [m-1] and the
    bot reply [m-2]; a second session [s-2]. *)
Definition session_1 : Session.t := Session.mk "s-1" "New Chat" 100 104 false.
Definition session_2 : Session.t := Session.mk "s-2" "Other" 110 111 true.
Definition user_hi : Message.t :=
  Message.mk "m-1" "Hi" "user" 102 "text" false false false "" "s-1".
Definition bot_reply : Message.t :=
  Message.mk "m-2" "Mock response to: Hi" "bot" 103 "text" false false false "" "s-1".

Definition chat_db : DB := mkDB [session_1; session_2] [user_hi; bot_reply].

Definition chat_world : World :=
  mkWorld chat_db (ticking 200) (ids_from ["m-3"; "m-4"]) no_faults.



(** ** main.go: the routes, and runs of requests *)

Inductive request : Type :=
| POST_chat_send (c : json_body SendMessageRequest.t)
| POST_chat_regenerate (c : json_body RegenerateMessageRequest.t)
| POST_sessions (c : json_body CreateSessionRequest.t)
| GET_session (id : string)
| PUT_session (id : string) (c : json_body UpdateSessionRequest.t)
| DELETE_session (id : string)
| POST_session_favorite (id : string).

(** [setupRoutes], without the routes that only list rows ([GetSessions],
    [GetMessages]), the health check and the WebSocket placeholder. *)
Definition route (aiService : services.AIService) (r : request) : Handler :=
  match r with
  | POST_chat_send c => SendMessage aiService c
  | POST_chat_regenerate c => RegenerateMessage aiService c
  | POST_sessions c => CreateSession c
  | GET_session id => GetSession id
  | PUT_session id c => UpdateSession id c
  | DELETE_session id => DeleteSession id
  | POST_session_favorite id => ToggleFavorite id
  end.

(** Requests served one after the other. *)
Fixpoint serve_all (aiService : services.AIService) (rs : list request) (w : World)
  : World :=
  match rs with
  | [] => w
  | r :: rs' => serve_all aiService rs' (snd (serve (route aiService r) w))
  end.

(** Every stored session was created no later than it was last updated,
    and last updated no later than the coming clock reading. *)
Definition stamps_ok (w : World) : Prop :=
  forall s, In s (sessions (db w)) ->
            Session.CreatedAt s <= Session.UpdatedAt s
            /\ Session.UpdatedAt s <= clock w 0%nat.

Definition shift {A : Type} (n : nat) (f : nat -> A) : nat -> A :=
  fun k => f (n + k)%nat.

(** What a request does to the sessions table: nothing, one row added
    under a free key, the rows of one key overwritten, or the rows of one
    key deleted; [n] clock readings are used up, and the timestamps written
    are among them. *)
Inductive session_effect (w w' : World) : Prop :=
| effect_none (n : nat) :
    clock w' = shift n (clock w) ->
    sessions (db w') = sessions (db w) ->
    session_effect w w'
| effect_insert (n i j : nat) (s : Session.t) :
    clock w' = shift n (clock w) ->
    (i <= j <= n)%nat ->
    Session.CreatedAt s = clock w i ->
    Session.UpdatedAt s = clock w j ->
    existsb (session_has_id (Session.ID s)) (sessions (db w)) = false ->
    sessions (db w') = (sessions (db w) ++ [s])%list ->
    session_effect w w'
| effect_save (n j : nat) (s0 s : Session.t) :
    clock w' = shift n (clock w) ->
    (j <= n)%nat ->
    In s0 (sessions (db w)) ->
    Session.ID s = Session.ID s0 ->
    Session.CreatedAt s = Session.CreatedAt s0 ->
    Session.UpdatedAt s = clock w j ->
    sessions (db w') = overwrite_session s (sessions (db w)) ->
    session_effect w w'
| effect_delete (n : nat) (id : string) :
    clock w' = shift n (clock w) ->
    sessions (db w')
      = filter (fun s => negb (session_has_id id s)) (sessions (db w)) ->
    session_effect w w'.

(** ** middleware/auth.go *)

Module middleware.

Definition StatusUnauthorized : Z := 401.

(** [strings.HasPrefix] and [strings.TrimPrefix] *)
Definition HasPrefix (s p : string) : bool := String.prefix p s.
Definition TrimPrefix (s p : string) : string :=
  if HasPrefix s p
  then substring (String.length p) (String.length s - String.length p) s
  else s.

(** What a middleware leaves behind: the response it aborted with, or the
    keys it has set on the context before [c.Next()]. *)
Inductive outcome : Type :=
| Aborted (r : Response)
| Passed (keys : list (string * string)).

(** [validateToken]: [len(token) > 10] *)
Definition validateToken (token : string) : bool :=
  (10 <? String.length token)%nat.

Definition unauthorized (message : string) : outcome :=
  Aborted (error_response StatusUnauthorized "Unauthorized" message).

(** [RequireAuth], on the value of the Authorization header (empty when
    the header is absent). *)
Definition RequireAuth (authHeader : string) : outcome :=
  if String.eqb authHeader "" then
    unauthorized "Authorization header is required"
  else if negb (HasPrefix authHeader "Bearer ") then
    unauthorized "Invalid authorization header format"
  else
    let token := TrimPrefix authHeader "Bearer " in
    if String.eqb token "" then unauthorized "Token is required"
    else if negb (validateToken token) then unauthorized "Invalid token"
    else Passed [("user_id", "demo_user"); ("token", token)].

(** [OptionalAuth] *)
Definition OptionalAuth (authHeader : string) : outcome :=
  if negb (String.eqb authHeader "") && HasPrefix authHeader "Bearer " then
    let token := TrimPrefix authHeader "Bearer " in
    if validateToken token
    then Passed [("user_id", "demo_user"); ("token", token)]
    else Passed []
  else Passed [].

End middleware.

(** ** config and main.go: the completion client that is wired in *)

Module config.

Record Config := mkConfig
  { Port : string;
    DBPath : string;
    AIAPIKey : string;
    AIAPIURL : string;
    Environment : string;
    LogLevel : string }.

(** [getEnv]; [getenv] is [os.Getenv], empty for a variable that is not
    set. *)
Definition getEnv (getenv : string -> string) (key defaultValue : string) : string :=
  if negb (String.eqb (getenv key) "") then getenv key else defaultValue.

Definition LoadConfig (getenv : string -> string) : Config :=
  mkConfig (getEnv getenv "PORT" "8080")
           (getEnv getenv "DB_PATH" "chatbot.db")
           (getEnv getenv "AI_API_KEY" "")
           (getEnv getenv "AI_API_URL" "https://api.openai.com/v1/chat/completions")
           (getEnv getenv "ENVIRONMENT" "development")
           (getEnv getenv "LOG_LEVEL" "info").

Definition IsDevelopment (c : Config) : bool := String.eqb (Environment c) "development".
Definition IsProduction (c : Config) : bool := String.eqb (Environment c) "production".
Definition IsTest (c : Config) : bool := String.eqb (Environment c) "test".

End config.

(** [main.initAIService] *)
Definition initAIService (o : services.Outside) (getenv : string -> string)
    (cfg : config.Config) : services.AIService :=
  if String.eqb (config.AIAPIKey cfg) "" then services.MockAIService
  else services.OpenAIClient o (services.NewOpenAIService getenv).

(** The completion client of a server started in the environment [getenv]. *)
Definition wired_AIService (o : services.Outside) (getenv : string -> string)
  : services.AIService :=
  initAIService o getenv (config.LoadConfig getenv).

(** ** What the schema keeps *)

(** Primary keys are unique, every message refers to a stored session, and
    every sender passes the CHECK. *)
Definition schema_ok (d : DB) : Prop :=
  NoDup (map Session.ID (sessions d))
  /\ NoDup (map Message.ID (messages d))
  /\ (forall m, In m (messages d) ->
                existsb (session_has_id (Message.SessionID m)) (sessions d) = true
                /\ sender_allowed (Message.Sender m) = true).

(** What of a message no handler rewrites: everything but the two
    regeneration fields. *)
Definition written_once (m : Message.t) : Message.t :=
  Message.with_OriginalMessageID "" (Message.with_IsRegenerated false m).

(** ** More sample worlds *)

(** A process environment with no variable set, and one with only
    [AI_API_KEY] set. *)
Definition unset_env : string -> string := fun _ => "".
Definition key_only_env : string -> string :=
  fun key => if String.eqb key "AI_API_KEY" then "sk-test" else "".

(** An outside in which a POST to the empty URL fails in [Client.Do] and
    any other POST is answered 200 with a body that does not decode. *)
Definition unreachable : services.Outside :=
  services.mkOutside
    (fun url _ _ => if String.eqb url ""
                    then services.DoFailed "unsupported protocol scheme"
                    else services.Responded 200 "{}")
    (fun _ => Err "unexpected end of JSON input")
    (fun _ => Err "unexpected end of JSON input").

(** [chat_world] with a storage fault waiting for the third statement. *)
Definition delete_fault_world : World :=
  mkWorld chat_db (ticking 200) (ids_from ["m-3"; "m-4"]) (fault_at 2).

(** [chat_world] with a storage fault waiting for the fourth statement: in
    RegenerateMessage, the [Save] of the marked original. *)
Definition mark_fault_world : World :=
  mkWorld chat_db (ticking 200) (ids_from ["m-3"; "m-4"]) (fault_at 3).

(** A wall clock that is set back after its third reading. *)
Definition set_back : nat -> Time := fun n => nth n [100; 101; 110; 105] 106.

Definition set_back_world : World :=
  mkWorld (mkDB [] []) set_back (ids_from ["s-1"; "m-1"; "m-2"]) no_faults.

Definition more_request : SendMessageRequest.t := SendMessageRequest.mk "More" "s-1".

(** A few requests in a row. *)
Definition sample_requests : list request :=
  [POST_chat_send (Decoded more_request);
   POST_session_favorite "s-2";
   POST_chat_regenerate (Decoded (RegenerateMessageRequest.mk "m-2" "s-1"));
   DELETE_session "s-2"].

(** ** Facts about single statements *)

Lemma statement_ok {A : Type} (run : DB -> result gorm_error A * DB) (w : World) :
  faults w 0%nat = false ->
  statement run w =
    (fst (run (db w)),
     mkWorld (snd (run (db w))) (clock w) (ids w) (tl_of (faults w))).
Proof.
  intros Hf. unfold statement. rewrite Hf. destruct (run (db w)); reflexivity.
Qed.

Lemma find_some_existsb {A : Type} (p : A -> bool) (l : list A) (a : A) :
  find p l = Some a -> existsb p l = true.
Proof.
  intros H. apply find_some in H. apply existsb_exists. exists a. exact H.
Qed.

Lemma find_none_existsb {A : Type} (p : A -> bool) (l : list A) :
  find p l = None -> existsb p l = false.
Proof.
  intros H. destruct (existsb p l) eqn:E; [|reflexivity].
  apply existsb_exists in E. destruct E as [a [Ha Hp]].
  rewrite (find_none _ _ H a Ha) in Hp. discriminate.
Qed.

Lemma find_session_ID id d s : find_session id d = Some s -> Session.ID s = id.
Proof.
  intros H. apply find_some in H. destruct H as [_ H].
  apply String.eqb_eq. exact H.
Qed.

Lemma find_message_ID id d m : find_message id d = Some m -> Message.ID m = id.
Proof.
  intros H. apply find_some in H. destruct H as [_ H].
  apply String.eqb_eq. exact H.
Qed.

(** Overwriting the rows with a given key changes nothing where no row
    has the key. *)
Lemma map_overwrite_absent {A : Type} (p : A -> bool) (a : A) (l : list A) :
  existsb p l = false -> map (fun x => if p x then a else x) l = l.
Proof.
  induction l as [|x l IH]; cbn; [reflexivity|].
  intros H. apply orb_false_iff in H. destruct H as [Hx Hl].
  rewrite Hx, (IH Hl). reflexivity.
Qed.

(** After overwriting, the row served for the key is the new one. *)
Lemma find_map_overwrite {A : Type} (p : A -> bool) (a : A) (l : list A) :
  p a = true -> existsb p l = true ->
  find p (map (fun x => if p x then a else x) l) = Some a.
Proof.
  intros Ha. induction l as [|x l IH]; cbn; [discriminate|].
  destruct (p x) eqn:Hx; cbn.
  - intros _. rewrite Ha. reflexivity.
  - intros H. rewrite Hx. apply IH. exact H.
Qed.

(** Overwriting rows by key keeps the keys that are there. *)
Lemma existsb_map_overwrite {A : Type} (key : A -> string) (k k' : string)
    (a : A) (l : list A) :
  key a = k ->
  existsb (fun x => String.eqb (key x) k')
          (map (fun x => if String.eqb (key x) k then a else x) l)
  = existsb (fun x => String.eqb (key x) k') l.
Proof.
  intros Ha. induction l as [|x l IH]; cbn; [reflexivity|].
  rewrite IH. f_equal.
  destruct (String.eqb (key x) k) eqn:E; [|reflexivity].
  apply String.eqb_eq in E. rewrite Ha, E. reflexivity.
Qed.

Lemma find_app_some {A : Type} (p : A -> bool) (l l' : list A) (a : A) :
  find p l = Some a -> find p (l ++ l') = Some a.
Proof.
  induction l as [|x l IH]; cbn; [discriminate|].
  destruct (p x); [easy|exact IH].
Qed.

Lemma first_served_In (l : list Message.t) (m : Message.t) :
  first_served l = Some m -> In m l.
Proof.
  unfold first_served.
  assert (G : forall acc,
             fold_left (fun best x =>
                          match best with
                          | None => Some x
                          | Some b => if served_before x b then Some x else Some b
                          end) l acc = Some m ->
             In m l \/ acc = Some m).
  { induction l as [|x l IH]; cbn; intros acc H; [right; exact H|].
    apply IH in H. destruct H as [H|H]; [left; right; exact H|].
    destruct acc as [b|].
    - destruct (served_before x b); inversion H; subst; auto.
    - inversion H; subst; auto. }
  intros H. apply G in H. destruct H as [H|H]; [exact H|discriminate].
Qed.

(** The row the query serves is a user message of the session asked for,
    older than the instant asked for. *)
Lemma previous_user_message_Some sid t d m :
  previous_user_message sid t d = Some m ->
  In m (messages d) /\ Message.SessionID m = sid
  /\ Message.Sender m = "user" /\ Message.Timestamp m < t.
Proof.
  unfold previous_user_message. intros H. apply first_served_In in H.
  apply filter_In in H. destruct H as [Hin H]. split; [exact Hin|].
  unfold earlier_user_message, message_in_session in H.
  apply andb_true_iff in H. destruct H as [H Ht].
  apply andb_true_iff in H. destruct H as [Hs Hu].
  repeat split.
  - apply String.eqb_eq. exact Hs.
  - apply String.eqb_eq. exact Hu.
  - apply Z.ltb_lt. exact Ht.
Qed.

Lemma previous_user_message_None sid t d :
  (forall m, In m (messages d) ->
             Message.SessionID m = sid -> Message.Sender m = "user" ->
             Message.Timestamp m < t -> False) ->
  previous_user_message sid t d = None.
Proof.
  intros H. unfold previous_user_message.
  replace (filter (earlier_user_message sid t) (messages d)) with (@nil Message.t);
    [reflexivity|].
  symmetry. induction (messages d) as [|m l IH]; cbn; [reflexivity|].
  destruct (earlier_user_message sid t m) eqn:E.
  - exfalso. unfold earlier_user_message, message_in_session in E.
    apply andb_true_iff in E. destruct E as [E Ht].
    apply andb_true_iff in E. destruct E as [Hs Hu].
    apply (H m); [left; reflexivity| | |].
    + apply String.eqb_eq. exact Hs.
    + apply String.eqb_eq. exact Hu.
    + apply Z.ltb_lt. exact Ht.
  - apply IH. intros m' Hin. apply (H m'). right. exact Hin.
Qed.

(** ** RegenerateMessage *)

(** Running a statement that the fault oracle lets through. *)
Ltac run_statement Hok :=
  rewrite statement_ok by (cbn; unfold tl_of; apply Hok; lia);
  cbn [fst snd db clock ids faults sessions messages].

(** The handler up to the completion call, when the three lookups and the
    [Save] of the marked original go through: what is left to run, and the
    world it runs in. *)
Lemma RegenerateMessage_marked
    (aiService : services.AIService) (c : json_body RegenerateMessageRequest.t)
    (req : RegenerateMessageRequest.t) (w : World)
    (originalMessage userMessage : Message.t) (session : Session.t) :
  ShouldBindJSON RegenerateMessageRequest_required c = Ok req ->
  find_message (RegenerateMessageRequest.MessageID req) (db w) = Some originalMessage ->
  find_session (RegenerateMessageRequest.SessionID req) (db w) = Some session ->
  previous_user_message (RegenerateMessageRequest.SessionID req)
    (Message.Timestamp originalMessage) (db w) = Some userMessage ->
  storage_ok 4 w ->
  RegenerateMessage aiService c w =
  bind (RegenerateMessage_aiResponse aiService userMessage)
       (fun aiResponse =>
          bind (RegenerateMessage_newMessage aiResponse req)
               (fun newMessage => c_JSON (mkResponse StatusOK (JMessage newMessage))))
       (mkWorld (mkDB (sessions (db w))
                      (overwrite_message (mark_regenerated originalMessage)
                                         (messages (db w))))
                (clock w) (ids w) (tl_of (tl_of (tl_of (tl_of (faults w)))))).
Proof.
  intros Hbind Horig Hsess Huser Hok.
  unfold RegenerateMessage, bind at 1 2 3 4 5, bind_request. rewrite Hbind. cbn [ret].
  unfold or_reply, First_message. run_statement Hok. rewrite Horig. cbn [fst snd].
  unfold First_session. run_statement Hok. rewrite Hsess. cbn [fst snd].
  unfold First_previous_user_message. run_statement Hok. rewrite Huser. cbn [fst snd].
  unfold lift, RegenerateMessage_mark, Save_message. run_statement Hok.
  replace (existsb (message_has_id (Message.ID (mark_regenerated originalMessage)))
                   (messages (db w))) with true.
  - reflexivity.
  - symmetry. cbn. rewrite (find_message_ID _ _ _ Horig).
    exact (find_some_existsb _ _ _ Horig).
Qed.

(** Marking overwrites the row of the target and no other key. *)
Lemma find_message_marked id d originalMessage l' :
  find_message id d = Some originalMessage ->
  find (message_has_id id)
       (overwrite_message (mark_regenerated originalMessage) (messages d) ++ l')
  = Some (mark_regenerated originalMessage).
Proof.
  intros Horig. pose proof (find_message_ID _ _ _ Horig) as Hid.
  apply find_app_some. unfold overwrite_message.
  change (Message.ID (mark_regenerated originalMessage)) with (Message.ID originalMessage).
  rewrite Hid. apply find_map_overwrite.
  - unfold message_has_id. cbn. rewrite Hid. apply String.eqb_refl.
  - exact (find_some_existsb _ _ _ Horig).
Qed.

Lemma overwrite_message_keys m l :
  map Message.ID (overwrite_message m l) = map Message.ID l.
Proof.
  unfold overwrite_message. rewrite map_map. apply map_ext. intros x.
  unfold message_has_id. destruct (String.eqb (Message.ID x) (Message.ID m)) eqn:E;
    [|reflexivity].
  apply String.eqb_eq in E. congruence.
Qed.

Lemma existsb_overwrite_message id m l :
  existsb (message_has_id id) (overwrite_message m l) = existsb (message_has_id id) l.
Proof.
  unfold overwrite_message, message_has_id.
  apply (existsb_map_overwrite Message.ID). reflexivity.
Qed.

(** The handler from start to finish on the path where every statement
    goes through and the completion client answers. *)
Lemma RegenerateMessage_run
    (aiService : services.AIService) (c : json_body RegenerateMessageRequest.t)
    (req : RegenerateMessageRequest.t) (w : World)
    (originalMessage userMessage : Message.t) (session : Session.t)
    (aiResponse : string) :
  ShouldBindJSON RegenerateMessageRequest_required c = Ok req ->
  find_message (RegenerateMessageRequest.MessageID req) (db w) = Some originalMessage ->
  find_session (RegenerateMessageRequest.SessionID req) (db w) = Some session ->
  previous_user_message (RegenerateMessageRequest.SessionID req)
    (Message.Timestamp originalMessage) (db w) = Some userMessage ->
  services.RegenerateMessage aiService (Message.Content userMessage) = Ok aiResponse ->
  storage_ok 5 w ->
  next_id_fresh w ->
  let newMessage :=
    Message.mk (ids w 0%nat) aiResponse "bot" (clock w 0%nat) "text" false false true
               (RegenerateMessageRequest.MessageID req)
               (RegenerateMessageRequest.SessionID req) in
  fst (serve (RegenerateMessage aiService c) w)
    = mkResponse StatusOK (JMessage newMessage)
  /\ db (snd (serve (RegenerateMessage aiService c) w))
    = mkDB (sessions (db w))
           (overwrite_message (mark_regenerated originalMessage) (messages (db w))
            ++ [newMessage]).
Proof.
  intros Hbind Horig Hsess Huser Hai Hok Hfresh newMessage.
  unfold serve.
  rewrite (RegenerateMessage_marked aiService c req w originalMessage userMessage session)
    by (try assumption; intros i Hi; apply Hok; lia).
  unfold bind, RegenerateMessage_aiResponse. rewrite Hai. cbn [ret].
  unfold RegenerateMessage_newMessage, bind, lift, uuid_New, time_Now, or_reply,
    Create_message.
  cbn [fst snd db clock ids faults sessions messages].
  run_statement Hok.
  cbn [Message.ID Message.Sender Message.SessionID].
  rewrite existsb_overwrite_message. unfold next_id_fresh in Hfresh. rewrite Hfresh.
  change (sender_allowed "bot") with true. cbn [negb].
  unfold find_session in Hsess. rewrite (find_some_existsb _ _ _ Hsess).
  cbn. split; reflexivity.
Qed.

(** X30.  A RegenerateMessage call for message M in session S in which the
    target, the session and an earlier user message are found, the
    completion client answers and the five statements of the call go
    through, the [Save] of the target whose result the handler drops among
    them: the response is 200 with one new message, the only row added,
    whose sender is "bot", which is flagged regenerated, points to M and
    belongs to S; the stored target is flagged regenerated and points to
    its own ID; the sessions table is as before. *)
Theorem RegenerateMessage_success
    (aiService : services.AIService) (c : json_body RegenerateMessageRequest.t)
    (req : RegenerateMessageRequest.t) (w : World)
    (originalMessage userMessage : Message.t) (session : Session.t)
    (aiResponse : string) :
  ShouldBindJSON RegenerateMessageRequest_required c = Ok req ->
  find_message (RegenerateMessageRequest.MessageID req) (db w) = Some originalMessage ->
  find_session (RegenerateMessageRequest.SessionID req) (db w) = Some session ->
  previous_user_message (RegenerateMessageRequest.SessionID req)
    (Message.Timestamp originalMessage) (db w) = Some userMessage ->
  services.RegenerateMessage aiService (Message.Content userMessage) = Ok aiResponse ->
  storage_ok 5 w ->
  next_id_fresh w ->
  let '(response, w') := serve (RegenerateMessage aiService c) w in
  exists newMessage target,
    response = mkResponse StatusOK (JMessage newMessage)
    /\ messages (db w')
       = (overwrite_message target (messages (db w)) ++ [newMessage])%list
    /\ Message.Sender newMessage = "bot"
    /\ Message.IsRegenerated newMessage = true
    /\ Message.OriginalMessageID newMessage = RegenerateMessageRequest.MessageID req
    /\ Message.SessionID newMessage = RegenerateMessageRequest.SessionID req
    /\ Message.Content newMessage = aiResponse
    /\ find_message (RegenerateMessageRequest.MessageID req) (db w') = Some target
    /\ target = mark_regenerated originalMessage
    /\ Message.IsRegenerated target = true
    /\ Message.OriginalMessageID target = RegenerateMessageRequest.MessageID req
    /\ sessions (db w') = sessions (db w).
Proof.
  intros Hbind Horig Hsess Huser Hai Hok Hfresh.
  destruct (RegenerateMessage_run aiService c req w originalMessage userMessage
              session aiResponse Hbind Horig Hsess Huser Hai Hok Hfresh) as [Hr Hd].
  destruct (serve (RegenerateMessage aiService c) w) as [response w'].
  cbn [fst snd] in Hr, Hd. rewrite Hr, Hd.
  eexists. exists (mark_regenerated originalMessage).
  repeat split.
  - unfold find_message. cbn [messages].
    apply find_message_marked. exact Horig.
  - cbn. exact (find_message_ID _ _ _ Horig).
Qed.

(** Regenerating the reply m-2 of session s-1, the mock client answering. *)
Lemma RegenerateMessage_success_witness :
  let '(response, w') :=
    serve (RegenerateMessage services.MockAIService
             (Decoded (RegenerateMessageRequest.mk "m-2" "s-1"))) chat_world in
  exists newMessage target,
    response = mkResponse StatusOK (JMessage newMessage)
    /\ messages (db w')
       = (overwrite_message target (messages (db chat_world)) ++ [newMessage])%list
    /\ Message.Sender newMessage = "bot"
    /\ Message.IsRegenerated newMessage = true
    /\ Message.OriginalMessageID newMessage = "m-2"
    /\ Message.SessionID newMessage = "s-1"
    /\ Message.Content newMessage = "Mock regenerated response to: Hi"
    /\ find_message "m-2" (db w') = Some target
    /\ target = mark_regenerated bot_reply
    /\ Message.IsRegenerated target = true
    /\ Message.OriginalMessageID target = "m-2"
    /\ sessions (db w') = sessions (db chat_world).
Proof.
  apply (RegenerateMessage_success services.MockAIService
           (Decoded (RegenerateMessageRequest.mk "m-2" "s-1"))
           (RegenerateMessageRequest.mk "m-2" "s-1") chat_world
           bot_reply user_hi session_1 "Mock regenerated response to: Hi");
    try reflexivity.
  intros i _. reflexivity.
Defined.

(** C1.  Regenerating the reply m-2 of session s-1 when the store refuses
    the [Save] of the target: the target, the session and the earlier user
    message are found and the completion client answers; the response is
    200 with the new bot message m-3, flagged regenerated and pointing to
    m-2, and m-3 is stored; the stored target m-2 is still not flagged and
    its original_message_id is still empty. *)
Theorem RegenerateMessage_mark_not_stored :
  let '(response, w') :=
    serve (RegenerateMessage services.MockAIService
             (Decoded (RegenerateMessageRequest.mk "m-2" "s-1"))) mark_fault_world in
  let newMessage :=
    Message.mk "m-3" "Mock regenerated response to: Hi" "bot" 200 "text"
               false false true "m-2" "s-1" in
  find_message "m-2" (db mark_fault_world) = Some bot_reply
  /\ find_session "s-1" (db mark_fault_world) = Some session_1
  /\ previous_user_message "s-1" (Message.Timestamp bot_reply) (db mark_fault_world)
     = Some user_hi
  /\ services.RegenerateMessage services.MockAIService (Message.Content user_hi)
     = Ok "Mock regenerated response to: Hi"
  /\ response = mkResponse StatusOK (JMessage newMessage)
  /\ messages (db w') = [user_hi; bot_reply; newMessage]
  /\ find_message "m-2" (db w') = Some bot_reply
  /\ Message.IsRegenerated bot_reply = false
  /\ Message.OriginalMessageID bot_reply = "".
Proof. vm_compute. repeat split. Qed.

(** C6.  A RegenerateMessage call whose target and session exist while no
    message of that session has sender "user" and a timestamp strictly
    below the target's: the response is a 404 and the tables are as before
    (no message is created, none is marked); when the two lookups meet no
    storage fault the 404 is "User message not found". *)
Theorem RegenerateMessage_no_previous_user_message
    (aiService : services.AIService) (c : json_body RegenerateMessageRequest.t)
    (req : RegenerateMessageRequest.t) (w : World)
    (originalMessage : Message.t) (session : Session.t) :
  ShouldBindJSON RegenerateMessageRequest_required c = Ok req ->
  find_message (RegenerateMessageRequest.MessageID req) (db w) = Some originalMessage ->
  find_session (RegenerateMessageRequest.SessionID req) (db w) = Some session ->
  (forall m, In m (messages (db w)) ->
             Message.SessionID m = RegenerateMessageRequest.SessionID req ->
             Message.Sender m = "user" ->
             Message.Timestamp m < Message.Timestamp originalMessage -> False) ->
  let '(response, w') := serve (RegenerateMessage aiService c) w in
  Status response = StatusNotFound
  /\ db w' = db w
  /\ (storage_ok 2 w ->
      response = error_response StatusNotFound "User message not found"
                   "Could not find the user message to regenerate").
Proof.
  intros Hbind Horig Hsess Hnone.
  apply previous_user_message_None in Hnone.
  unfold serve, RegenerateMessage, bind, bind_request. rewrite Hbind. cbn [ret].
  unfold or_reply, First_message, First_session, First_previous_user_message, statement.
  destruct (faults w 0%nat) eqn:F0; cbn [fst snd db clock ids faults].
  { cbn. split; [reflexivity|split; [reflexivity|]].
    intros Hok. rewrite (Hok 0%nat) in F0 by lia. discriminate. }
  rewrite Horig. cbn [fst snd db clock ids faults].
  destruct (tl_of (faults w) 0%nat) eqn:F1; cbn [fst snd db clock ids faults].
  { cbn. split; [reflexivity|split; [reflexivity|]].
    intros Hok. unfold tl_of in F1. rewrite (Hok 1%nat) in F1 by lia. discriminate. }
  rewrite Hsess. cbn [fst snd db clock ids faults].
  destruct (tl_of (tl_of (faults w)) 0%nat); cbn [fst snd db clock ids faults].
  { cbn. repeat split. }
  rewrite Hnone. cbn. repeat split.
Qed.

(** Regenerating the user message m-1, which no user message precedes. *)
Lemma RegenerateMessage_no_previous_user_message_witness :
  let '(response, w') :=
    serve (RegenerateMessage services.MockAIService
             (Decoded (RegenerateMessageRequest.mk "m-1" "s-1"))) chat_world in
  Status response = StatusNotFound
  /\ db w' = db chat_world
  /\ (storage_ok 2 chat_world ->
      response = error_response StatusNotFound "User message not found"
                   "Could not find the user message to regenerate").
Proof.
  apply (RegenerateMessage_no_previous_user_message services.MockAIService
           (Decoded (RegenerateMessageRequest.mk "m-1" "s-1"))
           (RegenerateMessageRequest.mk "m-1" "s-1") chat_world user_hi session_1);
    try reflexivity.
  intros m Hin Hs Hu Ht. simpl in Hin.
  destruct Hin as [Hm|[Hm|[]]]; subst m; simpl in Hu, Ht; [lia|discriminate].
Defined.

(** C7.  A RegenerateMessage call in which the target has been marked (the
    three lookups and the Save went through) and the completion client
    then fails: the response is the 500 "AI Service error", the stored
    target stays flagged regenerated, and the messages table holds the
    rows it held, the target overwritten and nothing added. *)
Theorem RegenerateMessage_completion_failure
    (aiService : services.AIService) (c : json_body RegenerateMessageRequest.t)
    (req : RegenerateMessageRequest.t) (w : World)
    (originalMessage userMessage : Message.t) (session : Session.t) (e : string) :
  ShouldBindJSON RegenerateMessageRequest_required c = Ok req ->
  find_message (RegenerateMessageRequest.MessageID req) (db w) = Some originalMessage ->
  find_session (RegenerateMessageRequest.SessionID req) (db w) = Some session ->
  previous_user_message (RegenerateMessageRequest.SessionID req)
    (Message.Timestamp originalMessage) (db w) = Some userMessage ->
  storage_ok 4 w ->
  services.RegenerateMessage aiService (Message.Content userMessage) = Err e ->
  let '(response, w') := serve (RegenerateMessage aiService c) w in
  response = error_response StatusInternalServerError "AI Service error"
                            "Failed to regenerate message"
  /\ messages (db w')
     = overwrite_message (mark_regenerated originalMessage) (messages (db w))
  /\ find_message (RegenerateMessageRequest.MessageID req) (db w')
     = Some (mark_regenerated originalMessage)
  /\ Message.IsRegenerated (mark_regenerated originalMessage) = true
  /\ map Message.ID (messages (db w')) = map Message.ID (messages (db w))
  /\ sessions (db w') = sessions (db w).
Proof.
  intros Hbind Horig Hsess Huser Hok Hai.
  unfold serve.
  rewrite (RegenerateMessage_marked aiService c req w originalMessage userMessage session)
    by assumption.
  unfold bind, RegenerateMessage_aiResponse. rewrite Hai. unfold c_JSON.
  cbn [db messages sessions].
  repeat split.
  - unfold find_message. cbn [messages].
    rewrite <- (app_nil_r (overwrite_message _ _)).
    apply find_message_marked. exact Horig.
  - apply overwrite_message_keys.
Qed.

(** Regenerating m-2 while the completion client is down. *)
Lemma RegenerateMessage_completion_failure_witness :
  let '(response, w') :=
    serve (RegenerateMessage FailingAIService
             (Decoded (RegenerateMessageRequest.mk "m-2" "s-1"))) chat_world in
  response = error_response StatusInternalServerError "AI Service error"
                            "Failed to regenerate message"
  /\ messages (db w')
     = overwrite_message (mark_regenerated bot_reply) (messages (db chat_world))
  /\ find_message "m-2" (db w') = Some (mark_regenerated bot_reply)
  /\ Message.IsRegenerated (mark_regenerated bot_reply) = true
  /\ map Message.ID (messages (db w')) = map Message.ID (messages (db chat_world))
  /\ sessions (db w') = sessions (db chat_world).
Proof.
  apply (RegenerateMessage_completion_failure FailingAIService
           (Decoded (RegenerateMessageRequest.mk "m-2" "s-1"))
           (RegenerateMessageRequest.mk "m-2" "s-1") chat_world
           bot_reply user_hi session_1 "failed to make request");
    try reflexivity.
  intros i _. reflexivity.
Defined.



(** ** SendMessage *)

(** Case analysis on the tests a block of a handler runs through. *)
Ltac split_tests H :=
  repeat (cbn [fst snd db clock ids faults sessions messages negb] in H;
          match type of H with
          | context [if ?b then _ else _] => destruct b eqn:?
          | context [match ?x with Some _ => _ | None => _ end] => destruct x eqn:?
          | context [match ?x with Ok _ => _ | Err _ => _ end] => destruct x eqn:?
          end);
  cbn [fst snd db clock ids faults sessions messages] in H.

(** The session block, when it goes on: it writes no message, and the
    session it yields is stored. *)
Lemma SendMessage_session_Next req w session w1 :
  SendMessage_session req w = (Next session, w1) ->
  messages (db w1) = messages (db w)
  /\ existsb (session_has_id (Session.ID session)) (sessions (db w1)) = true.
Proof.
  unfold SendMessage_session, bind, or_reply, lift, ret, First_session_Preload_Mode,
    Create_session, statement, uuid_New, time_Now.
  intros H. split_tests H; inversion H; subst; clear H; cbn; split; try reflexivity.
  rewrite existsb_app. cbn. unfold session_has_id. cbn.
  rewrite String.eqb_refl. rewrite orb_true_r. reflexivity.
Qed.

(** The session block on an empty sessionId, when it goes on: one row is
    added to [sessions], titled "New Chat", under a key that was free. *)
Lemma SendMessage_session_new req w session w1 :
  SendMessageRequest.SessionID req = "" ->
  SendMessage_session req w = (Next session, w1) ->
  session = Session.mk (ids w 0%nat) "New Chat" (clock w 0%nat) (clock w 1%nat) false
  /\ db w1 = mkDB (sessions (db w) ++ [session]) (messages (db w))
  /\ existsb (session_has_id (Session.ID session)) (sessions (db w)) = false
  /\ clock w1 = tl_of (tl_of (clock w))
  /\ ids w1 = tl_of (ids w).
Proof.
  intros Hid. unfold SendMessage_session. rewrite Hid. cbn [String.eqb negb].
  unfold bind, or_reply, lift, ret, Create_session, statement, uuid_New, time_Now.
  intros H. split_tests H; inversion H; subst; clear H. cbn.
  repeat split. assumption.
Qed.

Lemma SendMessage_session_Replied req w r w1 :
  SendMessage_session req w = (Replied r, w1) ->
  Status r <> StatusOK /\ db w1 = db w.
Proof.
  unfold SendMessage_session, bind, or_reply, lift, ret, First_session_Preload_Mode,
    Create_session, statement, uuid_New, time_Now.
  intros H. split_tests H; inversion H; subst; clear H; cbn; split;
    (discriminate || reflexivity).
Qed.

(** A message block ([sender] "user" or "bot"), when it goes on: the row
    it yields is the one row added. *)
Lemma SendMessage_userMessage_Next req session w um w' :
  SendMessage_userMessage req session w = (Next um, w') ->
  um = Message.mk (ids w 0%nat) (SendMessageRequest.Message req) "user"
                  (clock w 0%nat) "text" false false false "" (Session.ID session)
  /\ db w' = mkDB (sessions (db w)) (messages (db w) ++ [um])
  /\ clock w' = tl_of (clock w)
  /\ ids w' = tl_of (ids w).
Proof.
  unfold SendMessage_userMessage, bind, or_reply, lift, ret, Create_message,
    statement, uuid_New, time_Now.
  intros H. split_tests H; inversion H; subst; clear H. repeat split.
Qed.

Lemma SendMessage_userMessage_Replied req session w r w' :
  SendMessage_userMessage req session w = (Replied r, w') ->
  Status r <> StatusOK /\ db w' = db w.
Proof.
  unfold SendMessage_userMessage, bind, or_reply, lift, ret, Create_message,
    statement, uuid_New, time_Now.
  intros H. split_tests H; inversion H; subst; clear H; cbn; split;
    (discriminate || reflexivity).
Qed.

Lemma SendMessage_botMessage_Next aiResponse session w bm w' :
  SendMessage_botMessage aiResponse session w = (Next bm, w') ->
  bm = Message.mk (ids w 0%nat) aiResponse "bot"
                  (clock w 0%nat) "text" false false false "" (Session.ID session)
  /\ db w' = mkDB (sessions (db w)) (messages (db w) ++ [bm])
  /\ clock w' = tl_of (clock w)
  /\ ids w' = tl_of (ids w).
Proof.
  unfold SendMessage_botMessage, bind, or_reply, lift, ret, Create_message,
    statement, uuid_New, time_Now.
  intros H. split_tests H; inversion H; subst; clear H. repeat split.
Qed.

Lemma SendMessage_botMessage_Replied aiResponse session w r w' :
  SendMessage_botMessage aiResponse session w = (Replied r, w') ->
  Status r <> StatusOK /\ db w' = db w.
Proof.
  unfold SendMessage_botMessage, bind, or_reply, lift, ret, Create_message,
    statement, uuid_New, time_Now.
  intros H. split_tests H; inversion H; subst; clear H; cbn; split;
    (discriminate || reflexivity).
Qed.

(** The final [Save]: it writes no message; when it reports an error the
    tables are as before; when it does not, the row of the session has been
    overwritten, or added if it was gone. *)
Lemma SendMessage_touch_cases session w r w' :
  SendMessage_touch session w = (r, w') ->
  messages (db w') = messages (db w)
  /\ ((exists e, r = Err e) /\ db w' = db w
      \/ r = Ok tt
         /\ sessions (db w')
            = if existsb (session_has_id (Session.ID session)) (sessions (db w))
              then overwrite_session (Session.with_UpdatedAt (clock w 0%nat) session)
                                     (sessions (db w))
              else (sessions (db w)
                    ++ [Session.with_UpdatedAt (clock w 0%nat) session])%list).
Proof.
  unfold SendMessage_touch, time_Now, Save_session, statement.
  cbn [fst snd db clock ids faults sessions messages Session.ID Session.with_UpdatedAt].
  intros H. destruct (faults w 0%nat).
  - inversion H; subst; clear H. cbn. split; [reflexivity|]. left. eauto.
  - destruct (existsb (session_has_id (Session.ID session)) (sessions (db w)));
      inversion H; subst; clear H; cbn; split; try reflexivity; right; split; reflexivity.
Qed.

(** C2.  A SendMessage call in which the user message has been inserted
    (the request binds, the session block and the user-message block go on)
    and the completion client then fails: the response is the 500
    "AI Service error", the user message is the one row added to messages
    and stays there, and no bot message is added. *)
Theorem SendMessage_completion_failure
    (aiService : services.AIService) (c : json_body SendMessageRequest.t)
    (req : SendMessageRequest.t) (w w1 w2 : World)
    (session : Session.t) (userMessage : Message.t) (e : string) :
  ShouldBindJSON SendMessageRequest_required c = Ok req ->
  SendMessage_session req w = (Next session, w1) ->
  SendMessage_userMessage req session w1 = (Next userMessage, w2) ->
  services.SendMessage aiService (SendMessageRequest.Message req) = Err e ->
  let '(response, w') := serve (SendMessage aiService c) w in
  response = error_response StatusInternalServerError "AI Service error"
                            "Failed to get AI response"
  /\ Status response = 500
  /\ db w' = db w2
  /\ In userMessage (messages (db w'))
  /\ messages (db w') = (messages (db w) ++ [userMessage])%list
  /\ Message.Sender userMessage = "user"
  /\ Message.Content userMessage = SendMessageRequest.Message req.
Proof.
  intros Hbind Hs Hu Hai.
  unfold serve, SendMessage, bind, bind_request. rewrite Hbind. cbn [ret].
  rewrite Hs, Hu. unfold SendMessage_aiResponse. rewrite Hai. unfold c_JSON.
  apply SendMessage_session_Next in Hs. destruct Hs as [Hm _].
  apply SendMessage_userMessage_Next in Hu. destruct Hu as [Hum [Hd _]].
  repeat split.
  - rewrite Hd. cbn. apply in_or_app. right. left. reflexivity.
  - rewrite Hd. cbn. rewrite Hm. reflexivity.
  - rewrite Hum. reflexivity.
  - rewrite Hum. reflexivity.
Qed.

(** A first message while the completion client is down. *)
Lemma SendMessage_completion_failure_witness :
  let '(response, w') :=
    serve (SendMessage FailingAIService (Decoded hi_request)) empty_world in
  response = error_response StatusInternalServerError "AI Service error"
                            "Failed to get AI response"
  /\ Status response = 500
  /\ db w' = mkDB [Session.mk "s-1" "New Chat" 100 101 false]
                  [Message.mk "m-1" "Hi" "user" 102 "text" false false false "" "s-1"]
  /\ In (Message.mk "m-1" "Hi" "user" 102 "text" false false false "" "s-1")
        (messages (db w'))
  /\ messages (db w')
     = (messages (db empty_world)
        ++ [Message.mk "m-1" "Hi" "user" 102 "text" false false false "" "s-1"])%list
  /\ Message.Sender (Message.mk "m-1" "Hi" "user" 102 "text" false false false "" "s-1")
     = "user"
  /\ Message.Content (Message.mk "m-1" "Hi" "user" 102 "text" false false false "" "s-1")
     = SendMessageRequest.Message hi_request.
Proof.
  apply (SendMessage_completion_failure FailingAIService (Decoded hi_request)
           hi_request empty_world
           (snd (SendMessage_session hi_request empty_world))
           (snd (SendMessage_userMessage hi_request
                   (Session.mk "s-1" "New Chat" 100 101 false)
                   (snd (SendMessage_session hi_request empty_world))))
           (Session.mk "s-1" "New Chat" 100 101 false)
           (Message.mk "m-1" "Hi" "user" 102 "text" false false false "" "s-1")
           "failed to make request");
    reflexivity.
Defined.

(** The key under which a session is overwritten is the only one touched:
    a table extended by a row under a free key, then overwritten at that
    key. *)
Lemma overwrite_session_last (s s' : Session.t) (l : list Session.t) :
  Session.ID s' = Session.ID s ->
  existsb (session_has_id (Session.ID s)) l = false ->
  overwrite_session s' (l ++ [s]) = (l ++ [s'])%list.
Proof.
  intros Hid Hfree. unfold overwrite_session. rewrite map_app, Hid.
  rewrite (map_overwrite_absent _ _ _ Hfree). cbn.
  unfold session_has_id. rewrite String.eqb_refl. reflexivity.
Qed.

(** C5.  A SendMessage call with an empty sessionId that answers 200: one
    row has been added to sessions, titled "New Chat"; two rows have been
    added to messages, in this order the user message with the given text
    and the bot message with the reply of the completion client, both
    owned by the new session; the bot message is the one in the response;
    and under a clock that does not run backwards the user message's
    timestamp is at most the bot message's. *)
Theorem SendMessage_new_session
    (aiService : services.AIService) (c : json_body SendMessageRequest.t)
    (req : SendMessageRequest.t) (w w' : World) (response : Response) :
  ShouldBindJSON SendMessageRequest_required c = Ok req ->
  SendMessageRequest.SessionID req = "" ->
  serve (SendMessage aiService c) w = (response, w') ->
  Status response = StatusOK ->
  exists session userMessage botMessage aiResponse,
    services.SendMessage aiService (SendMessageRequest.Message req) = Ok aiResponse
    /\ response = mkResponse StatusOK
         (JSend (SendMessageResponse.mk botMessage (Session.ID session)))
    /\ sessions (db w') = (sessions (db w) ++ [session])%list
    /\ Session.Title session = "New Chat"
    /\ messages (db w') = (messages (db w) ++ [userMessage; botMessage])%list
    /\ Message.Sender userMessage = "user"
    /\ Message.Content userMessage = SendMessageRequest.Message req
    /\ Message.SessionID userMessage = Session.ID session
    /\ Message.Sender botMessage = "bot"
    /\ Message.Content botMessage = aiResponse
    /\ Message.SessionID botMessage = Session.ID session
    /\ (clock_monotone w ->
        Message.Timestamp userMessage <= Message.Timestamp botMessage).
Proof.
  intros Hbind Hid Hrun Hstatus.
  unfold serve, SendMessage, bind, bind_request in Hrun. rewrite Hbind in Hrun.
  cbn [ret] in Hrun.
  destruct (SendMessage_session req w) as [[session|r] w1] eqn:Hs.
  2:{ inversion Hrun; subst. apply SendMessage_session_Replied in Hs. tauto. }
  destruct (SendMessage_userMessage req session w1) as [[um|r] w2] eqn:Hu.
  2:{ inversion Hrun; subst. apply SendMessage_userMessage_Replied in Hu. tauto. }
  unfold SendMessage_aiResponse in Hrun.
  destruct (services.SendMessage aiService (SendMessageRequest.Message req))
    as [aiResponse|e] eqn:Hai.
  2:{ inversion Hrun; subst. discriminate. }
  cbn [ret] in Hrun.
  destruct (SendMessage_botMessage aiResponse session w2) as [[bm|r] w3] eqn:Hb.
  2:{ inversion Hrun; subst. apply SendMessage_botMessage_Replied in Hb. tauto. }
  unfold lift, c_JSON in Hrun.
  destruct (SendMessage_touch session w3) as [saved w4] eqn:Ht.
  inversion Hrun; subst; clear Hrun.
  apply (SendMessage_session_new _ _ _ _ Hid) in Hs.
  destruct Hs as [Hsession [Hd1 [Hfree [Hc1 Hi1]]]].
  apply SendMessage_userMessage_Next in Hu. destruct Hu as [Hum [Hd2 [Hc2 Hi2]]].
  apply SendMessage_botMessage_Next in Hb. destruct Hb as [Hbm [Hd3 [Hc3 Hi3]]].
  apply SendMessage_touch_cases in Ht. destruct Ht as [Hm4 Hs4].
  assert (Hmsgs : messages (db w') = (messages (db w) ++ [um; bm])%list).
  { rewrite Hm4, Hd3. cbn. rewrite Hd2. cbn. rewrite Hd1. cbn.
    rewrite <- app_assoc. reflexivity. }
  assert (Hsess3 : sessions (db w3) = (sessions (db w) ++ [session])%list).
  { rewrite Hd3. cbn. rewrite Hd2. cbn. rewrite Hd1. reflexivity. }
  assert (Htime : clock_monotone w -> Message.Timestamp um <= Message.Timestamp bm).
  { intros Hmono. rewrite Hum, Hbm. cbn. rewrite Hc2, Hc1. unfold tl_of.
    apply Hmono. lia. }
  destruct Hs4 as [[_ Hsame]|[_ Hover]].
  - exists session, um, bm, aiResponse.
    rewrite Hsame, Hsess3. rewrite Hsame in Hmsgs.
    repeat split; try assumption; try (rewrite Hum; reflexivity);
      try (rewrite Hbm; reflexivity).
    rewrite Hsession. reflexivity.
  - exists (Session.with_UpdatedAt (clock w3 0%nat) session), um, bm, aiResponse.
    rewrite Hover, Hsess3.
    replace (existsb (session_has_id (Session.ID session))
                     (sessions (db w) ++ [session])) with true.
    2:{ symmetry. rewrite existsb_app. cbn. unfold session_has_id at 2.
        rewrite String.eqb_refl. rewrite orb_true_r. reflexivity. }
    rewrite (overwrite_session_last
               session (Session.with_UpdatedAt (clock w3 0%nat) session) _
               eq_refl Hfree).
    repeat split; try assumption; try (rewrite Hum; reflexivity);
      try (rewrite Hbm; reflexivity).
    rewrite Hsession. reflexivity.
Qed.

(** A first message, the mock client answering. *)
Lemma SendMessage_new_session_witness :
  exists session userMessage botMessage aiResponse,
    services.SendMessage services.MockAIService (SendMessageRequest.Message hi_request)
      = Ok aiResponse
    /\ fst (serve (SendMessage services.MockAIService (Decoded hi_request)) empty_world)
       = mkResponse StatusOK
           (JSend (SendMessageResponse.mk botMessage (Session.ID session)))
    /\ sessions (db (snd (serve (SendMessage services.MockAIService
                                   (Decoded hi_request)) empty_world)))
       = (sessions (db empty_world) ++ [session])%list
    /\ Session.Title session = "New Chat"
    /\ messages (db (snd (serve (SendMessage services.MockAIService
                                   (Decoded hi_request)) empty_world)))
       = (messages (db empty_world) ++ [userMessage; botMessage])%list
    /\ Message.Sender userMessage = "user"
    /\ Message.Content userMessage = SendMessageRequest.Message hi_request
    /\ Message.SessionID userMessage = Session.ID session
    /\ Message.Sender botMessage = "bot"
    /\ Message.Content botMessage = aiResponse
    /\ Message.SessionID botMessage = Session.ID session
    /\ (clock_monotone empty_world ->
        Message.Timestamp userMessage <= Message.Timestamp botMessage).
Proof.
  apply (SendMessage_new_session services.MockAIService (Decoded hi_request)
           hi_request empty_world
           (snd (serve (SendMessage services.MockAIService (Decoded hi_request))
                       empty_world))
           (fst (serve (SendMessage services.MockAIService (Decoded hi_request))
                       empty_world)));
    reflexivity.
Defined.

(** With a wall clock that is set back between the two inserts, a first
    message is still answered 200, the session and the two messages are
    stored, and the bot message carries an earlier timestamp than the user
    message. *)
Lemma SendMessage_new_session_counterexample :
  let '(response, w') :=
    serve (SendMessage services.MockAIService (Decoded hi_request)) set_back_world in
  let userMessage :=
    Message.mk "m-1" "Hi" "user" 110 "text" false false false "" "s-1" in
  let botMessage :=
    Message.mk "m-2" "Mock response to: Hi" "bot" 105 "text" false false false ""
               "s-1" in
  response = mkResponse StatusOK (JSend (SendMessageResponse.mk botMessage "s-1"))
  /\ sessions (db w') = [Session.mk "s-1" "New Chat" 100 106 false]
  /\ messages (db w') = [userMessage; botMessage]
  /\ ~ Message.Timestamp userMessage <= Message.Timestamp botMessage.
Proof.
  vm_compute. repeat split. intros H. exact (H eq_refl).
Qed.

Lemma Save_session_Err s w e w' :
  Save_session s w = (Err e, w') -> db w' = db w.
Proof.
  unfold Save_session, statement. intros H.
  destruct (faults w 0%nat); [inversion H; reflexivity|].
  destruct (existsb (session_has_id (Session.ID s)) (sessions (db w)));
    inversion H.
Qed.

(** C10.  A SendMessage call in which both messages have been inserted and
    the final Save that carries the new updated_at reports an error: the
    response is still 200 with the bot message and the session ID, and the
    tables are what they were before that Save, so the stored row of the
    session keeps the updated_at it had when the session block left it. *)
Theorem SendMessage_save_failure_ignored
    (aiService : services.AIService) (c : json_body SendMessageRequest.t)
    (req : SendMessageRequest.t) (w w1 w2 w3 w4 : World)
    (session : Session.t) (userMessage botMessage : Message.t)
    (aiResponse : string) (e : gorm_error) :
  ShouldBindJSON SendMessageRequest_required c = Ok req ->
  SendMessage_session req w = (Next session, w1) ->
  SendMessage_userMessage req session w1 = (Next userMessage, w2) ->
  services.SendMessage aiService (SendMessageRequest.Message req) = Ok aiResponse ->
  SendMessage_botMessage aiResponse session w2 = (Next botMessage, w3) ->
  SendMessage_touch session w3 = (Err e, w4) ->
  let '(response, w') := serve (SendMessage aiService c) w in
  response = mkResponse StatusOK
               (JSend (SendMessageResponse.mk botMessage (Session.ID session)))
  /\ Status response = 200
  /\ db w' = db w3
  /\ sessions (db w') = sessions (db w1)
  /\ messages (db w') = (messages (db w) ++ [userMessage; botMessage])%list.
Proof.
  intros Hbind Hs Hu Hai Hb Ht.
  unfold serve, SendMessage, bind, bind_request. rewrite Hbind. cbn [ret].
  rewrite Hs, Hu. unfold SendMessage_aiResponse. rewrite Hai. cbn [ret].
  rewrite Hb. unfold lift. rewrite Ht. unfold c_JSON.
  unfold SendMessage_touch, time_Now in Ht. apply Save_session_Err in Ht.
  cbn [db] in Ht.
  apply SendMessage_session_Next in Hs. destruct Hs as [Hm1 _].
  apply SendMessage_userMessage_Next in Hu. destruct Hu as [_ [Hd2 _]].
  apply SendMessage_botMessage_Next in Hb. destruct Hb as [_ [Hd3 _]].
  repeat split.
  - exact Ht.
  - rewrite Ht, Hd3. cbn. rewrite Hd2. reflexivity.
  - rewrite Ht, Hd3. cbn. rewrite Hd2. cbn. rewrite Hm1, <- app_assoc. reflexivity.
Qed.

(** A first message whose final Save meets a storage fault. *)
Lemma SendMessage_save_failure_ignored_witness :
  let '(response, w') :=
    serve (SendMessage services.MockAIService (Decoded hi_request)) save_fault_world in
  response = mkResponse StatusOK
               (JSend (SendMessageResponse.mk
                         (Message.mk "m-2" "Mock response to: Hi" "bot" 103 "text"
                                     false false false "" "s-1")
                         "s-1"))
  /\ Status response = 200
  /\ db w' = mkDB [Session.mk "s-1" "New Chat" 100 101 false]
                  [Message.mk "m-1" "Hi" "user" 102 "text" false false false "" "s-1";
                   Message.mk "m-2" "Mock response to: Hi" "bot" 103 "text"
                              false false false "" "s-1"]
  /\ sessions (db w') = [Session.mk "s-1" "New Chat" 100 101 false]
  /\ messages (db w')
     = (messages (db save_fault_world)
        ++ [Message.mk "m-1" "Hi" "user" 102 "text" false false false "" "s-1";
            Message.mk "m-2" "Mock response to: Hi" "bot" 103 "text"
                       false false false "" "s-1"])%list.
Proof.
  pose (s := Session.mk "s-1" "New Chat" 100 101 false).
  pose (w1 := snd (SendMessage_session hi_request save_fault_world)).
  pose (w2 := snd (SendMessage_userMessage hi_request s w1)).
  pose (w3 := snd (SendMessage_botMessage "Mock response to: Hi" s w2)).
  pose (w4 := snd (SendMessage_touch s w3)).
  apply (SendMessage_save_failure_ignored services.MockAIService (Decoded hi_request)
           hi_request save_fault_world w1 w2 w3 w4 s
           (Message.mk "m-1" "Hi" "user" 102 "text" false false false "" "s-1")
           (Message.mk "m-2" "Mock response to: Hi" "bot" 103 "text"
                       false false false "" "s-1")
           "Mock response to: Hi" ErrInvalidDB);
    reflexivity.
Defined.

(** ** UpdateSession and DeleteSession *)

(** What "Update fields if provided" makes of a row. *)
Lemma apply_update_fields req now session :
  apply_update req now session
  = Session.mk (Session.ID session)
               (if String.eqb (UpdateSessionRequest.Title req) ""
                then Session.Title session else UpdateSessionRequest.Title req)
               (Session.CreatedAt session)
               now
               (match UpdateSessionRequest.IsFavorite req with
                | Some isFavorite => isFavorite
                | None => Session.IsFavorite session
                end).
Proof.
  unfold apply_update.
  destruct (String.eqb (UpdateSessionRequest.Title req) "");
    destruct (UpdateSessionRequest.IsFavorite req); reflexivity.
Qed.

(** C8.  UpdateSession on an existing session, the two statements going
    through: the response is 200 with the updated row, which keeps id and
    created_at, takes the title of the request unless it is empty, takes
    the favorite flag of the request unless it is absent, and carries the
    clock reading of the call as updated_at; the row is overwritten in
    place, the other rows and the messages are as before.  On an absent id
    the response is a 404 and the tables are as before; and whenever the
    response is not 200 the tables are as before. *)
Theorem UpdateSession_partial_update
    (sessionID : string) (c : json_body UpdateSessionRequest.t)
    (req : UpdateSessionRequest.t) (w w' : World) (response : Response) :
  ShouldBindJSON no_required c = Ok req ->
  serve (UpdateSession sessionID c) w = (response, w') ->
  (forall session,
      find_session sessionID (db w) = Some session ->
      storage_ok 2 w ->
      let updated :=
        Session.mk (Session.ID session)
                   (if String.eqb (UpdateSessionRequest.Title req) ""
                    then Session.Title session else UpdateSessionRequest.Title req)
                   (Session.CreatedAt session)
                   (clock w 0%nat)
                   (match UpdateSessionRequest.IsFavorite req with
                    | Some isFavorite => isFavorite
                    | None => Session.IsFavorite session
                    end) in
      response = mkResponse StatusOK (JSession updated [])
      /\ Session.ID updated = sessionID
      /\ sessions (db w') = overwrite_session updated (sessions (db w))
      /\ find_session sessionID (db w') = Some updated
      /\ (forall other, In other (sessions (db w)) ->
                        Session.ID other <> sessionID ->
                        In other (sessions (db w')))
      /\ messages (db w') = messages (db w))
  /\ (find_session sessionID (db w) = None ->
      Status response = StatusNotFound /\ db w' = db w)
  /\ (Status response <> StatusOK -> db w' = db w).
Proof.
  intros Hbind Hrun.
  unfold serve, UpdateSession, bind, bind_request in Hrun.
  rewrite Hbind in Hrun. cbn [ret] in Hrun.
  unfold or_reply, First_session, statement in Hrun.
  destruct (faults w 0%nat) eqn:F0.
  { cbn in Hrun. inversion Hrun; subst response w'; clear Hrun.
    split; [|split].
    - intros s _ Hok. rewrite (Hok 0%nat) in F0 by lia. discriminate.
    - intros _. split; reflexivity.
    - intros _. reflexivity. }
  destruct (find_session sessionID (db w)) as [session|] eqn:Hfind.
  2:{ cbn in Hrun. inversion Hrun; subst response w'; clear Hrun.
      split; [discriminate|]. split; [intros _; split|intros _]; reflexivity. }
  cbn [fst snd db clock ids faults] in Hrun.
  unfold lift, time_Now, Save_session, statement in Hrun.
  cbn [fst snd db clock ids faults] in Hrun.
  destruct (tl_of (faults w) 0%nat) eqn:F1.
  { cbn in Hrun. inversion Hrun; subst response w'; clear Hrun.
    split; [|split].
    - intros s _ Hok. unfold tl_of in F1. rewrite (Hok 1%nat) in F1 by lia.
      discriminate.
    - discriminate.
    - intros _. reflexivity. }
  pose proof (find_session_ID _ _ _ Hfind) as Hid.
  rewrite apply_update_fields in Hrun. cbn [Session.ID] in Hrun.
  unfold find_session in Hfind.
  rewrite Hid, (find_some_existsb _ _ _ Hfind) in Hrun.
  unfold c_JSON in Hrun. cbn [fst snd db sessions messages] in Hrun.
  inversion Hrun; subst response w'; clear Hrun.
  split; [|split].
  - intros s Hs _. inversion Hs; subst s; clear Hs. cbn zeta.
    cbn [db sessions messages]. rewrite Hid. repeat split.
    + unfold find_session, overwrite_session. cbn [sessions Session.ID].
      apply find_map_overwrite.
      * unfold session_has_id. cbn. apply String.eqb_refl.
      * exact (find_some_existsb _ _ _ Hfind).
    + intros other Hin Hne. unfold overwrite_session. cbn [Session.ID].
      apply in_map_iff. exists other. split; [|exact Hin].
      unfold session_has_id. destruct (String.eqb_spec (Session.ID other) sessionID);
        [contradiction|reflexivity].
  - discriminate.
  - intros Hne. exfalso. apply Hne. reflexivity.
Qed.

(** Renaming s-1, and updating a session that is not there. *)
Lemma UpdateSession_partial_update_witness :
  (fst (serve (UpdateSession "s-1" (Decoded (UpdateSessionRequest.mk "Renamed" None)))
              chat_world)
   = mkResponse StatusOK (JSession (Session.mk "s-1" "Renamed" 100 200 false) [])
   /\ sessions (db (snd (serve (UpdateSession "s-1"
                                  (Decoded (UpdateSessionRequest.mk "Renamed" None)))
                               chat_world)))
      = [Session.mk "s-1" "Renamed" 100 200 false; session_2])
  /\ Status (fst (serve (UpdateSession "s-9"
                           (Decoded (UpdateSessionRequest.mk "Renamed" None)))
                        chat_world))
     = StatusNotFound.
Proof.
  split.
  - destruct (proj1 (UpdateSession_partial_update "s-1"
                       (Decoded (UpdateSessionRequest.mk "Renamed" None))
                       (UpdateSessionRequest.mk "Renamed" None) chat_world _ _
                       eq_refl eq_refl)
                    session_1 eq_refl (fun i _ => eq_refl))
      as [Hr [_ [Hs _]]].
    split; [exact Hr|exact Hs].
  - exact (proj1 (proj1 (proj2 (UpdateSession_partial_update "s-9"
                                  (Decoded (UpdateSessionRequest.mk "Renamed" None))
                                  (UpdateSessionRequest.mk "Renamed" None) chat_world _ _
                                  eq_refl eq_refl))
                        eq_refl)).
Defined.

Lemma filter_all {A : Type} (p : A -> bool) (l : list A) :
  existsb (fun x => negb (p x)) l = false -> filter p l = l.
Proof.
  induction l as [|x l IH]; cbn; [reflexivity|].
  intros H. apply orb_false_iff in H. destruct H as [Hx Hl].
  apply negb_false_iff in Hx. rewrite Hx, (IH Hl). reflexivity.
Qed.

Lemma filter_twice {A : Type} (p : A -> bool) (l : list A) :
  filter p (filter p l) = filter p l.
Proof.
  induction l as [|x l IH]; cbn; [reflexivity|].
  destruct (p x) eqn:E; cbn; [rewrite E, IH|]; easy.
Qed.

Lemma find_filter_out {A : Type} (p : A -> bool) (l : list A) :
  find p (filter (fun x => negb (p x)) l) = None.
Proof.
  induction l as [|x l IH]; cbn; [reflexivity|].
  destruct (p x) eqn:E; cbn; [exact IH|]. rewrite E. exact IH.
Qed.

(** X29.  [handlers.DeleteSession] on an id that no session has: the
    response is a 404 and nothing is deleted, whether or not the lookup
    meets a storage fault. *)
Lemma DeleteSession_absent sessionID w :
  find_session sessionID (db w) = None ->
  Status (fst (serve (DeleteSession sessionID) w)) = StatusNotFound
  /\ db (snd (serve (DeleteSession sessionID) w)) = db w.
Proof.
  intros Hfind.
  unfold serve, DeleteSession, bind, or_reply, First_session, statement.
  rewrite Hfind. destruct (faults w 0%nat); cbn; split; reflexivity.
Qed.

(** X13.  [handlers.DeleteSession] on an existing id, the three statements
    going through: the response is 200, the messages of the session and the
    session are gone, every other row is kept, and a GetSession that
    follows answers 404. *)
Lemma DeleteSession_existing sessionID w session :
  find_session sessionID (db w) = Some session ->
  storage_ok 3 w ->
  fst (serve (DeleteSession sessionID) w)
    = mkResponse StatusOK (JNote "Session deleted successfully")
  /\ sessions (db (snd (serve (DeleteSession sessionID) w)))
     = filter (fun s => negb (session_has_id sessionID s)) (sessions (db w))
  /\ messages (db (snd (serve (DeleteSession sessionID) w)))
     = filter (fun m => negb (message_in_session sessionID m)) (messages (db w))
  /\ (forall w'', db w'' = db (snd (serve (DeleteSession sessionID) w)) ->
                  Status (fst (serve (GetSession sessionID) w'')) = StatusNotFound).
Proof.
  intros Hfind Hok.
  unfold serve at 1 2 3, DeleteSession, bind, or_reply, First_session. run_statement Hok.
  rewrite Hfind. cbn [fst snd].
  unfold Delete_messages_of. run_statement Hok.
  unfold Delete_session. run_statement Hok.
  rewrite (find_session_ID _ _ _ Hfind), filter_twice.
  unfold c_JSON. cbn [fst snd db sessions messages].
  repeat split.
  intros w'' Hdb.
  unfold serve, DeleteSession, bind, or_reply, First_session in Hdb.
  rewrite statement_ok in Hdb by (apply Hok; lia).
  cbn [fst snd db clock ids faults sessions messages] in Hdb.
  rewrite Hfind in Hdb. cbn [fst snd] in Hdb.
  unfold Delete_messages_of in Hdb.
  rewrite statement_ok in Hdb by (cbn; unfold tl_of; apply Hok; lia).
  cbn [fst snd db clock ids faults sessions messages] in Hdb.
  unfold Delete_session in Hdb.
  rewrite statement_ok in Hdb by (cbn; unfold tl_of; apply Hok; lia).
  cbn [fst snd db clock ids faults sessions messages] in Hdb.
  unfold serve, GetSession, bind, or_reply, First_session_with_messages, statement,
    find_session.
  rewrite Hdb. cbn [sessions]. rewrite (find_session_ID _ _ _ Hfind).
  rewrite (find_filter_out (session_has_id sessionID)).
  destruct (faults w'' 0%nat); reflexivity.
Qed.

(** C4.  [ChatService.DeleteSession] on an id that no session has, the two
    statements going through: both DELETE statements are issued and the
    method hands back no error, not NotFound; existence is not checked
    before the deletes, as [handlers.DeleteSession] above does. *)
Theorem ChatService_DeleteSession_absent sessionID w :
  find_session sessionID (db w) = None ->
  storage_ok 2 w ->
  let '(r, w') := ChatService.DeleteSession sessionID w in
  r = Ok tt
  /\ sessions (db w') = sessions (db w)
  /\ messages (db w')
     = filter (fun m => negb (message_in_session sessionID m)) (messages (db w)).
Proof.
  intros Hfind Hok.
  unfold ChatService.DeleteSession, ChatService.andThen, Delete_messages_of.
  run_statement Hok.
  unfold Delete_session. run_statement Hok.
  rewrite filter_twice. repeat split.
  apply filter_all. unfold find_session in Hfind.
  rewrite <- (find_none_existsb _ _ Hfind).
  clear. induction (sessions (db w)) as [|x l IH]; cbn; [reflexivity|].
  rewrite negb_involutive, IH. reflexivity.
Qed.

(** Deleting, through the service, a session that is not there. *)
Lemma ChatService_DeleteSession_absent_witness :
  let '(r, w') := ChatService.DeleteSession "s-9" chat_world in
  r = Ok tt
  /\ sessions (db w') = sessions (db chat_world)
  /\ messages (db w')
     = filter (fun m => negb (message_in_session "s-9" m)) (messages (db chat_world)).
Proof.
  apply (ChatService_DeleteSession_absent "s-9" chat_world); [reflexivity|].
  intros i _. reflexivity.
Defined.

(** ** Timestamps of sessions along a run *)

(** Each handler is taken apart along the tests it runs through; on every
    path what has become of the sessions table is one of the four cases of
    [session_effect]. *)
Ltac split_goal_tests :=
  repeat (cbn [fst snd db clock ids faults sessions messages negb];
          match goal with
          | |- context [if ?b then _ else _] => destruct b eqn:?
          | |- context [match ?x with Some _ => _ | None => _ end] => destruct x eqn:?
          | |- context [match ?x with Ok _ => _ | Err _ => _ end] => destruct x eqn:?
          end);
  cbn [fst snd db clock ids faults sessions messages negb].

Lemma find_session_In id d s : find_session id d = Some s -> In s (sessions d).
Proof. intros H. apply find_some in H. exact (proj1 H). Qed.

Lemma find_session_stored id d s :
  find_session id d = Some s ->
  existsb (session_has_id (Session.ID s)) (sessions d) = true.
Proof.
  intros H. rewrite (find_session_ID _ _ _ H). exact (find_some_existsb _ _ _ H).
Qed.

Lemma existsb_last_session s s' l :
  Session.ID s' = Session.ID s ->
  existsb (session_has_id (Session.ID s')) (l ++ [s]) = true.
Proof.
  intros H. rewrite existsb_app. cbn. unfold session_has_id at 2.
  rewrite H, String.eqb_refl, orb_true_r. reflexivity.
Qed.

(** The path wrote nothing to the sessions table. *)
Ltac no_effect :=
  solve [ apply (effect_none _ _ 0); reflexivity
        | apply (effect_none _ _ 1); reflexivity
        | apply (effect_none _ _ 2); reflexivity
        | apply (effect_none _ _ 3); reflexivity
        | apply (effect_none _ _ 4); reflexivity
        | apply (effect_none _ _ 5); reflexivity ].

(** A [Save] that follows a lookup of the same key finds the row. *)
Ltac row_is_stored :=
  exfalso;
  match goal with
  | F : find_session _ _ = Some ?t, E : existsb _ _ = false |- _ =>
      apply find_session_stored in F;
      first [ rewrite apply_update_fields in E | idtac ];
      cbn [Session.ID Session.with_UpdatedAt Session.with_IsFavorite] in E;
      rewrite F in E; discriminate E
  | E : existsb _ (_ ++ [_]) = false |- _ =>
      rewrite existsb_last_session in E by reflexivity; discriminate E
  end.

(** The path overwrote the row it had loaded, with the [j]-th clock reading
    as updated_at. *)
Ltac row_saved n j :=
  match goal with
  | F : find_session _ _ = Some ?t
    |- session_effect _ (mkWorld (mkDB (overwrite_session ?s _) _) _ _ _) =>
      apply (effect_save _ _ n j t s);
      [ reflexivity | lia | exact (find_session_In _ _ _ F)
      | first [ rewrite apply_update_fields | idtac ]; reflexivity
      | first [ rewrite apply_update_fields | idtac ]; reflexivity
      | first [ rewrite apply_update_fields | idtac ]; reflexivity
      | reflexivity ]
  end.

(** The path added a row, with the [i]-th and [j]-th clock readings as
    created_at and updated_at. *)
Ltac row_inserted n i j :=
  match goal with
  | E : existsb (session_has_id _) (sessions (db ?w)) = false
    |- session_effect ?w (mkWorld (mkDB (sessions (db ?w) ++ [?s]) _) _ _ _) =>
      apply (effect_insert _ _ n i j s);
      [ reflexivity | lia | reflexivity | reflexivity | exact E | reflexivity ]
  | E : existsb (session_has_id _) (sessions (db ?w)) = false
    |- session_effect ?w
         (mkWorld (mkDB (overwrite_session ?s' (sessions (db ?w) ++ [?s])) _) _ _ _) =>
      rewrite (overwrite_session_last s s' _ eq_refl E);
      apply (effect_insert _ _ n i j s');
      [ reflexivity | lia | reflexivity | reflexivity | exact E | reflexivity ]
  end.

Ltac effect_of_request :=
  split_goal_tests;
  first [ no_effect
        | row_is_stored
        | row_saved 1%nat 0%nat
        | row_saved 3%nat 2%nat
        | row_inserted 2%nat 0%nat 1%nat
        | row_inserted 3%nat 0%nat 1%nat
        | row_inserted 4%nat 0%nat 1%nat
        | row_inserted 5%nat 0%nat 1%nat
        | row_inserted 5%nat 0%nat 4%nat
        | idtac ].

Lemma SendMessage_effect ai c w :
  session_effect w (snd (serve (SendMessage ai c) w)).
Proof.
  unfold serve, SendMessage, SendMessage_session, SendMessage_userMessage,
    SendMessage_aiResponse, SendMessage_botMessage, SendMessage_touch,
    bind, bind_request, or_reply, lift, c_JSON, ret,
    First_session_Preload_Mode, Create_session,
    Create_message, Save_session, statement,
    time_Now, uuid_New.
  effect_of_request.
Qed.

Lemma RegenerateMessage_effect ai c w :
  session_effect w (snd (serve (RegenerateMessage ai c) w)).
Proof.
  unfold serve, RegenerateMessage, bind, bind_request, or_reply, lift, c_JSON, ret,
    First_message, First_session, First_previous_user_message,
    RegenerateMessage_mark, RegenerateMessage_aiResponse,
    RegenerateMessage_newMessage, Save_message, Create_message, statement,
    uuid_New, time_Now, bind, or_reply, lift, c_JSON, ret.
  effect_of_request.
Qed.

Lemma CreateSession_effect c w :
  session_effect w (snd (serve (CreateSession c) w)).
Proof.
  unfold serve, CreateSession, bind, bind_request, or_reply, lift, c_JSON, ret,
    Create_session, statement, uuid_New, time_Now.
  effect_of_request.
Qed.

Lemma GetSession_effect id w :
  session_effect w (snd (serve (GetSession id) w)).
Proof.
  unfold serve, GetSession, bind, or_reply, c_JSON, First_session_with_messages,
    statement.
  effect_of_request.
Qed.

Lemma UpdateSession_effect id c w :
  session_effect w (snd (serve (UpdateSession id c) w)).
Proof.
  unfold serve, UpdateSession, bind, bind_request, or_reply, lift, c_JSON, ret,
    First_session, Save_session, statement, time_Now.
  effect_of_request.
Qed.

Lemma ToggleFavorite_effect id w :
  session_effect w (snd (serve (ToggleFavorite id) w)).
Proof.
  unfold serve, ToggleFavorite, bind, or_reply, lift, c_JSON, ret,
    First_session, Save_session, statement, time_Now.
  effect_of_request.
Qed.

Lemma DeleteSession_effect id w :
  session_effect w (snd (serve (DeleteSession id) w)).
Proof.
  unfold serve, DeleteSession, bind, or_reply, c_JSON,
    First_session, Delete_messages_of, Delete_session, statement.
  effect_of_request.
  match goal with
  | F : find_session _ _ = Some ?t |- _ =>
      apply (effect_delete _ _ 0 (Session.ID t)); reflexivity
  end.
Qed.

Lemma route_effect ai r w :
  session_effect w (snd (serve (route ai r) w)).
Proof.
  destruct r; cbn [route].
  - apply SendMessage_effect.
  - apply RegenerateMessage_effect.
  - apply CreateSession_effect.
  - apply GetSession_effect.
  - apply UpdateSession_effect.
  - apply DeleteSession_effect.
  - apply ToggleFavorite_effect.
Qed.

(** The row served for a key after the rows of a key were overwritten. *)
Lemma find_overwrite_session id s l :
  find (session_has_id id) (overwrite_session s l)
  = match find (session_has_id id) l with
    | Some x => Some (if session_has_id (Session.ID s) x then s else x)
    | None => None
    end.
Proof.
  unfold overwrite_session. induction l as [|x l IH]; cbn; [reflexivity|].
  destruct (session_has_id (Session.ID s) x) eqn:E.
  - unfold session_has_id in *. apply String.eqb_eq in E. rewrite E.
    destruct (String.eqb (Session.ID s) id) eqn:E'.
    + replace (String.eqb (Session.ID x) (Session.ID s)) with true
        by (symmetry; apply String.eqb_eq; exact E).
      reflexivity.
    + exact IH.
  - destruct (session_has_id id x); [rewrite E; reflexivity|exact IH].
Qed.

(** The row served for a key after the rows of a key were deleted. *)
Lemma find_delete_session id id' l s :
  find (session_has_id id) (filter (fun x => negb (session_has_id id' x)) l) = Some s ->
  find (session_has_id id) l = Some s.
Proof.
  induction l as [|x l IH]; cbn; [discriminate|].
  destruct (session_has_id id' x) eqn:E'; cbn.
  - intros H. destruct (session_has_id id x) eqn:E.
    + exfalso. unfold session_has_id in E, E'.
      apply String.eqb_eq in E. apply String.eqb_eq in E'.
      apply find_some in H. destruct H as [Hin Hs].
      apply filter_In in Hin. destruct Hin as [_ Hin].
      unfold session_has_id in Hs, Hin. apply String.eqb_eq in Hs.
      rewrite Hs, <- E, E', String.eqb_refl in Hin. discriminate.
    + exact (IH H).
  - destruct (session_has_id id x); [easy|exact IH].
Qed.

Lemma shift_monotone n w w' :
  clock w' = shift n (clock w) -> clock_monotone w ->
  clock_monotone w' /\ (forall j, (j <= n)%nat -> clock w j <= clock w' 0%nat).
Proof.
  intros Hc Hm. split.
  - intros i j Hij. rewrite Hc. unfold shift. apply Hm. lia.
  - intros j Hj. rewrite Hc. unfold shift. apply Hm. lia.
Qed.

(** Under a clock that does not run backwards, whatever a request does to
    the sessions table keeps created_at <= updated_at <= now on every row
    and never lowers the updated_at stored under a key. *)
Lemma session_effect_timestamps w w' :
  clock_monotone w -> stamps_ok w -> session_effect w w' ->
  clock_monotone w' /\ stamps_ok w'
  /\ (forall id s s',
         find_session id (db w) = Some s -> find_session id (db w') = Some s' ->
         Session.UpdatedAt s <= Session.UpdatedAt s').
Proof.
  intros Hm Hok He.
  assert (Hold : forall n s, clock w' = shift n (clock w) -> In s (sessions (db w)) ->
                             Session.CreatedAt s <= Session.UpdatedAt s
                             /\ Session.UpdatedAt s <= clock w' 0%nat).
  { intros n s Hc Hin. destruct (Hok s Hin) as [H1 H2].
    destruct (shift_monotone n w w' Hc Hm) as [_ Hn].
    specialize (Hn 0%nat). split; [exact H1|]. etransitivity; [exact H2|]. apply Hn. lia. }
  destruct He as [n Hc Hs | n i j s Hc Hij Hcr Hup Hfree Hs
                 | n j s0 s Hc Hj Hin0 Hid Hcr Hup Hs | n id0 Hc Hs];
    destruct (shift_monotone n w w' Hc Hm) as [Hm' Hn];
    (split; [exact Hm'|]); unfold stamps_ok, find_session; rewrite Hs.
  - split.
    + intros s Hin. exact (Hold n s Hc Hin).
    + intros id s s' H1 H2. unfold find_session in H1. rewrite H1 in H2.
      inversion H2. lia.
  - split.
    + intros x Hin. apply in_app_or in Hin. destruct Hin as [Hin|[<-|[]]].
      * exact (Hold n x Hc Hin).
      * rewrite Hcr, Hup. split; [apply Hm; lia|apply Hn; lia].
    + intros id x x' H1 H2. unfold find_session in H1.
      rewrite (find_app_some _ _ _ _ H1) in H2. inversion H2. lia.
  - assert (Hs_ok : Session.CreatedAt s <= Session.UpdatedAt s
                    /\ Session.UpdatedAt s <= clock w' 0%nat
                    /\ clock w 0%nat <= Session.UpdatedAt s).
    { destruct (Hok s0 Hin0) as [H1 H2]. rewrite Hcr, Hup.
      assert (clock w 0%nat <= clock w j) by (apply Hm; lia).
      repeat split; [lia|apply Hn; lia|assumption]. }
    split.
    + intros x Hin. unfold overwrite_session in Hin. apply in_map_iff in Hin.
      destruct Hin as [y [Hy Hin]].
      destruct (session_has_id (Session.ID s) y); subst x.
      * split; apply Hs_ok.
      * exact (Hold n y Hc Hin).
    + intros id x x' H1 H2. unfold find_session in H1.
      rewrite find_overwrite_session, H1 in H2. inversion H2; subst x'.
      destruct (session_has_id (Session.ID s) x); [|lia].
      apply find_some in H1. destruct (Hok x (proj1 H1)) as [_ Hx].
      destruct Hs_ok as [_ [_ Hlow]]. lia.
  - split.
    + intros x Hin. apply filter_In in Hin. exact (Hold n x Hc (proj1 Hin)).
    + intros id x x' H1 H2. apply find_delete_session in H2.
      unfold find_session in H1. rewrite H1 in H2. inversion H2. lia.
Qed.

(** X19.  One request, whichever route it takes, under a clock that does
    not run backwards: created_at <= updated_at <= now still holds on every
    stored session, and the updated_at stored under an id that is kept is
    never lowered. *)
Lemma request_keeps_timestamps ai r w :
  clock_monotone w -> stamps_ok w ->
  clock_monotone (snd (serve (route ai r) w))
  /\ stamps_ok (snd (serve (route ai r) w))
  /\ (forall id s s',
         find_session id (db w) = Some s ->
         find_session id (db (snd (serve (route ai r) w))) = Some s' ->
         Session.UpdatedAt s <= Session.UpdatedAt s').
Proof.
  intros Hm Hok. apply session_effect_timestamps; [exact Hm|exact Hok|].
  apply route_effect.
Qed.

(** X18.  Any run of requests, under a clock that does not run backwards:
    in every state reached, updated_at >= created_at on every stored
    session, and no stored updated_at lies in the future. *)
Lemma serve_all_keeps_timestamps ai rs : forall w,
  clock_monotone w -> stamps_ok w ->
  clock_monotone (serve_all ai rs w) /\ stamps_ok (serve_all ai rs w).
Proof.
  induction rs as [|r rs IH]; intros w Hm Hok; cbn [serve_all]; [split; assumption|].
  destruct (session_effect_timestamps w _ Hm Hok (route_effect ai r w)) as [Hm' [Hok' _]].
  apply IH; assumption.
Qed.

(** X20.  [handlers.SendMessage] with a sessionId never goes on: the
    session is looked up through [Preload("Mode")], an association
    [models.Session] does not declare, so for every non-empty sessionId,
    that of a stored session included, and whatever the completion client
    would answer, the response is 404 "Session not found" and the tables
    are as before. *)
Theorem SendMessage_session_id_rejected
    (aiService : services.AIService) (c : json_body SendMessageRequest.t)
    (req : SendMessageRequest.t) (w : World) :
  ShouldBindJSON SendMessageRequest_required c = Ok req ->
  SendMessageRequest.SessionID req <> "" ->
  let '(response, w') := serve (SendMessage aiService c) w in
  response = error_response StatusNotFound "Session not found"
                            "The specified session does not exist"
  /\ db w' = db w.
Proof.
  intros Hbind Hne.
  unfold serve, SendMessage, bind, bind_request. rewrite Hbind. cbn [ret].
  unfold SendMessage_session. apply String.eqb_neq in Hne. rewrite Hne. cbn [negb].
  unfold or_reply, First_session_Preload_Mode, statement.
  destruct (faults w 0%nat); [split; reflexivity|].
  destruct (find_session (SendMessageRequest.SessionID req) (db w));
    split; reflexivity.
Qed.

(** X28.  No path of [handlers.RegenerateMessage] writes to the sessions
    table: whatever the request, the completion client and the storage
    faults, the sessions are row for row what they were. *)
Lemma RegenerateMessage_sessions_untouched
    (aiService : services.AIService) (c : json_body RegenerateMessageRequest.t)
    (w : World) :
  sessions (db (snd (serve (RegenerateMessage aiService c) w))) = sessions (db w).
Proof.
  unfold serve, RegenerateMessage, bind, bind_request, or_reply, lift, c_JSON, ret,
    First_message, First_session, First_previous_user_message,
    RegenerateMessage_mark, RegenerateMessage_aiResponse,
    RegenerateMessage_newMessage, Save_message, Create_message, statement,
    uuid_New, time_Now, bind, or_reply, lift, c_JSON, ret.
  destruct (ShouldBindJSON RegenerateMessageRequest_required c) as [req|e];
    [|reflexivity].
  repeat (cbn [fst snd db clock ids faults sessions messages];
          match goal with
          | |- context [if ?b then _ else _] => destruct b
          | |- context [match ?x with Some _ => _ | None => _ end] => destruct x
          | |- context [match ?x with Ok _ => _ | Err _ => _ end] => destruct x
          end);
    reflexivity.
Qed.

(** C3.  The sessions table after a RegenerateMessage call that succeeds at
    instant 200: the message m-3 has been added to session s-1 and m-2 has
    been marked, and the row of s-1 still carries updated_at = 104. *)
Theorem RegenerateMessage_keeps_updated_at :
  let '(response, w') :=
    serve (RegenerateMessage services.MockAIService
             (Decoded (RegenerateMessageRequest.mk "m-2" "s-1"))) chat_world in
  response
    = mkResponse StatusOK
        (JMessage (Message.mk "m-3" "Mock regenerated response to: Hi" "bot" 200
                              "text" false false true "m-2" "s-1"))
  /\ messages (db w')
     = [Message.mk "m-1" "Hi" "user" 102 "text" false false false "" "s-1";
        Message.mk "m-2" "Mock response to: Hi" "bot" 103 "text" false false true
                   "m-2" "s-1";
        Message.mk "m-3" "Mock regenerated response to: Hi" "bot" 200
                   "text" false false true "m-2" "s-1"]
  /\ find_session "s-1" (db w') = Some (Session.mk "s-1" "New Chat" 100 104 false)
  /\ sessions (db w') = sessions (db chat_world).
Proof. vm_compute. repeat split. Qed.

(** ** Listings *)

Section OrderBy.
Context {A : Type} (f : A -> A -> bool).
Hypothesis f_total : forall a b, f a b = true \/ f b a = true.
Hypothesis f_trans : forall a b c, f a b = true -> f b c = true -> f a c = true.

Lemma insert_by_Permutation (x : A) (l : list A) :
  Permutation (insert_by f x l) (x :: l).
Proof.
  induction l as [|y l IH]; cbn; [reflexivity|].
  destruct (f x y); [reflexivity|].
  rewrite IH. apply perm_swap.
Qed.

Lemma order_by_Permutation (l : list A) : Permutation (order_by f l) l.
Proof.
  induction l as [|x l IH]; cbn; [reflexivity|].
  rewrite insert_by_Permutation. apply perm_skip. exact IH.
Qed.

Lemma insert_by_sorted (x : A) (l : list A) :
  StronglySorted (fun a b => f a b = true) l ->
  StronglySorted (fun a b => f a b = true) (insert_by f x l).
Proof.
  induction l as [|y l IH]; cbn; intros Hs.
  - constructor; constructor.
  - inversion Hs as [|? ? Hl Hy]; subst.
    destruct (f x y) eqn:E.
    + constructor; [exact Hs|]. constructor; [exact E|].
      eapply Forall_impl; [|exact Hy]. cbn. intros b Hb. exact (f_trans _ _ _ E Hb).
    + constructor; [exact (IH Hl)|].
      rewrite (insert_by_Permutation x l). constructor; [|exact Hy].
      destruct (f_total x y) as [H|H]; [congruence|exact H].
Qed.

Lemma order_by_sorted (l : list A) :
  StronglySorted (fun a b => f a b = true) (order_by f l).
Proof.
  induction l as [|x l IH]; cbn; [constructor|].
  apply insert_by_sorted. exact IH.
Qed.

End OrderBy.

Lemma StronglySorted_weaken {A : Type} (R R' : A -> A -> Prop) (l : list A) :
  (forall a b, R a b -> R' a b) -> StronglySorted R l -> StronglySorted R' l.
Proof.
  intros HR Hs. induction Hs as [|a l Hs IH Ha]; constructor; [exact IH|].
  eapply Forall_impl; [|exact Ha]. exact (HR a).
Qed.

Lemma order_by_timestamp_asc (l : list Message.t) :
  StronglySorted (fun a b => Message.Timestamp a <= Message.Timestamp b)
                 (order_by timestamp_asc l).
Proof.
  apply (StronglySorted_weaken (fun a b => timestamp_asc a b = true)).
  - intros a b H. apply Z.leb_le. exact H.
  - apply order_by_sorted; unfold timestamp_asc.
    + intros a b. rewrite !Z.leb_le. lia.
    + intros a b c. rewrite !Z.leb_le. lia.
Qed.

Lemma order_by_updated_at_desc (l : list Session.t) :
  StronglySorted (fun a b => Session.UpdatedAt b <= Session.UpdatedAt a)
                 (order_by updated_at_desc l).
Proof.
  apply (StronglySorted_weaken (fun a b => updated_at_desc a b = true)).
  - intros a b H. apply Z.leb_le. exact H.
  - apply order_by_sorted; unfold updated_at_desc.
    + intros a b. rewrite !Z.leb_le. lia.
    + intros a b c. rewrite !Z.leb_le. lia.
Qed.

Lemma filter_nothing {A : Type} (p : A -> bool) (l : list A) :
  (forall a, In a l -> p a = false) -> filter p l = [].
Proof.
  induction l as [|x l IH]; cbn; intros H; [reflexivity|].
  rewrite (H x (or_introl eq_refl)). apply IH. intros a Ha. apply H. right. exact Ha.
Qed.

(** X1.  [handlers.GetMessages] when the statement goes through: the
    response is 200 with exactly the messages of the session asked for,
    each once, in ascending order of timestamp, whatever their order in the
    table; a session that has no message (or does not exist) gives 200 with
    an empty list, not 404; the tables are as before.  When the statement
    fails the response is 500. *)
Theorem GetMessages_sorted (sessionID : string) (w : World) :
  let '(response, w') := GetMessages sessionID w in
  db w' = db w
  /\ (faults w 0%nat = true -> ListStatus response = StatusInternalServerError)
  /\ (faults w 0%nat = false ->
      exists rows,
        response = mkListed StatusOK (Ok rows)
        /\ Permutation rows (filter (message_in_session sessionID) (messages (db w)))
        /\ StronglySorted
             (fun a b => Message.Timestamp a <= Message.Timestamp b) rows
        /\ (forall m, In m rows <->
                      In m (messages (db w)) /\ Message.SessionID m = sessionID)
        /\ ((forall m, In m (messages (db w)) -> Message.SessionID m <> sessionID) ->
            rows = [])).
Proof.
  unfold GetMessages, Find_messages_of, statement.
  destruct (faults w 0%nat); cbn.
  - split; [reflexivity|]. split; [reflexivity|discriminate].
  - split; [reflexivity|]. split; [discriminate|]. intros _.
    set (found := filter (message_in_session sessionID) (messages (db w))).
    pose proof (order_by_Permutation timestamp_asc found) as Hperm.
    exists (order_by timestamp_asc found).
    split; [reflexivity|]. split; [exact Hperm|].
    split; [apply order_by_timestamp_asc|]. split.
    + intros m. split.
      * intros Hin. apply (Permutation_in _ Hperm) in Hin.
        apply filter_In in Hin. split; [exact (proj1 Hin)|].
        apply String.eqb_eq. exact (proj2 Hin).
      * intros [Hin Hs]. apply (Permutation_in _ (Permutation_sym Hperm)).
        apply filter_In. split; [exact Hin|]. apply String.eqb_eq. exact Hs.
    + intros Hnone. replace found with (@nil Message.t); [reflexivity|].
      symmetry. apply filter_nothing. intros m Hm.
      apply String.eqb_neq. apply Hnone. exact Hm.
Qed.

(** X2.  [handlers.GetSessions] when the statement goes through: 200 with
    every stored session exactly once, the most recently updated first; the
    tables are as before.  When the statement fails the response is 500. *)
Theorem GetSessions_sorted (w : World) :
  let '(response, w') := GetSessions w in
  db w' = db w
  /\ (faults w 0%nat = true -> ListStatus response = StatusInternalServerError)
  /\ (faults w 0%nat = false ->
      exists rows,
        response = mkListed StatusOK (Ok rows)
        /\ Permutation rows (sessions (db w))
        /\ StronglySorted
             (fun a b => Session.UpdatedAt b <= Session.UpdatedAt a) rows).
Proof.
  unfold GetSessions, Find_sessions, statement.
  destruct (faults w 0%nat); cbn.
  - split; [reflexivity|]. split; [reflexivity|discriminate].
  - split; [reflexivity|]. split; [discriminate|]. intros _.
    exists (order_by updated_at_desc (sessions (db w))).
    split; [reflexivity|]. split; [apply order_by_Permutation|].
    apply order_by_updated_at_desc.
Qed.

(** X3.  [ChatService.GetFavoriteSessions] when the statement goes through:
    the sessions handed back are the stored sessions flagged favorite, each
    once and no other, the most recently updated first. *)
Theorem GetFavoriteSessions_sorted (w : World) :
  faults w 0%nat = false ->
  exists rows,
    fst (ChatService.GetFavoriteSessions w) = Ok rows
    /\ Permutation rows (filter Session.IsFavorite (sessions (db w)))
    /\ (forall s, In s rows <-> In s (sessions (db w)) /\ Session.IsFavorite s = true)
    /\ StronglySorted (fun a b => Session.UpdatedAt b <= Session.UpdatedAt a) rows
    /\ db (snd (ChatService.GetFavoriteSessions w)) = db w.
Proof.
  intros Hf.
  unfold ChatService.GetFavoriteSessions, Find_favorite_sessions, statement.
  rewrite Hf. cbn.
  pose proof (order_by_Permutation updated_at_desc
                (filter Session.IsFavorite (sessions (db w)))) as Hperm.
  eexists. split; [reflexivity|]. split; [exact Hperm|]. split; [|split].
  - intros s. rewrite <- filter_In. split; intros H.
    + exact (Permutation_in _ Hperm H).
    + exact (Permutation_in _ (Permutation_sym Hperm) H).
  - apply order_by_updated_at_desc.
  - reflexivity.
Qed.

(** ** middleware/auth.go *)

Lemma HasPrefix_append (p r : string) : middleware.HasPrefix (p ++ r) p = true.
Proof.
  unfold middleware.HasPrefix. induction p as [|a p IH]; cbn.
  - destruct r; reflexivity.
  - destruct (ascii_dec a a) as [_|n]; [exact IH|contradiction].
Qed.

Lemma HasPrefix_split (s p : string) :
  middleware.HasPrefix s p = true ->
  s = p ++ substring (String.length p) (String.length s - String.length p) s.
Proof.
  unfold middleware.HasPrefix. revert s. induction p as [|a p IH]; intros s H.
  - cbn. rewrite Nat.sub_0_r. clear H. induction s as [|b s IHs]; cbn; [reflexivity|].
    f_equal. destruct s as [|c s]; [reflexivity|]. exact IHs.
  - destruct s as [|b s]; cbn in H; [discriminate|].
    destruct (ascii_dec a b) as [->|]; [|discriminate].
    cbn. f_equal. exact (IH s H).
Qed.

Lemma TrimPrefix_append (p r : string) : middleware.TrimPrefix (p ++ r) p = r.
Proof.
  unfold middleware.TrimPrefix. rewrite HasPrefix_append.
  pose proof (HasPrefix_split (p ++ r) p (HasPrefix_append p r)) as H.
  revert H. generalize (substring (String.length p)
                                  (String.length (p ++ r) - String.length p) (p ++ r)).
  intros t H. induction p as [|a p IH]; cbn in H; [congruence|].
  inversion H. exact (IH H1).
Qed.

(** X4.  [RequireAuth] lets a request through exactly when its
    Authorization header is "Bearer " followed by a token of more than ten
    bytes, and then sets [user_id] to "demo_user" and [token] to that token;
    in every other case it aborts with status 401. *)
Theorem RequireAuth_passes_iff (authHeader : string) :
  (forall keys,
      middleware.RequireAuth authHeader = middleware.Passed keys <->
      exists token,
        authHeader = "Bearer " ++ token
        /\ (10 < String.length token)%nat
        /\ keys = [("user_id", "demo_user"); ("token", token)])
  /\ (forall r, middleware.RequireAuth authHeader = middleware.Aborted r ->
                Status r = 401).
Proof.
  split.
  - intros keys. split.
    + unfold middleware.RequireAuth, middleware.unauthorized.
      destruct (String.eqb authHeader ""); [discriminate|].
      destruct (middleware.HasPrefix authHeader "Bearer ") eqn:Hp; [|discriminate].
      cbn [negb].
      destruct (String.eqb (middleware.TrimPrefix authHeader "Bearer ") "");
        [discriminate|].
      destruct (middleware.validateToken (middleware.TrimPrefix authHeader "Bearer "))
        eqn:Hv; [|discriminate].
      cbn [negb]. intros H. inversion H; subst keys; clear H.
      exists (middleware.TrimPrefix authHeader "Bearer ").
      split; [|split; [|reflexivity]].
      * unfold middleware.TrimPrefix. rewrite Hp. exact (HasPrefix_split _ _ Hp).
      * unfold middleware.validateToken in Hv. apply Nat.ltb_lt. exact Hv.
    + intros [token [-> [Hlen ->]]].
      unfold middleware.RequireAuth.
      change (String.eqb ("Bearer " ++ token) "") with false.
      rewrite HasPrefix_append, TrimPrefix_append. cbn [negb].
      destruct token as [|a token]; [cbn in Hlen; lia|].
      change (String.eqb (String a token) "") with false.
      unfold middleware.validateToken.
      apply Nat.ltb_lt in Hlen. rewrite Hlen. reflexivity.
  - intros r. unfold middleware.RequireAuth, middleware.unauthorized.
    repeat match goal with
           | |- context [if ?b then _ else _] => destruct b
           end; intros H; inversion H; reflexivity.
Qed.

(** X5.  [OptionalAuth] never aborts: it sets on the context the keys that
    [RequireAuth] would set for the same header, and none where
    [RequireAuth] would abort. *)
Theorem OptionalAuth_never_aborts (authHeader : string) :
  middleware.OptionalAuth authHeader
  = middleware.Passed
      match middleware.RequireAuth authHeader with
      | middleware.Passed keys => keys
      | middleware.Aborted _ => []
      end.
Proof.
  unfold middleware.OptionalAuth, middleware.RequireAuth, middleware.unauthorized.
  destruct (String.eqb authHeader ""); cbn [negb andb]; [reflexivity|].
  destruct (middleware.HasPrefix authHeader "Bearer "); cbn [negb]; [|reflexivity].
  destruct (String.eqb (middleware.TrimPrefix authHeader "Bearer ") "") eqn:E.
  - apply String.eqb_eq in E. rewrite E. reflexivity.
  - destruct (middleware.validateToken (middleware.TrimPrefix authHeader "Bearer "));
      reflexivity.
Qed.

(** ** The completion client *)

(** X6.  [makeRequest] hands back a reply exactly when the round trip
    ends in a response of status 200 whose body unmarshals to at least one
    choice, and the reply is the content of the first choice; a response of
    any other status is an error whatever its body holds. *)
Theorem makeRequest_reply_iff
    (o : services.Outside) (s : services.OpenAI) (request : services.OpenAIRequest)
    (reply : string) :
  services.makeRequest o s request = Ok reply <->
  exists body role rest,
    services.post o (services.APIURL s) ("Bearer " ++ services.APIKey s) request
      = services.Responded 200 body
    /\ services.UnmarshalResponse o body = Ok ((role, reply) :: rest).
Proof.
  unfold services.makeRequest. split.
  - destruct (services.post o _ _ request) as [e|e|e|e|status body]; try discriminate.
    destruct (status =? 200) eqn:Hs; cbn [negb].
    + apply Z.eqb_eq in Hs. subst status.
      destruct (services.UnmarshalResponse o body) as [[|[role content] rest]|e] eqn:Hu;
        try discriminate.
      cbn. intros H. inversion H; subst. exists body, role, rest.
      split; [reflexivity|exact Hu].
    + destruct (services.UnmarshalAPIError o body); discriminate.
  - intros [body [role [rest [Hp Hu]]]]. rewrite Hp. cbn [Z.eqb negb].
    change (200 =? 200) with true. cbn [negb]. rewrite Hu. reflexivity.
Qed.

Lemma getEnv_cases getenv key defaultValue :
  (getenv key <> "" /\ config.getEnv getenv key defaultValue = getenv key)
  \/ (getenv key = "" /\ config.getEnv getenv key defaultValue = defaultValue).
Proof.
  unfold config.getEnv. destruct (String.eqb_spec (getenv key) ""); cbn; tauto.
Qed.

(** X7.  Whatever the environment holds, [LoadConfig] yields a non-empty
    port, database path, completion URL, environment tag and log level: a
    variable that is unset or set to the empty string falls back to its
    default, and the API key is the one field that can come out empty. *)
Theorem LoadConfig_defaults (getenv : string -> string) :
  let cfg := config.LoadConfig getenv in
  config.Port cfg <> "" /\ config.DBPath cfg <> "" /\ config.AIAPIURL cfg <> ""
  /\ config.Environment cfg <> "" /\ config.LogLevel cfg <> ""
  /\ config.AIAPIKey cfg = getenv "AI_API_KEY"
  /\ (getenv "PORT" = "" -> config.Port cfg = "8080")
  /\ (getenv "ENVIRONMENT" = "" ->
      config.IsDevelopment cfg = true /\ config.IsProduction cfg = false).
Proof.
  cbn. unfold config.LoadConfig. cbn.
  repeat split;
    try match goal with
        | |- config.getEnv ?g ?k ?d <> "" =>
            destruct (getEnv_cases g k d) as [[Hne ->]|[_ ->]];
              [exact Hne|discriminate]
        end.
  - destruct (getEnv_cases getenv "AI_API_KEY" "") as [[_ ->]|[-> ->]]; reflexivity.
  - intros H. unfold config.getEnv. rewrite H. reflexivity.
  - unfold config.IsDevelopment. cbn. unfold config.getEnv. rewrite H. reflexivity.
  - unfold config.IsProduction. cbn. unfold config.getEnv. rewrite H. reflexivity.
Qed.

Lemma wired_mock o getenv :
  getenv "AI_API_KEY" = "" -> wired_AIService o getenv = services.MockAIService.
Proof.
  intros H. unfold wired_AIService, initAIService, config.LoadConfig. cbn.
  unfold config.getEnv. rewrite H. reflexivity.
Qed.

(** The storage blocks of SendMessage never write the response of the
    completion block. *)
Lemma SendMessage_storage_replies req session aiResponse w r w' :
  SendMessage_session req w = (Replied r, w')
  \/ SendMessage_userMessage req session w = (Replied r, w')
  \/ SendMessage_botMessage aiResponse session w = (Replied r, w') ->
  r <> error_response StatusInternalServerError "AI Service error"
                      "Failed to get AI response".
Proof.
  unfold SendMessage_session, SendMessage_userMessage, SendMessage_botMessage,
    bind, or_reply, lift, ret, First_session_Preload_Mode, Create_session,
    Create_message,
    statement, uuid_New, time_Now.
  intros [H|[H|H]]; split_tests H; inversion H; discriminate.
Qed.

(** X8.  A server started without [AI_API_KEY] (unset or empty) is wired to
    the mock client: SendMessage never answers 500 "AI Service error", and
    whenever it answers 200 the bot message it returns and has stored last
    reads "Mock response to: " followed by the text sent. *)
Theorem SendMessage_without_api_key
    (o : services.Outside) (getenv : string -> string)
    (c : json_body SendMessageRequest.t) (w w' : World) (response : Response) :
  getenv "AI_API_KEY" = "" ->
  serve (SendMessage (wired_AIService o getenv) c) w = (response, w') ->
  response <> error_response StatusInternalServerError "AI Service error"
                             "Failed to get AI response"
  /\ (Status response = StatusOK ->
      exists req botMessage before,
        c = Decoded req
        /\ response = mkResponse StatusOK
             (JSend (SendMessageResponse.mk botMessage
                                            (Message.SessionID botMessage)))
        /\ Message.Content botMessage
           = "Mock response to: " ++ SendMessageRequest.Message req
        /\ Message.Sender botMessage = "bot"
        /\ messages (db w') = (before ++ [botMessage])%list).
Proof.
  intros Hkey Hrun. rewrite (wired_mock o getenv Hkey) in Hrun.
  unfold serve, SendMessage, bind, bind_request in Hrun.
  destruct (ShouldBindJSON SendMessageRequest_required c) as [req|e] eqn:Hbind.
  2:{ cbn in Hrun. inversion Hrun; subst. split; discriminate. }
  cbn [ret] in Hrun.
  destruct (SendMessage_session req w) as [[session|r] w1] eqn:Hs.
  2:{ inversion Hrun; subst. split.
      - apply (SendMessage_storage_replies req session_1 "" w response w'). tauto.
      - apply SendMessage_session_Replied in Hs. tauto. }
  destruct (SendMessage_userMessage req session w1) as [[um|r] w2] eqn:Hu.
  2:{ inversion Hrun; subst. split.
      - apply (SendMessage_storage_replies req session "" w1 response w'). tauto.
      - apply SendMessage_userMessage_Replied in Hu. tauto. }
  unfold SendMessage_aiResponse in Hrun. cbn [services.SendMessage services.MockAIService ret]
    in Hrun.
  destruct (SendMessage_botMessage ("Mock response to: " ++ SendMessageRequest.Message req)
              session w2) as [[bm|r] w3] eqn:Hb.
  2:{ inversion Hrun; subst. split.
      - eapply (SendMessage_storage_replies req session _ w2 response w'). eauto.
      - apply SendMessage_botMessage_Replied in Hb. tauto. }
  unfold lift, c_JSON in Hrun.
  destruct (SendMessage_touch session w3) as [saved w4] eqn:Ht.
  inversion Hrun; subst; clear Hrun.
  split; [discriminate|]. intros _.
  apply SendMessage_botMessage_Next in Hb. destruct Hb as [Hbm [Hd3 _]].
  apply SendMessage_touch_cases in Ht. destruct Ht as [Hm4 _].
  assert (Hc : c = Decoded req).
  { unfold ShouldBindJSON in Hbind. destruct c as [err|v]; [discriminate|].
    destruct (filter _ _); inversion Hbind; reflexivity. }
  exists req, bm, (messages (db w2)).
  rewrite Hm4, Hd3. rewrite Hbm. cbn. repeat split. exact Hc.
Qed.

(** X9.  With [AI_API_KEY] set, the client that [main] wires posts to the
    URL read from [AI_API_URL] and not to the one [LoadConfig] holds: when
    the variable is unset the configuration carries the default URL, the
    request goes to the empty URL, and if the round trip to the empty URL
    fails every completion call fails. *)
Theorem wired_client_posts_to_environment_url
    (o : services.Outside) (getenv : string -> string) :
  getenv "AI_API_KEY" <> "" ->
  getenv "AI_API_URL" = "" ->
  (forall auth request, exists err,
      services.post o "" auth request = services.DoFailed err) ->
  config.AIAPIURL (config.LoadConfig getenv)
    = "https://api.openai.com/v1/chat/completions"
  /\ (forall message, exists e,
         services.SendMessage (wired_AIService o getenv) message = Err e)
  /\ (forall message, exists e,
         services.RegenerateMessage (wired_AIService o getenv) message = Err e).
Proof.
  intros Hkey Hurl Hfail.
  assert (Hw : wired_AIService o getenv
               = services.OpenAIClient o (services.mkOpenAI (getenv "AI_API_KEY") "" 30)).
  { unfold wired_AIService, initAIService, config.LoadConfig. cbn.
    unfold config.getEnv. apply String.eqb_neq in Hkey. rewrite Hkey. cbn.
    rewrite Hkey. unfold services.NewOpenAIService. rewrite Hurl. reflexivity. }
  split; [|split].
  - unfold config.LoadConfig. cbn. unfold config.getEnv. rewrite Hurl. reflexivity.
  - intros message. rewrite Hw. cbn. unfold services.makeRequest. cbn.
    match goal with
    | |- context [services.post o "" ?a ?r] => destruct (Hfail a r) as [err ->]
    end.
    eexists. reflexivity.
  - intros message. rewrite Hw. cbn. unfold services.makeRequest. cbn.
    match goal with
    | |- context [services.post o "" ?a ?r] => destruct (Hfail a r) as [err ->]
    end.
    eexists. reflexivity.
Qed.

(** ** Sessions: create, toggle, delete *)

(** X10.  [handlers.CreateSession] when the insert goes through under a
    free identifier: the response is 201 with the new session, the one row
    added to sessions; its title is the title of the request, or "New Chat"
    when that is empty, so never empty; it is not a favorite, and its two
    timestamps are the two clock readings of the call. *)
Theorem CreateSession_stores
    (c : json_body CreateSessionRequest.t) (req : CreateSessionRequest.t) (w : World) :
  ShouldBindJSON no_required c = Ok req ->
  faults w 0%nat = false ->
  existsb (session_has_id (ids w 0%nat)) (sessions (db w)) = false ->
  let '(response, w') := serve (CreateSession c) w in
  exists session,
    response = mkResponse StatusCreated (JSession session [])
    /\ sessions (db w') = (sessions (db w) ++ [session])%list
    /\ messages (db w') = messages (db w)
    /\ Session.ID session = ids w 0%nat
    /\ Session.Title session
       = (if String.eqb (CreateSessionRequest.Title req) ""
          then "New Chat" else CreateSessionRequest.Title req)
    /\ Session.Title session <> ""
    /\ Session.IsFavorite session = false
    /\ Session.CreatedAt session = clock w 0%nat
    /\ Session.UpdatedAt session = clock w 1%nat.
Proof.
  intros Hbind Hf Hfree.
  unfold serve, CreateSession, bind, bind_request. rewrite Hbind. cbn [ret].
  unfold lift, uuid_New, time_Now, or_reply, Create_session.
  cbn [fst snd db clock ids faults].
  rewrite statement_ok by exact Hf.
  cbn [fst snd db clock ids faults sessions messages Session.ID].
  rewrite Hfree. cbn [fst snd]. unfold c_JSON.
  eexists. repeat split.
  cbn. destruct (String.eqb_spec (CreateSessionRequest.Title req) ""); [discriminate|assumption].
Qed.

Lemma find_app_fresh {A : Type} (p : A -> bool) (l : list A) (a : A) :
  existsb p l = false -> p a = true -> find p (l ++ [a]) = Some a.
Proof.
  induction l as [|x l IH]; cbn; intros H Ha.
  - rewrite Ha. reflexivity.
  - apply orb_false_iff in H. destruct H as [Hx Hl]. rewrite Hx. exact (IH Hl Ha).
Qed.

(** No message refers to a key that no session has. *)
Lemma no_message_of_unknown_session d id :
  schema_ok d -> existsb (session_has_id id) (sessions d) = false ->
  filter (message_in_session id) (messages d) = [].
Proof.
  intros [_ [_ Hfk]] Hfree. apply filter_nothing. intros m Hm.
  destruct (message_in_session id m) eqn:E; [|reflexivity].
  apply String.eqb_eq in E. destruct (Hfk m Hm) as [Hs _].
  rewrite E, Hfree in Hs. discriminate.
Qed.

(** X11.  Create, then get: after [handlers.CreateSession] has answered 201
    on tables that meet the schema, [handlers.GetSession] on the identifier
    it returned answers 200 with that very session and an empty list of
    messages. *)
Theorem CreateSession_then_GetSession
    (c : json_body CreateSessionRequest.t) (w w1 w2 : World)
    (session : Session.t) (answer : Response) :
  schema_ok (db w) ->
  serve (CreateSession c) w = (mkResponse StatusCreated (JSession session []), w1) ->
  faults w1 0%nat = false ->
  serve (GetSession (Session.ID session)) w1 = (answer, w2) ->
  answer = mkResponse StatusOK (JSession session []) /\ db w2 = db w1.
Proof.
  intros Hschema Hcreate Hf Hget.
  unfold serve, CreateSession, bind, bind_request in Hcreate.
  destruct (ShouldBindJSON no_required c) as [req|e]; [|cbn in Hcreate; inversion Hcreate].
  cbn [ret] in Hcreate.
  unfold lift, uuid_New, time_Now, or_reply, Create_session, statement, c_JSON in Hcreate.
  cbn [fst snd db clock ids faults] in Hcreate.
  destruct (faults w 0%nat); [cbn in Hcreate; inversion Hcreate|].
  cbn [Session.ID] in Hcreate.
  destruct (existsb (session_has_id (ids w 0%nat)) (sessions (db w))) eqn:Hfree;
    [cbn in Hcreate; inversion Hcreate|].
  cbn in Hcreate. inversion Hcreate; subst session w1; clear Hcreate.
  cbn [Session.ID db sessions messages faults] in *.
  unfold serve, GetSession, bind, or_reply, First_session_with_messages in Hget.
  rewrite statement_ok in Hget by exact Hf.
  cbn [fst snd db clock ids faults sessions messages] in Hget.
  unfold find_session in Hget. cbn [sessions] in Hget.
  rewrite (find_app_fresh _ _ _ Hfree) in Hget
    by (unfold session_has_id; cbn; apply String.eqb_refl).
  rewrite (no_message_of_unknown_session _ _ Hschema Hfree) in Hget.
  cbn in Hget. inversion Hget. split; reflexivity.
Qed.


(** X14.  [handlers.DeleteSession] does not roll back: when the session
    exists, the lookup and the delete of its messages go through and the
    delete of the session row fails, the response is 500 "Failed to delete
    session", the messages of the session are gone and the session is still
    stored. *)
Theorem DeleteSession_partial_failure (sessionID : string) (w : World)
    (session : Session.t) :
  find_session sessionID (db w) = Some session ->
  faults w 0%nat = false -> faults w 1%nat = false -> faults w 2%nat = true ->
  let '(response, w') := serve (DeleteSession sessionID) w in
  response = error_response StatusInternalServerError "Database error"
                            "Failed to delete session"
  /\ find_session sessionID (db w') = Some session
  /\ sessions (db w') = sessions (db w)
  /\ messages (db w')
     = filter (fun m => negb (message_in_session sessionID m)) (messages (db w))
  /\ (forall m, In m (messages (db w')) -> Message.SessionID m <> sessionID).
Proof.
  intros Hfind F0 F1 F2.
  unfold serve, DeleteSession, bind, or_reply, First_session, Delete_messages_of,
    Delete_session, statement.
  rewrite F0, Hfind. cbn [fst snd db clock ids faults sessions messages].
  unfold tl_of at 1. rewrite F1. cbn [fst snd db clock ids faults sessions messages].
  unfold tl_of at 1 2. rewrite F2. cbn.
  repeat split; try assumption.
  intros m Hm. apply filter_In in Hm. destruct Hm as [_ Hm].
  apply negb_true_iff in Hm. apply String.eqb_neq. exact Hm.
Qed.

(** ** Requests that are turned away *)

(** X15.  [handlers.SendMessage] turns a request away without touching the
    tables: a body that does not bind (an empty message among them) is
    answered 400, a non-empty sessionId that no session has is answered
    404; and with a non-empty sessionId no path adds or removes a session
    row. *)
Theorem SendMessage_turned_away
    (aiService : services.AIService) (c : json_body SendMessageRequest.t) (w : World) :
  let '(response, w') := serve (SendMessage aiService c) w in
  (forall e, ShouldBindJSON SendMessageRequest_required c = Err e ->
             response = error_response StatusBadRequest "Invalid request" e
             /\ db w' = db w)
  /\ (forall req, c = Decoded req -> SendMessageRequest.Message req = "" ->
                  Status response = StatusBadRequest /\ db w' = db w)
  /\ (forall req, ShouldBindJSON SendMessageRequest_required c = Ok req ->
                  SendMessageRequest.SessionID req <> "" ->
                  find_session (SendMessageRequest.SessionID req) (db w) = None ->
                  response = error_response StatusNotFound "Session not found"
                                            "The specified session does not exist"
                  /\ db w' = db w)
  /\ (forall req, ShouldBindJSON SendMessageRequest_required c = Ok req ->
                  SendMessageRequest.SessionID req <> "" ->
                  map Session.ID (sessions (db w')) = map Session.ID (sessions (db w))).
Proof.
  destruct (serve (SendMessage aiService c) w) as [response w'] eqn:Hrun.
  unfold serve, SendMessage, bind, bind_request in Hrun.
  split; [|split; [|split]].
  - intros e He. rewrite He in Hrun. cbn in Hrun. inversion Hrun. split; reflexivity.
  - intros req -> Hempty. cbn in Hrun. rewrite Hempty in Hrun. cbn in Hrun.
    inversion Hrun. split; reflexivity.
  - intros req Hreq Hne Hnone. rewrite Hreq in Hrun. cbn [ret] in Hrun.
    unfold SendMessage_session in Hrun. apply String.eqb_neq in Hne.
    rewrite Hne in Hrun. cbn [negb] in Hrun.
    unfold or_reply, First_session_Preload_Mode, statement in Hrun. rewrite Hnone in Hrun.
    destruct (faults w 0%nat); cbn in Hrun; inversion Hrun; split; reflexivity.
  - intros req Hreq Hne. rewrite Hreq in Hrun. cbn [ret] in Hrun.
    apply String.eqb_neq in Hne.
    destruct (SendMessage_session req w) as [[session|r] w1] eqn:Hs.
    + exfalso. unfold SendMessage_session in Hs. rewrite Hne in Hs. cbn [negb] in Hs.
      unfold or_reply, First_session_Preload_Mode, statement in Hs.
      destruct (faults w 0%nat); [inversion Hs|].
      destruct (find_session (SendMessageRequest.SessionID req) (db w)); inversion Hs.
    + inversion Hrun; subst. apply SendMessage_session_Replied in Hs.
      destruct Hs as [_ ->]. reflexivity.
Qed.

(** X16.  [handlers.RegenerateMessage] looks the message up before the
    session: an unknown messageId is answered 404 "Message not found"
    whatever the sessionId is, a known messageId with an unknown sessionId
    is answered 404 "Session not found" when the first lookup goes through,
    a body with an empty messageId or sessionId is answered 400; in all
    three cases the tables are as before. *)
Theorem RegenerateMessage_turned_away
    (aiService : services.AIService) (c : json_body RegenerateMessageRequest.t)
    (w : World) :
  let '(response, w') := serve (RegenerateMessage aiService c) w in
  (forall req, c = Decoded req ->
               RegenerateMessageRequest.MessageID req = ""
               \/ RegenerateMessageRequest.SessionID req = "" ->
               Status response = StatusBadRequest /\ db w' = db w)
  /\ (forall req, ShouldBindJSON RegenerateMessageRequest_required c = Ok req ->
                  find_message (RegenerateMessageRequest.MessageID req) (db w) = None ->
                  response = error_response StatusNotFound "Message not found"
                                            "The specified message does not exist"
                  /\ db w' = db w)
  /\ (forall req m, ShouldBindJSON RegenerateMessageRequest_required c = Ok req ->
                    find_message (RegenerateMessageRequest.MessageID req) (db w) = Some m ->
                    find_session (RegenerateMessageRequest.SessionID req) (db w) = None ->
                    faults w 0%nat = false ->
                    response = error_response StatusNotFound "Session not found"
                                              "The specified session does not exist"
                    /\ db w' = db w).
Proof.
  destruct (serve (RegenerateMessage aiService c) w) as [response w'] eqn:Hrun.
  unfold serve, RegenerateMessage, bind, bind_request in Hrun.
  split; [|split].
  - intros req -> Hempty. cbn in Hrun.
    destruct Hempty as [H|H]; rewrite H in Hrun; cbn in Hrun.
    + inversion Hrun. split; reflexivity.
    + destruct (String.eqb (RegenerateMessageRequest.MessageID req) "");
        cbn in Hrun; inversion Hrun; split; reflexivity.
  - intros req Hreq Hnone. rewrite Hreq in Hrun. cbn [ret] in Hrun.
    unfold or_reply, First_message, statement in Hrun. rewrite Hnone in Hrun.
    destruct (faults w 0%nat); cbn in Hrun; inversion Hrun; split; reflexivity.
  - intros req m Hreq Hm Hnone F0. rewrite Hreq in Hrun. cbn [ret] in Hrun.
    unfold or_reply, First_message, First_session, statement in Hrun.
    rewrite F0, Hm in Hrun. cbn [fst snd db clock ids faults] in Hrun.
    rewrite Hnone in Hrun.
    destruct (tl_of (faults w) 0%nat); cbn in Hrun; inversion Hrun; split; reflexivity.
Qed.

(** ** The earlier user message *)

Lemma first_served_best (l : list Message.t) (m : Message.t) :
  first_served l = Some m ->
  forall x, In x l -> Message.Timestamp x <= Message.Timestamp m.
Proof.
  unfold first_served.
  assert (G : forall acc,
             fold_left (fun best x =>
                          match best with
                          | None => Some x
                          | Some b => if served_before x b then Some x else Some b
                          end) l acc = Some m ->
             (forall x, In x l -> Message.Timestamp x <= Message.Timestamp m)
             /\ (forall b, acc = Some b -> Message.Timestamp b <= Message.Timestamp m)).
  { induction l as [|y l IH]; cbn; intros acc H.
    - split; [intros x []|]. intros b ->. inversion H. lia.
    - apply IH in H. destruct H as [Hl Hacc]. split.
      + intros x [Hx|Hx]; [subst y|exact (Hl x Hx)].
        destruct acc as [b|]; [|exact (Hacc x eq_refl)].
        destruct (served_before x b) eqn:E; [exact (Hacc x eq_refl)|].
        specialize (Hacc b eq_refl). unfold served_before in E.
        apply orb_false_iff in E. destruct E as [E _]. apply Z.ltb_ge in E. lia.
      + intros b ->. destruct (served_before y b) eqn:E; [|exact (Hacc b eq_refl)].
        specialize (Hacc y eq_refl). unfold served_before in E.
        apply orb_true_iff in E. destruct E as [E|E].
        * apply Z.ltb_lt in E. lia.
        * apply andb_true_iff in E. destruct E as [E _]. apply Z.eqb_eq in E. lia. }
  intros H. apply G in H. exact (proj1 H).
Qed.

(** X17.  The user message that RegenerateMessage answers again is the
    latest one before the target: it is a user message of the supplied
    session, strictly older than the target, and no user message of that
    session that is strictly older than the target has a later timestamp;
    it is found exactly when such a message exists. *)
Theorem previous_user_message_latest (sid : string) (t : Time) (d : DB) :
  (forall um, previous_user_message sid t d = Some um ->
              In um (messages d)
              /\ Message.SessionID um = sid /\ Message.Sender um = "user"
              /\ Message.Timestamp um < t
              /\ forall m, In m (messages d) -> Message.SessionID m = sid ->
                           Message.Sender m = "user" -> Message.Timestamp m < t ->
                           Message.Timestamp m <= Message.Timestamp um)
  /\ (previous_user_message sid t d = None <->
      forall m, In m (messages d) -> Message.SessionID m = sid ->
                Message.Sender m = "user" -> Message.Timestamp m < t -> False).
Proof.
  split.
  - intros um H. pose proof (previous_user_message_Some _ _ _ _ H) as [Hin [Hs [Hu Ht]]].
    repeat split; try assumption.
    intros m Hm Hms Hmu Hmt. unfold previous_user_message in H.
    apply (first_served_best _ _ H). apply filter_In. split; [exact Hm|].
    unfold earlier_user_message, message_in_session.
    rewrite Hms, Hmu, !String.eqb_refl. cbn. apply Z.ltb_lt. exact Hmt.
  - split; [|apply previous_user_message_None].
    intros Hnone m Hm Hms Hmu Hmt. unfold previous_user_message in Hnone.
    assert (Hin : In m (filter (earlier_user_message sid t) (messages d))).
    { apply filter_In. split; [exact Hm|].
      unfold earlier_user_message, message_in_session.
      rewrite Hms, Hmu, !String.eqb_refl. cbn. apply Z.ltb_lt. exact Hmt. }
    destruct (filter (earlier_user_message sid t) (messages d)) as [|x l]; [exact Hin|].
    unfold first_served in Hnone. cbn in Hnone.
    assert (G : forall l acc,
               fold_left (fun best x =>
                            match best with
                            | None => Some x
                            | Some b => if served_before x b then Some x else Some b
                            end) l (Some acc) <> None).
    { clear. induction l as [|y l IH]; cbn; intros acc; [discriminate|].
      destruct (served_before y acc); apply IH. }
    exact (G _ _ Hnone).
Qed.

(** ** What the schema keeps along a run *)

Lemma NoDup_app_one {A : Type} (l : list A) (a : A) :
  NoDup l -> ~ In a l -> NoDup (l ++ [a]).
Proof.
  intros Hl Ha. induction Hl as [|x l Hx Hl IH]; cbn.
  - constructor; [intros []|constructor].
  - constructor.
    + intros Hin. apply in_app_or in Hin. destruct Hin as [Hin|[->|[]]].
      * exact (Hx Hin).
      * apply Ha. left. reflexivity.
    + apply IH. intros Hin. apply Ha. right. exact Hin.
Qed.

Lemma keys_unique_filter {A : Type} (key : A -> string) (keep : A -> bool) :
  forall rows, NoDup (map key rows) -> NoDup (map key (filter keep rows)).
Proof.
  intros rows. induction rows as [|x rows IH]; cbn; intros H; [constructor|].
  inversion H as [|? ? Hx Hrows]; subst.
  destruct (keep x); [|exact (IH Hrows)]. cbn. constructor; [|exact (IH Hrows)].
  intros Hin. apply Hx. apply in_map_iff in Hin. destruct Hin as [y [Hy Hin]].
  apply in_map_iff. exists y. split; [exact Hy|].
  apply filter_In in Hin. exact (proj1 Hin).
Qed.

Lemma session_key_absent (s : Session.t) (l : list Session.t) :
  existsb (session_has_id (Session.ID s)) l = false ->
  ~ In (Session.ID s) (map Session.ID l).
Proof.
  intros E Hin. apply in_map_iff in Hin. destruct Hin as [x [Hx Hin]].
  assert (existsb (session_has_id (Session.ID s)) l = true); [|congruence].
  apply existsb_exists. exists x. split; [exact Hin|].
  unfold session_has_id. rewrite Hx. apply String.eqb_refl.
Qed.

Lemma message_key_absent (m : Message.t) (l : list Message.t) :
  existsb (message_has_id (Message.ID m)) l = false ->
  ~ In (Message.ID m) (map Message.ID l).
Proof.
  intros E Hin. apply in_map_iff in Hin. destruct Hin as [x [Hx Hin]].
  assert (existsb (message_has_id (Message.ID m)) l = true); [|congruence].
  apply existsb_exists. exists x. split; [exact Hin|].
  unfold message_has_id. rewrite Hx. apply String.eqb_refl.
Qed.

Lemma overwrite_session_keys (s : Session.t) (l : list Session.t) :
  map Session.ID (overwrite_session s l) = map Session.ID l.
Proof.
  unfold overwrite_session. rewrite map_map. apply map_ext. intros x.
  unfold session_has_id. destruct (String.eqb_spec (Session.ID x) (Session.ID s));
    [symmetry; assumption|reflexivity].
Qed.

Lemma existsb_session_keys (id : string) (l l' : list Session.t) :
  map Session.ID l' = map Session.ID l ->
  existsb (session_has_id id) l' = existsb (session_has_id id) l.
Proof.
  revert l'. induction l as [|x l IH]; intros [|x' l'] H; try discriminate; [reflexivity|].
  cbn in H. inversion H as [[Hx Hl]]. cbn. unfold session_has_id at 1 3.
  rewrite Hx, (IH _ Hl). reflexivity.
Qed.

Lemma schema_Create_session (s : Session.t) (ss : list Session.t) (ms : list Message.t) :
  schema_ok (mkDB ss ms) ->
  existsb (session_has_id (Session.ID s)) ss = false ->
  schema_ok (mkDB (ss ++ [s]) ms).
Proof.
  intros [HS [HM Hfk]] E. cbn in *. repeat split; cbn.
  - rewrite map_app. apply NoDup_app_one; [exact HS|]. apply session_key_absent. exact E.
  - exact HM.
  - rewrite existsb_app. rewrite (proj1 (Hfk m H)). reflexivity.
  - exact (proj2 (Hfk m H)).
Qed.

Lemma schema_Create_message (m : Message.t) (ss : list Session.t) (ms : list Message.t) :
  schema_ok (mkDB ss ms) ->
  existsb (message_has_id (Message.ID m)) ms = false ->
  sender_allowed (Message.Sender m) = true ->
  existsb (session_has_id (Message.SessionID m)) ss = true ->
  schema_ok (mkDB ss (ms ++ [m])).
Proof.
  intros [HS [HM Hfk]] E Hsender Hsession. cbn in *. split; [exact HS|]. split; cbn.
  - rewrite map_app. apply NoDup_app_one; [exact HM|]. apply message_key_absent. exact E.
  - intros x Hin. apply in_app_or in Hin. destruct Hin as [Hin|[<-|[]]].
    + exact (Hfk x Hin).
    + split; assumption.
Qed.

Lemma schema_overwrite_session (s : Session.t) (ss : list Session.t) (ms : list Message.t) :
  schema_ok (mkDB ss ms) -> schema_ok (mkDB (overwrite_session s ss) ms).
Proof.
  intros [HS [HM Hfk]]. cbn in *. repeat split; cbn.
  - rewrite overwrite_session_keys. exact HS.
  - exact HM.
  - rewrite (existsb_session_keys _ ss); [|apply overwrite_session_keys].
    exact (proj1 (Hfk m H)).
  - exact (proj2 (Hfk m H)).
Qed.

Lemma schema_overwrite_message (m : Message.t) (ss : list Session.t) (ms : list Message.t) :
  schema_ok (mkDB ss ms) ->
  sender_allowed (Message.Sender m) = true ->
  existsb (session_has_id (Message.SessionID m)) ss = true ->
  schema_ok (mkDB ss (overwrite_message m ms)).
Proof.
  intros [HS [HM Hfk]] Hsender Hsession. cbn in *. split; [exact HS|]. split; cbn.
  - rewrite overwrite_message_keys. exact HM.
  - intros x Hin. unfold overwrite_message in Hin. apply in_map_iff in Hin.
    destruct Hin as [y [Hy Hin]]. destruct (message_has_id (Message.ID m) y); subst x.
    + split; assumption.
    + exact (Hfk y Hin).
Qed.

Lemma schema_delete_messages (p : Message.t -> bool) (ss : list Session.t)
    (ms : list Message.t) :
  schema_ok (mkDB ss ms) -> schema_ok (mkDB ss (filter p ms)).
Proof.
  intros [HS [HM Hfk]]. cbn in *. split; [exact HS|]. split; cbn.
  - apply keys_unique_filter. exact HM.
  - intros x Hin. apply filter_In in Hin. exact (Hfk x (proj1 Hin)).
Qed.

Lemma schema_delete_session (id : string) (ss : list Session.t) (ms : list Message.t) :
  schema_ok (mkDB ss ms) ->
  schema_ok (mkDB (filter (fun s => negb (session_has_id id s)) ss)
                  (filter (fun m => negb (message_in_session id m)) ms)).
Proof.
  intros [HS [HM Hfk]]. cbn in *. split; [|split]; cbn.
  - apply keys_unique_filter. exact HS.
  - apply keys_unique_filter. exact HM.
  - intros x Hin. apply filter_In in Hin. destruct Hin as [Hin Hx].
    destruct (Hfk x Hin) as [Hs Hsender]. split; [|exact Hsender].
    apply existsb_exists in Hs. destruct Hs as [s [Hs Hid]].
    apply existsb_exists. exists s. split; [|exact Hid].
    apply filter_In. split; [exact Hs|].
    unfold session_has_id in *. unfold message_in_session in Hx.
    apply String.eqb_eq in Hid. rewrite Hid. exact Hx.
Qed.

Lemma schema_stored_message (id : string) (ss : list Session.t) (ms : list Message.t)
    (m : Message.t) :
  schema_ok (mkDB ss ms) -> find (message_has_id id) ms = Some m ->
  sender_allowed (Message.Sender m) = true
  /\ existsb (session_has_id (Message.SessionID m)) ss = true.
Proof.
  intros [_ [_ Hfk]] Hfind. apply find_some in Hfind.
  destruct (Hfk m (proj1 Hfind)) as [H1 H2]. split; assumption.
Qed.

Lemma marked_is_stored (id : string) (ms : list Message.t) (m : Message.t) :
  find (message_has_id id) ms = Some m ->
  existsb (message_has_id (Message.ID (mark_regenerated m))) ms = true.
Proof.
  intros H. cbn. apply find_some in H. destruct H as [Hin Hid].
  apply existsb_exists. exists m. split; [exact Hin|].
  unfold message_has_id. apply String.eqb_refl.
Qed.

(** The tables a path of a handler leaves are built from the statements
    that went through; each of them keeps the schema. *)
Ltac schema_kept :=
  repeat match goal with
         | H : negb _ = false |- _ => apply negb_false_iff in H
         end;
  repeat first
    [ assumption
    | apply schema_overwrite_session
    | apply schema_delete_session
    | apply schema_delete_messages
    | apply schema_Create_message; [|assumption|assumption|assumption]
    | match goal with
      | F : find (message_has_id _) ?ms = Some ?m, H : schema_ok (mkDB ?ss ?ms)
        |- schema_ok (mkDB ?ss (overwrite_message (mark_regenerated ?m) ?ms)) =>
          apply schema_overwrite_message;
          [exact H | exact (proj1 (schema_stored_message _ _ _ _ H F))
          | exact (proj2 (schema_stored_message _ _ _ _ H F))]
      end
    | apply schema_Create_session; [|assumption]
    | exfalso;
      match goal with
      | F : find (message_has_id _) ?l = Some ?m,
        E : existsb (message_has_id (Message.ID (mark_regenerated ?m))) ?l = false |- _ =>
          rewrite (marked_is_stored _ _ _ F) in E; discriminate E
      end ].

Lemma SendMessage_keeps_schema ai c w :
  schema_ok (db w) -> schema_ok (db (snd (serve (SendMessage ai c) w))).
Proof.
  destruct w as [[ss ms] ck us fs].
  unfold serve, SendMessage, SendMessage_session, SendMessage_userMessage,
    SendMessage_aiResponse, SendMessage_botMessage, SendMessage_touch,
    bind, bind_request, or_reply, lift, c_JSON, ret,
    First_session_Preload_Mode, Create_session,
    Create_message, Save_session, statement,
    time_Now, uuid_New, find_session.
  cbn [db sessions messages clock ids faults]. intros H.
  split_goal_tests; cbn [Message.ID Message.Sender Message.SessionID Session.ID] in *;
    schema_kept.
Qed.

Lemma RegenerateMessage_keeps_schema ai c w :
  schema_ok (db w) -> schema_ok (db (snd (serve (RegenerateMessage ai c) w))).
Proof.
  destruct w as [[ss ms] ck us fs].
  unfold serve, RegenerateMessage, bind, bind_request, or_reply, lift, c_JSON, ret,
    First_message, First_session, First_previous_user_message,
    RegenerateMessage_mark, RegenerateMessage_aiResponse,
    RegenerateMessage_newMessage, Save_message, Create_message, statement,
    uuid_New, time_Now, bind, or_reply, lift, c_JSON, ret, find_session, find_message.
  cbn [db sessions messages clock ids faults]. intros H.
  split_goal_tests; cbn [Message.ID Message.Sender Message.SessionID Session.ID] in *;
    schema_kept.
Qed.

Ltac handler_keeps_schema :=
  match goal with
  | |- schema_ok (db ?w) -> _ => destruct w as [[ss ms] ck us fs]
  end;
  unfold serve, CreateSession, GetSession, UpdateSession, DeleteSession, ToggleFavorite,
    bind, bind_request, or_reply, lift, c_JSON, ret,
    First_session, First_session_with_messages, Create_session, Save_session,
    Delete_messages_of, Delete_session, statement, uuid_New, time_Now, find_session;
  cbn [db sessions messages clock ids faults]; intros H;
  split_goal_tests; cbn [Session.ID] in *; schema_kept.

Lemma CreateSession_keeps_schema c w :
  schema_ok (db w) -> schema_ok (db (snd (serve (CreateSession c) w))).
Proof. handler_keeps_schema. Qed.

Lemma GetSession_keeps_schema id w :
  schema_ok (db w) -> schema_ok (db (snd (serve (GetSession id) w))).
Proof. handler_keeps_schema. Qed.

Lemma UpdateSession_keeps_schema id c w :
  schema_ok (db w) -> schema_ok (db (snd (serve (UpdateSession id c) w))).
Proof. handler_keeps_schema. Qed.

Lemma DeleteSession_keeps_schema id w :
  schema_ok (db w) -> schema_ok (db (snd (serve (DeleteSession id) w))).
Proof. handler_keeps_schema. Qed.

Lemma ToggleFavorite_keeps_schema id w :
  schema_ok (db w) -> schema_ok (db (snd (serve (ToggleFavorite id) w))).
Proof. handler_keeps_schema. Qed.

Lemma route_keeps_schema ai r w :
  schema_ok (db w) -> schema_ok (db (snd (serve (route ai r) w))).
Proof.
  destruct r as [c|c|c|id|id c|id|id]; cbn [route].
  - apply SendMessage_keeps_schema.
  - apply RegenerateMessage_keeps_schema.
  - apply CreateSession_keeps_schema.
  - apply GetSession_keeps_schema.
  - apply UpdateSession_keeps_schema.
  - apply DeleteSession_keeps_schema.
  - apply ToggleFavorite_keeps_schema.
Qed.

(** X21.  Whatever requests are served, against whatever completion
    service, clock, id source and storage faults: session ids and message
    ids stay unique, every stored message refers to a stored session and
    its sender is "user" or "bot".  A call that stops half way (the index
    of the failing statement is arbitrary) leaves no orphan message. *)
Theorem serve_all_keeps_schema (aiService : services.AIService) (rs : list request) :
  forall w, schema_ok (db w) -> schema_ok (db (serve_all aiService rs w)).
Proof.
  induction rs as [|r rs IH]; intros w H; cbn [serve_all]; [exact H|].
  apply IH. apply route_keeps_schema. exact H.
Qed.

(** ** The history of a conversation *)

Lemma written_once_marked (m : Message.t) :
  written_once (mark_regenerated m) = written_once m.
Proof. destruct m. reflexivity. Qed.

Lemma overwrite_marked (id : string) (ms : list Message.t) (m : Message.t) :
  NoDup (map Message.ID ms) -> find (message_has_id id) ms = Some m ->
  map written_once (overwrite_message (mark_regenerated m) ms) = map written_once ms.
Proof.
  intros Hnd Hfind. apply find_some in Hfind. destruct Hfind as [Hin _].
  unfold overwrite_message. rewrite map_map. apply map_ext_in. intros x Hx.
  cbn [mark_regenerated Message.ID Message.with_OriginalMessageID
       Message.with_IsRegenerated].
  unfold message_has_id.
  destruct (String.eqb_spec (Message.ID x) (Message.ID m)) as [Hid|E];
    [|reflexivity].
  rewrite written_once_marked. f_equal.
  induction ms as [|y ms IH]; [destruct Hin|].
  cbn in Hnd. inversion Hnd as [|? ? Hy Hnd']; subst.
  destruct Hin as [->|Hin], Hx as [->|Hx]; try reflexivity.
  - exfalso. apply Hy. rewrite <- Hid. apply in_map. exact Hx.
  - exfalso. apply Hy. rewrite Hid. apply in_map. exact Hin.
  - exact (IH Hnd' Hin Hx).
Qed.

Ltac history_kept :=
  first
    [ exists []; split; [rewrite app_nil_r; reflexivity | cbn; lia]
    | eexists [_]; split; [rewrite map_app; reflexivity | cbn; lia]
    | eexists [_; _]; split;
      [rewrite !map_app, <- app_assoc; reflexivity | cbn; lia]
    | match goal with
      | F : find (message_has_id _) ?l = Some ?m, H : NoDup (map Message.ID ?l) |- _ =>
          first
            [ exists []; split;
              [rewrite app_nil_r; exact (overwrite_marked _ _ _ H F) | cbn; lia]
            | eexists [_]; split;
              [rewrite map_app, (overwrite_marked _ _ _ H F); reflexivity | cbn; lia]
            | exfalso;
              match goal with
              | E : existsb (message_has_id (Message.ID (mark_regenerated m))) l = false
                |- _ => rewrite (marked_is_stored _ _ _ F) in E; discriminate E
              end ]
      end ].

(** X22.  Stored messages are never rewritten or dropped by a request
    other than DELETE /sessions/:id: after any other request the messages
    table is the old one, in the old order and with every column but
    is_regenerated and original_message_id as it was, followed by at most
    two new rows. *)
Theorem history_append_only (aiService : services.AIService) (r : request) (w : World) :
  NoDup (map Message.ID (messages (db w))) ->
  (forall id, r <> DELETE_session id) ->
  exists added,
    map written_once (messages (db (snd (serve (route aiService r) w))))
    = (map written_once (messages (db w)) ++ map written_once added)%list
    /\ (length added <= 2)%nat.
Proof.
  destruct w as [[ss ms] ck us fs]. cbn [db messages]. intros Hnd Hr.
  destruct r as [c|c|c|id|id c|id|id]; cbn [route];
    try (exfalso; exact (Hr id eq_refl)); clear Hr.
  - unfold serve, SendMessage, SendMessage_session, SendMessage_userMessage,
      SendMessage_aiResponse, SendMessage_botMessage, SendMessage_touch,
      bind, bind_request, or_reply, lift, c_JSON, ret,
      First_session_Preload_Mode, Create_session,
    Create_message, Save_session, statement,
      time_Now, uuid_New, find_session.
    split_goal_tests; history_kept.
  - unfold serve, RegenerateMessage, bind, bind_request, or_reply, lift, c_JSON, ret,
      First_message, First_session, First_previous_user_message,
      RegenerateMessage_mark, RegenerateMessage_aiResponse,
      RegenerateMessage_newMessage, Save_message, Create_message, statement,
      uuid_New, time_Now, bind, or_reply, lift, c_JSON, ret, find_session, find_message.
    cbn [db sessions messages clock ids faults].
    split_goal_tests; history_kept.
  - unfold serve, CreateSession, bind, bind_request, or_reply, lift, c_JSON, ret,
      Create_session, statement, uuid_New, time_Now.
    split_goal_tests; history_kept.
  - unfold serve, GetSession, bind, or_reply, c_JSON, First_session_with_messages,
      statement.
    split_goal_tests; history_kept.
  - unfold serve, UpdateSession, bind, bind_request, or_reply, lift, c_JSON, ret,
      First_session, Save_session, statement, time_Now.
    split_goal_tests; history_kept.
  - unfold serve, ToggleFavorite, bind, or_reply, lift, c_JSON, ret,
      First_session, Save_session, statement, time_Now.
    split_goal_tests; history_kept.
Qed.

(** ** A conversation: send, read back, regenerate *)

(** [handlers.SendMessage] without sessionId, the completion client
    answering, the four statements going through and the three identifiers
    drawn being free: the response and the world that is left. *)
Lemma SendMessage_fresh_run
    (aiService : services.AIService) (c : json_body SendMessageRequest.t)
    (req : SendMessageRequest.t) (w : World) (aiResponse : string) :
  ShouldBindJSON SendMessageRequest_required c = Ok req ->
  SendMessageRequest.SessionID req = "" ->
  services.SendMessage aiService (SendMessageRequest.Message req) = Ok aiResponse ->
  storage_ok 4 w ->
  existsb (session_has_id (ids w 0%nat)) (sessions (db w)) = false ->
  existsb (message_has_id (ids w 1%nat)) (messages (db w)) = false ->
  existsb (message_has_id (ids w 2%nat)) (messages (db w)) = false ->
  ids w 1%nat <> ids w 2%nat ->
  serve (SendMessage aiService c) w
  = (mkResponse StatusOK
       (JSend (SendMessageResponse.mk
                 (Message.mk (ids w 2%nat) aiResponse "bot" (clock w 3%nat) "text"
                             false false false "" (ids w 0%nat))
                 (ids w 0%nat))),
     mkWorld
       (mkDB (sessions (db w)
              ++ [Session.mk (ids w 0%nat) "New Chat" (clock w 0%nat) (clock w 4%nat)
                             false])
             (messages (db w)
              ++ [Message.mk (ids w 1%nat) (SendMessageRequest.Message req) "user"
                             (clock w 2%nat) "text" false false false "" (ids w 0%nat);
                  Message.mk (ids w 2%nat) aiResponse "bot" (clock w 3%nat) "text"
                             false false false "" (ids w 0%nat)]))
       (shift 5 (clock w)) (shift 3 (ids w)) (shift 4 (faults w))).
Proof.
  intros Hbind Hid Hai Hok Hs Hu Hb Hdiff.
  destruct w as [[ss ms] ck us fs]. cbn [db sessions messages clock ids faults] in *.
  assert (F0 : fs 0%nat = false) by (apply (Hok 0%nat); lia).
  assert (F1 : fs 1%nat = false) by (apply (Hok 1%nat); lia).
  assert (F2 : fs 2%nat = false) by (apply (Hok 2%nat); lia).
  assert (F3 : fs 3%nat = false) by (apply (Hok 3%nat); lia).
  assert (Hlast : forall s, Session.ID s = us 0%nat ->
                            existsb (session_has_id (us 0%nat)) (ss ++ [s]) = true).
  { intros s E. rewrite existsb_app. cbn [existsb]. unfold session_has_id at 2.
    rewrite E, String.eqb_refl. cbn [orb]. apply orb_true_r. }
  unfold serve, SendMessage, bind, bind_request. rewrite Hbind. cbn [ret].
  unfold SendMessage_session. rewrite Hid. cbn [String.eqb negb].
  unfold bind, lift, or_reply, ret, uuid_New, time_Now, Create_session, statement.
  cbn [fst snd db clock ids faults sessions messages Session.ID].
  rewrite F0, Hs. cbn [fst snd db clock ids faults sessions messages].
  unfold SendMessage_userMessage, bind, lift, or_reply, ret, uuid_New, time_Now,
    Create_message, statement.
  cbn [fst snd db clock ids faults sessions messages Session.ID
       Message.ID Message.Sender Message.SessionID].
  unfold tl_of. rewrite F1, Hu. change (sender_allowed "user") with true.
  rewrite Hlast by reflexivity.
  cbn [negb fst snd db clock ids faults sessions messages].
  unfold SendMessage_aiResponse. rewrite Hai. cbn [ret].
  unfold SendMessage_botMessage, bind, lift, or_reply, ret, uuid_New, time_Now,
    Create_message, statement.
  cbn [fst snd db clock ids faults sessions messages Session.ID
       Message.ID Message.Sender Message.SessionID].
  rewrite F2, existsb_app, Hb. cbn [existsb orb].
  unfold message_has_id at 1. cbn [Message.ID].
  replace (String.eqb (us 1%nat) (us 2%nat)) with false
    by (symmetry; apply String.eqb_neq; exact Hdiff).
  cbn [orb]. change (sender_allowed "bot") with true.
  rewrite Hlast by reflexivity.
  cbn [negb fst snd db clock ids faults sessions messages].
  unfold SendMessage_touch, time_Now, Save_session, statement, c_JSON.
  cbn [fst snd db clock ids faults sessions messages Session.ID Session.with_UpdatedAt].
  unfold tl_of. rewrite F3. rewrite Hlast by reflexivity.
  cbn [fst snd db clock ids faults sessions messages].
  rewrite (overwrite_session_last
             (Session.mk (us 0%nat) "New Chat" (ck 0%nat) (ck 1%nat) false)
             (Session.with_UpdatedAt (ck 4%nat)
                (Session.mk (us 0%nat) "New Chat" (ck 0%nat) (ck 1%nat) false)) ss
             eq_refl Hs).
  rewrite <- app_assoc. reflexivity.
Qed.

Lemma no_earlier_message_of_unknown_session d id t :
  schema_ok d -> existsb (session_has_id id) (sessions d) = false ->
  filter (earlier_user_message id t) (messages d) = [].
Proof.
  intros [_ [_ Hfk]] Hfree. apply filter_nothing. intros m Hm.
  unfold earlier_user_message.
  destruct (message_in_session id m) eqn:E; [|reflexivity].
  apply String.eqb_eq in E. destruct (Hfk m Hm) as [Hs _].
  rewrite E, Hfree in Hs. discriminate.
Qed.

(** X23.  Send, then read back: after [handlers.SendMessage] without
    sessionId has gone through on tables that meet the schema,
    [handlers.GetSession] on the session id of the response answers 200
    with the new session, whose updated_at is the clock reading taken after
    the two inserts, and with exactly two messages: the user's text, then
    the reply that the first response carried. *)
Theorem SendMessage_then_GetSession
    (aiService : services.AIService) (c : json_body SendMessageRequest.t)
    (req : SendMessageRequest.t) (w : World) (aiResponse : string) :
  ShouldBindJSON SendMessageRequest_required c = Ok req ->
  SendMessageRequest.SessionID req = "" ->
  services.SendMessage aiService (SendMessageRequest.Message req) = Ok aiResponse ->
  storage_ok 5 w ->
  schema_ok (db w) ->
  existsb (session_has_id (ids w 0%nat)) (sessions (db w)) = false ->
  existsb (message_has_id (ids w 1%nat)) (messages (db w)) = false ->
  existsb (message_has_id (ids w 2%nat)) (messages (db w)) = false ->
  ids w 1%nat <> ids w 2%nat ->
  let '(first, w1) := serve (SendMessage aiService c) w in
  let '(second, w2) := serve (GetSession (ids w 0%nat)) w1 in
  exists userMessage botMessage,
    first = mkResponse StatusOK
              (JSend (SendMessageResponse.mk botMessage (ids w 0%nat)))
    /\ second = mkResponse StatusOK
                  (JSession (Session.mk (ids w 0%nat) "New Chat" (clock w 0%nat)
                                        (clock w 4%nat) false)
                            [userMessage; botMessage])
    /\ Message.Content userMessage = SendMessageRequest.Message req
    /\ Message.Sender userMessage = "user"
    /\ Message.Content botMessage = aiResponse
    /\ Message.Sender botMessage = "bot"
    /\ db w2 = db w1.
Proof.
  intros Hbind Hid Hai Hok Hschema Hs Hu Hb Hdiff.
  rewrite (SendMessage_fresh_run aiService c req w aiResponse Hbind Hid Hai)
    by (try assumption; intros i Hi; apply Hok; lia).
  unfold serve, GetSession, bind, or_reply, c_JSON, First_session_with_messages,
    statement.
  cbn [db clock ids faults sessions messages]. unfold shift at 1.
  cbn [Nat.add]. rewrite (Hok 4%nat) by lia.
  unfold find_session. cbn [sessions messages].
  rewrite (find_app_fresh _ _ _ Hs)
    by (unfold session_has_id; cbn; apply String.eqb_refl).
  rewrite filter_app, (no_message_of_unknown_session _ _ Hschema Hs).
  cbn [filter app]. unfold message_in_session. cbn [Message.SessionID].
  rewrite String.eqb_refl. cbn [fst snd db].
  eexists. eexists. repeat split.
Qed.

(** X24.  Send, then regenerate the reply.  When the clock has moved
    between the two inserts of SendMessage, regenerating the reply just
    received puts the question just sent to the completion client again
    and answers 200 with a new bot message that points to the reply; when
    the two inserts read the same instant, the user message is not
    strictly older than the reply and the call answers 404 "User message
    not found", leaving the tables as they are. *)
Theorem SendMessage_then_RegenerateMessage
    (aiService : services.AIService) (c : json_body SendMessageRequest.t)
    (req : SendMessageRequest.t) (w : World) (aiResponse again : string) :
  ShouldBindJSON SendMessageRequest_required c = Ok req ->
  SendMessageRequest.SessionID req = "" ->
  services.SendMessage aiService (SendMessageRequest.Message req) = Ok aiResponse ->
  services.RegenerateMessage aiService (SendMessageRequest.Message req) = Ok again ->
  storage_ok 9 w ->
  schema_ok (db w) ->
  existsb (session_has_id (ids w 0%nat)) (sessions (db w)) = false ->
  existsb (message_has_id (ids w 1%nat)) (messages (db w)) = false ->
  existsb (message_has_id (ids w 2%nat)) (messages (db w)) = false ->
  existsb (message_has_id (ids w 3%nat)) (messages (db w)) = false ->
  ids w 0%nat <> "" -> ids w 2%nat <> "" ->
  ids w 1%nat <> ids w 2%nat -> ids w 1%nat <> ids w 3%nat ->
  ids w 2%nat <> ids w 3%nat ->
  let '(first, w1) := serve (SendMessage aiService c) w in
  let '(second, w2) :=
    serve (RegenerateMessage aiService
             (Decoded (RegenerateMessageRequest.mk (ids w 2%nat) (ids w 0%nat)))) w1 in
  (clock w 2%nat < clock w 3%nat ->
   second = mkResponse StatusOK
              (JMessage (Message.mk (ids w 3%nat) again "bot" (clock w 5%nat) "text"
                                    false false true (ids w 2%nat) (ids w 0%nat)))
   /\ sessions (db w2) = sessions (db w1))
  /\ (clock w 3%nat <= clock w 2%nat ->
      second = error_response StatusNotFound "User message not found"
                              "Could not find the user message to regenerate"
      /\ db w2 = db w1).
Proof.
  intros Hbind Hid Hai Hagain Hok Hschema Hs Hu Hb Hn Hs0 Hb0 H12 H13 H23.
  rewrite (SendMessage_fresh_run aiService c req w aiResponse Hbind Hid Hai)
    by (try assumption; intros i Hi; apply Hok; lia).
  set (session := Session.mk (ids w 0%nat) "New Chat" (clock w 0%nat) (clock w 4%nat)
                             false).
  set (um := Message.mk (ids w 1%nat) (SendMessageRequest.Message req) "user"
                        (clock w 2%nat) "text" false false false "" (ids w 0%nat)).
  set (bm := Message.mk (ids w 2%nat) aiResponse "bot" (clock w 3%nat) "text"
                        false false false "" (ids w 0%nat)).
  set (w1 := mkWorld _ _ _ _).
  set (body := Decoded (RegenerateMessageRequest.mk (ids w 2%nat) (ids w 0%nat))).
  assert (Hreq : ShouldBindJSON RegenerateMessageRequest_required body
                 = Ok (RegenerateMessageRequest.mk (ids w 2%nat) (ids w 0%nat))).
  { unfold ShouldBindJSON, body, RegenerateMessageRequest_required. cbn [filter snd].
    apply String.eqb_neq in Hs0, Hb0.
    cbn [RegenerateMessageRequest.MessageID RegenerateMessageRequest.SessionID].
    rewrite Hs0, Hb0. reflexivity. }
  assert (Horig : find_message (ids w 2%nat) (db w1) = Some bm).
  { unfold find_message, w1. cbn [db messages].
    change [um; bm] with ([um] ++ [bm])%list. rewrite app_assoc.
    apply find_app_fresh.
    - rewrite existsb_app, Hb. cbn. unfold message_has_id. cbn.
      apply String.eqb_neq in H12. rewrite H12. reflexivity.
    - unfold message_has_id. cbn. apply String.eqb_refl. }
  assert (Hsess : find_session (ids w 0%nat) (db w1) = Some session).
  { unfold find_session, w1. cbn [db sessions]. apply find_app_fresh; [exact Hs|].
    unfold session_has_id. cbn. apply String.eqb_refl. }
  assert (Hcand : filter (earlier_user_message (ids w 0%nat) (clock w 3%nat))
                         (messages (db w1))
                  = if clock w 2%nat <? clock w 3%nat then [um] else []).
  { unfold w1. cbn [db messages].
    rewrite filter_app, (no_earlier_message_of_unknown_session _ _ _ Hschema Hs).
    cbn [filter app]. unfold earlier_user_message, message_in_session.
    cbn [um bm Message.SessionID Message.Sender Message.Timestamp].
    rewrite String.eqb_refl. cbn.
    destruct (clock w 2%nat <? clock w 3%nat); reflexivity. }
  assert (Hok1 : storage_ok 5 w1).
  { intros i Hi. unfold w1. cbn [faults]. unfold shift. apply Hok. lia. }
  destruct (serve (RegenerateMessage aiService body) w1) as [second w2] eqn:Hrun.
  split.
  - intros Hlt.
    assert (Huser : previous_user_message (ids w 0%nat) (Message.Timestamp bm) (db w1)
                    = Some um).
    { unfold previous_user_message. cbn [bm Message.Timestamp]. rewrite Hcand.
      apply Z.ltb_lt in Hlt. rewrite Hlt. reflexivity. }
    assert (Hfresh : next_id_fresh w1).
    { unfold next_id_fresh, w1. cbn [db messages ids]. unfold shift. cbn [Nat.add].
      rewrite existsb_app, Hn. cbn. unfold message_has_id. cbn.
      apply String.eqb_neq in H13, H23. rewrite H13, H23. reflexivity. }
    destruct (RegenerateMessage_run aiService body _ w1 bm um session again
                Hreq Horig Hsess Huser Hagain Hok1 Hfresh) as [Hr Hd].
    rewrite Hrun in Hr, Hd. cbn [fst snd] in Hr, Hd. rewrite Hr, Hd.
    split; reflexivity.
  - intros Hge.
    unfold serve, RegenerateMessage, bind, bind_request in Hrun.
    rewrite Hreq in Hrun. cbn [ret] in Hrun.
    unfold or_reply, First_message in Hrun.
    rewrite statement_ok in Hrun by (apply Hok1; lia).
    cbn [RegenerateMessageRequest.MessageID RegenerateMessageRequest.SessionID] in Hrun.
    rewrite Horig in Hrun. cbn [fst snd] in Hrun.
    unfold First_session in Hrun.
    rewrite statement_ok in Hrun by (cbn; unfold tl_of; apply Hok1; lia).
    cbn [fst snd db clock ids faults sessions messages] in Hrun.
    replace (find_session (ids w 0%nat) _) with (Some session) in Hrun
      by (symmetry; exact Hsess).
    cbn [fst snd] in Hrun.
    unfold First_previous_user_message in Hrun.
    rewrite statement_ok in Hrun by (cbn; unfold tl_of; apply Hok1; lia).
    cbn [fst snd db clock ids faults sessions messages] in Hrun.
    assert (Hnone : previous_user_message (ids w 0%nat) (Message.Timestamp bm) (db w1)
                    = None).
    { unfold previous_user_message. cbn [bm Message.Timestamp]. rewrite Hcand.
      apply Z.ltb_ge in Hge. rewrite Hge. reflexivity. }
    replace (previous_user_message (ids w 0%nat) (Message.Timestamp bm) _)
      with (@None Message.t) in Hrun by (symmetry; exact Hnone).
    cbn in Hrun. inversion Hrun. split; reflexivity.
Qed.

(** ** services/chat_service.go *)

Lemma find_touched_session (id : string) (t : Time) (l : list Session.t) :
  find (session_has_id id)
       (map (fun s => if session_has_id id s then Session.with_UpdatedAt t s else s) l)
  = option_map (Session.with_UpdatedAt t) (find (session_has_id id) l).
Proof.
  induction l as [|x l IH]; cbn; [reflexivity|].
  destruct (session_has_id id x) eqn:E.
  - unfold session_has_id in *. cbn. rewrite E. reflexivity.
  - rewrite E. exact IH.
Qed.

(** X25.  [ChatService.AddMessage]: a sender other than "user" and "bot",
    or a session that is not stored, gives an error and leaves the tables
    as they are; a call that returns a message has appended exactly that
    message and set updated_at of its session to the clock reading taken
    after the insert; and when the insert goes through and the update of
    updated_at fails, the error is handed back with the message inserted
    and the session as it was. *)
Theorem ChatService_AddMessage_outcomes
    (sessionID content sender messageType : string) (w : World) :
  let '(r, w') := ChatService.AddMessage sessionID content sender messageType w in
  let message :=
    Message.mk (ids w 0%nat) content sender (clock w 0%nat) messageType
               false false false "" sessionID in
  (sender_allowed sender = false \/ find_session sessionID (db w) = None ->
   (exists e, r = Err e) /\ db w' = db w)
  /\ (forall m, r = Ok m ->
        m = message
        /\ messages (db w') = (messages (db w) ++ [message])%list
        /\ sender_allowed sender = true
        /\ map Session.ID (sessions (db w')) = map Session.ID (sessions (db w))
        /\ exists session,
             find_session sessionID (db w) = Some session
             /\ find_session sessionID (db w')
                = Some (Session.with_UpdatedAt (clock w 1%nat) session))
  /\ (faults w 0%nat = false -> faults w 1%nat = true ->
      existsb (message_has_id (ids w 0%nat)) (messages (db w)) = false ->
      sender_allowed sender = true ->
      find_session sessionID (db w) <> None ->
      r = Err ErrInvalidDB
      /\ messages (db w') = (messages (db w) ++ [message])%list
      /\ sessions (db w') = sessions (db w)).
Proof.
  destruct w as [[ss ms] ck us fs].
  unfold ChatService.AddMessage, ChatService.andThen, uuid_New, time_Now,
    Create_message, Update_session_updated_at, statement, find_session.
  cbn [db clock ids faults sessions messages Message.ID Message.Sender
       Message.SessionID].
  assert (Hstored : forall id, find (session_has_id id) ss = None <->
                               existsb (session_has_id id) ss = false).
  { intros id. split; intros H.
    - apply find_none_existsb. exact H.
    - destruct (find (session_has_id id) ss) eqn:E; [|reflexivity].
      rewrite (find_some_existsb _ _ _ E) in H. discriminate. }
  destruct (fs 0%nat) eqn:F0; cbn [fst snd db clock ids faults sessions messages].
  { split; [|split].
    - intros _. split; [eexists; reflexivity|reflexivity].
    - intros m H. discriminate H.
    - intros H. discriminate H. }
  destruct (existsb (message_has_id (us 0%nat)) ms) eqn:Hdup;
    cbn [fst snd db clock ids faults sessions messages].
  { split; [|split].
    - intros _. split; [eexists; reflexivity|reflexivity].
    - intros m H. discriminate H.
    - intros _ _ H. discriminate H. }
  destruct (sender_allowed sender) eqn:Hsender;
    cbn [negb fst snd db clock ids faults sessions messages].
  2:{ split; [|split].
      - intros _. split; [eexists; reflexivity|reflexivity].
      - intros m H. discriminate H.
      - intros _ _ _ H. discriminate H. }
  destruct (existsb (session_has_id sessionID) ss) eqn:Hfk;
    cbn [negb fst snd db clock ids faults sessions messages].
  2:{ split; [|split].
      - intros _. split; [eexists; reflexivity|reflexivity].
      - intros m H. discriminate H.
      - intros _ _ _ _ H. exfalso. apply H. apply Hstored. exact Hfk. }
  unfold tl_of at 1 2.
  destruct (fs 1%nat) eqn:F1; cbn [fst snd db clock ids faults sessions messages].
  - split; [|split].
    + intros [H|H]; [discriminate H|]. apply Hstored in H. congruence.
    + intros m H. discriminate H.
    + intros _ _ _ _ _. repeat split.
  - split; [|split].
    + intros [H|H]; [discriminate H|]. apply Hstored in H. congruence.
    + intros m H. inversion H; subst m. split; [reflexivity|].
      split; [reflexivity|]. split; [reflexivity|]. split.
      * rewrite map_map. apply map_ext. intros x.
        destruct (session_has_id sessionID x); reflexivity.
      * destruct (find (session_has_id sessionID) ss) as [session|] eqn:E.
        -- exists session. split; [reflexivity|].
           rewrite find_touched_session, E. reflexivity.
        -- apply Hstored in E. congruence.
    + intros _ H. discriminate H.
Qed.

(** X26.  The service layer and the handlers agree on updates, toggles and
    reads: [ChatService.UpdateSession], [ChatService.ToggleFavorite] and
    [ChatService.GetSession] leave the world that the handler of the same
    name leaves, and return a session exactly when the handler answers 200
    with it. *)
Theorem ChatService_agrees_with_handlers
    (sessionID title : string) (isFavorite : option bool) (w : World) :
  let update := Decoded (UpdateSessionRequest.mk title isFavorite) in
  (snd (ChatService.UpdateSession sessionID title isFavorite w)
   = snd (serve (UpdateSession sessionID update) w)
   /\ forall s, fst (ChatService.UpdateSession sessionID title isFavorite w) = Ok s
                <-> fst (serve (UpdateSession sessionID update) w)
                    = mkResponse StatusOK (JSession s []))
  /\ (snd (ChatService.ToggleFavorite sessionID w)
      = snd (serve (ToggleFavorite sessionID) w)
      /\ forall s, fst (ChatService.ToggleFavorite sessionID w) = Ok s
                   <-> fst (serve (ToggleFavorite sessionID) w)
                       = mkResponse StatusOK (JSessionNote s "Favorite status updated"))
  /\ (snd (ChatService.GetSession sessionID w) = snd (serve (GetSession sessionID) w)
      /\ forall s ms, fst (ChatService.GetSession sessionID w) = Ok (s, ms)
                      <-> fst (serve (GetSession sessionID) w)
                          = mkResponse StatusOK (JSession s ms)).
Proof.
  cbv zeta.
  unfold ChatService.UpdateSession, ChatService.ToggleFavorite, ChatService.GetSession,
    ChatService.andThen, serve, UpdateSession, ToggleFavorite, GetSession,
    bind, bind_request, or_reply, lift, c_JSON, ret, ShouldBindJSON, no_required,
    First_session, First_session_with_messages, Save_session, statement, time_Now.
  cbn [filter].
  split; [|split]; split_goal_tests;
    (split; [reflexivity|]); intros; (split; intros H; inversion H; reflexivity).
Qed.

(** X27.  [ChatService.CreateSession] stores the title it is given, the
    empty one included, where [handlers.CreateSession] stores "New Chat"
    for an empty title: with a non-empty title the two leave the same
    world and the same session, with an empty title the service stores a
    session without title. *)
Theorem ChatService_CreateSession_title (title : string) (w : World) :
  faults w 0%nat = false ->
  existsb (session_has_id (ids w 0%nat)) (sessions (db w)) = false ->
  let '(r, w') := ChatService.CreateSession title w in
  let '(response, w'') :=
    serve (CreateSession (Decoded (CreateSessionRequest.mk title))) w in
  let session := Session.mk (ids w 0%nat) title (clock w 0%nat) (clock w 1%nat) false in
  r = Ok session
  /\ sessions (db w') = (sessions (db w) ++ [session])%list
  /\ (title <> "" -> w'' = w' /\ response = mkResponse StatusCreated (JSession session []))
  /\ (title = "" ->
      response = mkResponse StatusCreated
                   (JSession (Session.with_Title "New Chat" session) [])).
Proof.
  intros F0 Hfree. destruct w as [[ss ms] ck us fs].
  cbn [db clock ids faults sessions messages] in *.
  unfold ChatService.CreateSession, ChatService.andThen, serve, CreateSession,
    bind, bind_request, or_reply, lift, c_JSON, ret, ShouldBindJSON, no_required,
    Create_session, statement, uuid_New, time_Now.
  cbn [filter fst snd db clock ids faults sessions messages Session.ID
       CreateSessionRequest.Title].
  rewrite F0, Hfree. cbn [fst snd]. unfold tl_of.
  split; [reflexivity|]. split; [reflexivity|]. split.
  - intros Hne. apply String.eqb_neq in Hne. rewrite Hne. split; reflexivity.
  - intros ->. reflexivity.
Qed.

(** ** Sample runs *)

Lemma clock_monotone_ticking d t us fs : clock_monotone (mkWorld d (ticking t) us fs).
Proof. intros i j Hij. cbn. unfold ticking. lia. Qed.

Lemma stamps_ok_chat_world : stamps_ok chat_world.
Proof.
  intros s [<-|[<-|[]]]; cbn; unfold ticking; lia.
Qed.

Lemma schema_ok_empty : schema_ok (mkDB [] []).
Proof. split; [constructor|]. split; [constructor|]. intros m []. Qed.

Lemma schema_ok_chat_db : schema_ok chat_db.
Proof.
  split; [|split].
  - cbn. repeat constructor; cbn; intuition discriminate.
  - cbn. repeat constructor; cbn; intuition discriminate.
  - intros m [<-|[<-|[]]]; split; reflexivity.
Qed.

(** The favorites of [chat_world]. *)
Lemma GetFavoriteSessions_sorted_witness :
  exists rows,
    fst (ChatService.GetFavoriteSessions chat_world) = Ok rows
    /\ Permutation rows (filter Session.IsFavorite (sessions (db chat_world)))
    /\ (forall s, In s rows <->
                  In s (sessions (db chat_world)) /\ Session.IsFavorite s = true)
    /\ StronglySorted (fun a b => Session.UpdatedAt b <= Session.UpdatedAt a) rows
    /\ db (snd (ChatService.GetFavoriteSessions chat_world)) = db chat_world.
Proof. apply (GetFavoriteSessions_sorted chat_world). reflexivity. Defined.

(** A first message to a server started with no variable set. *)
Lemma SendMessage_without_api_key_witness :
  let run := serve (SendMessage (wired_AIService unreachable unset_env)
                                (Decoded hi_request)) empty_world in
  fst run <> error_response StatusInternalServerError "AI Service error"
                            "Failed to get AI response"
  /\ (Status (fst run) = StatusOK ->
      exists req botMessage before,
        Decoded hi_request = Decoded req
        /\ fst run = mkResponse StatusOK
             (JSend (SendMessageResponse.mk botMessage
                                            (Message.SessionID botMessage)))
        /\ Message.Content botMessage
           = "Mock response to: " ++ SendMessageRequest.Message req
        /\ Message.Sender botMessage = "bot"
        /\ messages (db (snd run)) = (before ++ [botMessage])%list).
Proof.
  apply (SendMessage_without_api_key unreachable unset_env (Decoded hi_request)
           empty_world); reflexivity.
Defined.

(** A server started with the key and without the URL. *)
Lemma wired_client_posts_to_environment_url_witness :
  config.AIAPIURL (config.LoadConfig key_only_env)
    = "https://api.openai.com/v1/chat/completions"
  /\ (forall message, exists e,
         services.SendMessage (wired_AIService unreachable key_only_env) message = Err e)
  /\ (forall message, exists e,
         services.RegenerateMessage (wired_AIService unreachable key_only_env) message
         = Err e).
Proof.
  apply (wired_client_posts_to_environment_url unreachable key_only_env).
  - discriminate.
  - reflexivity.
  - intros auth request. eexists. reflexivity.
Defined.

(** Creating a session without a title. *)
Lemma CreateSession_stores_witness :
  let '(response, w') :=
    serve (CreateSession (Decoded (CreateSessionRequest.mk ""))) empty_world in
  exists session,
    response = mkResponse StatusCreated (JSession session [])
    /\ sessions (db w') = (sessions (db empty_world) ++ [session])%list
    /\ messages (db w') = messages (db empty_world)
    /\ Session.ID session = "s-1"
    /\ Session.Title session = "New Chat"
    /\ Session.Title session <> ""
    /\ Session.IsFavorite session = false
    /\ Session.CreatedAt session = 100
    /\ Session.UpdatedAt session = 101.
Proof.
  apply (CreateSession_stores (Decoded (CreateSessionRequest.mk ""))
           (CreateSessionRequest.mk "") empty_world); reflexivity.
Defined.

(** Creating the session "Plans" and reading it back. *)
Lemma CreateSession_then_GetSession_witness :
  let w1 := snd (serve (CreateSession (Decoded (CreateSessionRequest.mk "Plans")))
                       empty_world) in
  fst (serve (GetSession "s-1") w1)
    = mkResponse StatusOK (JSession (Session.mk "s-1" "Plans" 100 101 false) [])
  /\ db (snd (serve (GetSession "s-1") w1)) = db w1.
Proof.
  apply (CreateSession_then_GetSession (Decoded (CreateSessionRequest.mk "Plans"))
           empty_world _ _ (Session.mk "s-1" "Plans" 100 101 false));
    [exact schema_ok_empty|reflexivity|reflexivity|reflexivity].
Defined.


(** Deleting a session that is not there. *)
Lemma DeleteSession_absent_witness :
  Status (fst (serve (DeleteSession "s-9") chat_world)) = StatusNotFound
  /\ db (snd (serve (DeleteSession "s-9") chat_world)) = db chat_world.
Proof. apply (DeleteSession_absent "s-9" chat_world). reflexivity. Defined.

(** Deleting the conversation [s-1]. *)
Lemma DeleteSession_existing_witness :
  fst (serve (DeleteSession "s-1") chat_world)
    = mkResponse StatusOK (JNote "Session deleted successfully")
  /\ sessions (db (snd (serve (DeleteSession "s-1") chat_world)))
     = filter (fun s => negb (session_has_id "s-1" s)) (sessions (db chat_world))
  /\ messages (db (snd (serve (DeleteSession "s-1") chat_world)))
     = filter (fun m => negb (message_in_session "s-1" m)) (messages (db chat_world))
  /\ (forall w'', db w'' = db (snd (serve (DeleteSession "s-1") chat_world)) ->
                  Status (fst (serve (GetSession "s-1") w'')) = StatusNotFound).
Proof.
  apply (DeleteSession_existing "s-1" chat_world session_1); [reflexivity|].
  intros i _. reflexivity.
Defined.

(** Deleting the conversation [s-1] when the third statement fails. *)
Lemma DeleteSession_partial_failure_witness :
  let '(response, w') := serve (DeleteSession "s-1") delete_fault_world in
  response = error_response StatusInternalServerError "Database error"
                            "Failed to delete session"
  /\ find_session "s-1" (db w') = Some session_1
  /\ sessions (db w') = sessions (db delete_fault_world)
  /\ messages (db w')
     = filter (fun m => negb (message_in_session "s-1" m))
              (messages (db delete_fault_world))
  /\ (forall m, In m (messages (db w')) -> Message.SessionID m <> "s-1").
Proof.
  apply (DeleteSession_partial_failure "s-1" delete_fault_world session_1); reflexivity.
Defined.

(** One toggle on [chat_world]. *)
Lemma request_keeps_timestamps_witness :
  let w' := snd (serve (route services.MockAIService (POST_session_favorite "s-1"))
                       chat_world) in
  clock_monotone w' /\ stamps_ok w'
  /\ (forall id s s',
         find_session id (db chat_world) = Some s ->
         find_session id (db w') = Some s' ->
         Session.UpdatedAt s <= Session.UpdatedAt s').
Proof.
  apply (request_keeps_timestamps services.MockAIService (POST_session_favorite "s-1")
           chat_world).
  - apply clock_monotone_ticking.
  - exact stamps_ok_chat_world.
Defined.

(** The sample requests on [chat_world]. *)
Lemma serve_all_keeps_timestamps_witness :
  clock_monotone (serve_all services.MockAIService sample_requests chat_world)
  /\ stamps_ok (serve_all services.MockAIService sample_requests chat_world).
Proof.
  apply (serve_all_keeps_timestamps services.MockAIService sample_requests chat_world).
  - apply clock_monotone_ticking.
  - exact stamps_ok_chat_world.
Defined.

(** A second message to the stored conversation [s-1]. *)
Lemma SendMessage_session_id_rejected_witness :
  find_session "s-1" (db chat_world) = Some session_1
  /\ fst (serve (SendMessage services.MockAIService (Decoded more_request)) chat_world)
     = error_response StatusNotFound "Session not found"
                      "The specified session does not exist"
  /\ db (snd (serve (SendMessage services.MockAIService (Decoded more_request))
                    chat_world))
     = db chat_world.
Proof.
  split; [reflexivity|].
  apply (SendMessage_session_id_rejected services.MockAIService (Decoded more_request)
           more_request chat_world); [reflexivity|discriminate].
Defined.

Lemma serve_all_keeps_schema_witness :
  schema_ok (db (serve_all services.MockAIService sample_requests chat_world)).
Proof.
  apply (serve_all_keeps_schema services.MockAIService sample_requests chat_world).
  exact schema_ok_chat_db.
Defined.

(** Regenerating the reply [m-2]. *)
Lemma history_append_only_witness :
  let r := POST_chat_regenerate (Decoded (RegenerateMessageRequest.mk "m-2" "s-1")) in
  exists added,
    map written_once
        (messages (db (snd (serve (route services.MockAIService r) chat_world))))
    = (map written_once (messages (db chat_world)) ++ map written_once added)%list
    /\ (length added <= 2)%nat.
Proof.
  apply (history_append_only services.MockAIService
           (POST_chat_regenerate (Decoded (RegenerateMessageRequest.mk "m-2" "s-1")))
           chat_world).
  - cbn. repeat constructor; cbn; intuition discriminate.
  - intros id. discriminate.
Defined.

(** A first message, read back. *)
Lemma SendMessage_then_GetSession_witness :
  let '(first, w1) :=
    serve (SendMessage services.MockAIService (Decoded hi_request)) empty_world in
  let '(second, w2) := serve (GetSession "s-1") w1 in
  exists userMessage botMessage,
    first = mkResponse StatusOK (JSend (SendMessageResponse.mk botMessage "s-1"))
    /\ second = mkResponse StatusOK
                  (JSession (Session.mk "s-1" "New Chat" 100 104 false)
                            [userMessage; botMessage])
    /\ Message.Content userMessage = "Hi"
    /\ Message.Sender userMessage = "user"
    /\ Message.Content botMessage = "Mock response to: Hi"
    /\ Message.Sender botMessage = "bot"
    /\ db w2 = db w1.
Proof.
  apply (SendMessage_then_GetSession services.MockAIService (Decoded hi_request)
           hi_request empty_world "Mock response to: Hi");
    try reflexivity; try discriminate.
  - intros i _. reflexivity.
  - exact schema_ok_empty.
Defined.

(** A first message, and its reply regenerated. *)
Lemma SendMessage_then_RegenerateMessage_witness :
  let '(first, w1) :=
    serve (SendMessage services.MockAIService (Decoded hi_request)) empty_world in
  let '(second, w2) :=
    serve (RegenerateMessage services.MockAIService
             (Decoded (RegenerateMessageRequest.mk "m-2" "s-1"))) w1 in
  (102 < 103 ->
   second = mkResponse StatusOK
              (JMessage (Message.mk "id-n" "Mock regenerated response to: Hi" "bot" 105
                                    "text" false false true "m-2" "s-1"))
   /\ sessions (db w2) = sessions (db w1))
  /\ (103 <= 102 ->
      second = error_response StatusNotFound "User message not found"
                              "Could not find the user message to regenerate"
      /\ db w2 = db w1).
Proof.
  apply (SendMessage_then_RegenerateMessage services.MockAIService (Decoded hi_request)
           hi_request empty_world "Mock response to: Hi"
           "Mock regenerated response to: Hi");
    try reflexivity; try discriminate.
  - intros i _. reflexivity.
  - exact schema_ok_empty.
Defined.

(** The service creating a session without a title. *)
Lemma ChatService_CreateSession_title_witness :
  let '(r, w') := ChatService.CreateSession "" empty_world in
  let '(response, w'') :=
    serve (CreateSession (Decoded (CreateSessionRequest.mk ""))) empty_world in
  let session := Session.mk "s-1" "" 100 101 false in
  r = Ok session
  /\ sessions (db w') = (sessions (db empty_world) ++ [session])%list
  /\ ("" <> "" -> w'' = w' /\ response = mkResponse StatusCreated (JSession session []))
  /\ ("" = "" ->
      response = mkResponse StatusCreated
                   (JSession (Session.with_Title "New Chat" session) [])).
Proof.
  apply (ChatService_CreateSession_title "" empty_world); reflexivity.
Defined.
